(** * Memento Mori year visualizer: the grid builder, the renderer and the
      settings store of [script.js], embedded in Rocq.

    Numbers of the script that are integers by construction (years, day
    counts, cell indices, the grid spacings) are modelled in [Z]; the
    numbers the canvas works with (radii, coordinates, time stamps, opacity)
    are modelled as real numbers, so rounding of IEEE doubles is outside the
    model.  The settings object is a finite map from property names to
    JavaScript values. *)

From Stdlib Require Import ZArith List Lia Bool String Ascii Reals Lra.
From stdpp Require Import base option list list_numbers gmap strings fin_maps pretty.

Local Open Scope Z_scope.

(** ** Loops *)

(** [for (let i = start; ...; i++) s = body(i, s)], run for [n] iterations. *)
Fixpoint forLoop {S : Type} (n : nat) (i : Z) (body : Z → S → S) (s : S) : S :=
  match n with
  | O => s
  | S n' => forLoop n' (i + 1) body (body i s)
  end.

(** [for (let i = 0; i < bound; i++)]: with an integer bound the body runs
    [max 0 bound] times, for i = 0, 1, ..., bound - 1. *)
Definition for_upto {S : Type} (bound : Z) (body : Z → S → S) (s : S) : S :=
  forLoop (Z.to_nat bound) 0 body s.

(** [Math.ceil(a / b)] for integers [a] and [b > 0]. *)
Definition Math_ceil_div (a b : Z) : Z := - ((- a) / b).

(** ** The platform's [Date], as far as [new Date(year, 0, 1).getDay()]
    needs it (ECMA-262, "Date objects"), with the local time zone taken to
    be UTC.  A time value is a number of milliseconds since 1970-01-01;
    [None] stands for the Invalid Date, whose fields read as NaN. *)
Module Date.

Definition msPerDay : Z := 86400000.

(** Day number of January 1 of year [y] in the proleptic Gregorian
    calendar. *)
Definition DayFromYear (y : Z) : Z :=
  365 * (y - 1970) + (y - 1969) / 4 - (y - 1901) / 100 + (y - 1601) / 400.

(** The constructor reads a year 0..99 as 1900 + year. *)
Definition fullYear (year : Z) : Z :=
  if (0 <=? year) && (year <=? 99) then 1900 + year else year.

Definition TimeClip (t : Z) : option Z :=
  if Z.abs t >? 8640000000000000 then None else Some t.

(** [new Date(year, 0, 1)] *)
Definition newJan1 (year : Z) : option Z :=
  TimeClip (msPerDay * DayFromYear (fullYear year)).

(** 0 = Sunday, 1 = Monday, ..., 6 = Saturday. *)
Definition WeekDay (t : Z) : Z := (t / msPerDay + 4) mod 7.

Definition getDay (date : option Z) : option Z := WeekDay <$> date.

(** The years whose January 1 is a valid time value. *)
Definition calendarYear (year : Z) : Prop := -271821 < year ≤ 275760.

End Date.

(** Days of the week, to name the two numberings the script converts
    between. *)
Inductive weekday : Set :=
  Sunday | Monday | Tuesday | Wednesday | Thursday | Friday | Saturday.

(** The native numbering of [getDay]: 0 = Sunday. *)
Definition nativeIndex (w : weekday) : Z :=
  match w with
  | Sunday => 0 | Monday => 1 | Tuesday => 2 | Wednesday => 3
  | Thursday => 4 | Friday => 5 | Saturday => 6
  end.

(** The ISO numbering the grid wants: 0 = Monday, ..., 6 = Sunday. *)
Definition mondayIndex (w : weekday) : Z :=
  match w with
  | Monday => 0 | Tuesday => 1 | Wednesday => 2 | Thursday => 3
  | Friday => 4 | Saturday => 5 | Sunday => 6
  end.

(** ** JavaScript values *)

(** A number with a finite decimal expansion: [mantissa / 10 ^ scale].
    This is the form in which numbers reach the settings (the default dot
    size 3.5, numbers written in the stored JSON text). *)
Record number : Set := mkNumber { mantissa : Z; scale : nat }.

#[warnings="-register-all"]
Inductive value : Type :=
| VUndefined
| VNull
| VBool (b : bool)
| VNum (n : number)
| VStr (s : string)
| VArr (items : list value)
| VObj (props : gmap string value).

(** The own properties of a plain object, by name.  The prototype of the
    object is not part of the model: a read sees own properties only, so
    the names that [Object.prototype] defines ([__proto__], [toString],
    ...) are read faithfully only where the object has them as own
    properties. *)
Abbreviation object := (gmap string value).

(** [o[key]]: a missing property reads as [undefined]. *)
Definition prop (o : object) (key : string) : value :=
  default VUndefined (o !! key).

(** [o[key] = v] on a plain object.  An own property is overwritten.  A
    missing one is created, except under the name [__proto__]: that name
    is an accessor inherited from [Object.prototype], and the assignment
    runs its setter, which changes the prototype (or, for a primitive
    [v], nothing) and creates no own property.  An own property named
    [__proto__] exists only where [JSON.parse] and spread created it. *)
Definition assign (o : object) (key : string) (v : value) : object :=
  match o !! key with
  | Some _ => <[key := v]> o
  | None => if String.eqb key "__proto__" then o else <[key := v]> o
  end.

(** Truthiness, as [if (v)] and [v ? a : b] test it. *)
Definition truthy (v : value) : bool :=
  match v with
  | VUndefined | VNull => false
  | VBool b => b
  | VNum n => negb (mantissa n =? 0)
  | VStr s => negb (String.eqb s EmptyString)
  | VArr _ | VObj _ => true
  end.

Definition numberToR (n : number) : R :=
  (IZR (mantissa n) / IZR (10 ^ Z.of_nat (scale n)))%R.

Fixpoint stringChars (i : nat) (s : string) : list (string * value) :=
  match s with
  | EmptyString => []
  | String c s' => (pretty i, VStr (String c EmptyString)) :: stringChars (S i) s'
  end.

(** The own enumerable properties that object spread [{...v}] copies. *)
Definition ownProps (v : value) : object :=
  match v with
  | VObj props => props
  | VArr items => list_to_map (imap (λ i x, (pretty i, x)) items)
  | VStr s => list_to_map (stringChars 0 s)
  | VUndefined | VNull | VBool _ | VNum _ => ∅
  end.

(** [{...a, ...b}]: the properties of [b] win. *)
Definition spread2 (a b : object) : object := b ∪ a.

(** ** Platform interfaces *)

(** [JSON.stringify] on a plain object and [JSON.parse]; [JSON_parse] is
    [None] where the platform throws a SyntaxError. *)
Class JSON : Type := {
  JSON_stringify : object → string;
  JSON_parse : string → option value
}.

(** [parseFloat], on the values that denote a number; a value on which the
    platform yields NaN is outside the model. *)
Class Numeric : Type := {
  parseFloat : value → R
}.

Inductive exn : Set := SyntaxError.

Inductive result (A : Type) : Type :=
| Ok (a : A)
| Throw (e : exn).
Arguments Ok {A} a.
Arguments Throw {A} e.

(** ** The grid *)

Inductive Status : Set := past | today | future.

#[global] Instance Status_eq_dec : EqDecision Status.
Proof. solve_decision. Defined.

Record Cell : Set := mkCell { day : Z; status : Status }.

#[global] Instance Cell_eq_dec : EqDecision Cell.
Proof. solve_decision. Defined.

(** A cell of a row is [null] (here [None]) or a day. *)
Abbreviation Row := (list (option Cell)).
Abbreviation Grid := (list (list (option Cell))).

(** ** The 2D context: the calls [draw] makes, in order *)

Inductive CanvasOp : Type :=
| clearRect (x y w h : R)
| beginPath
| arc (x y radius startAngle endAngle : R)
| fill
| setFillStyle (style : value)
| setGlobalAlpha (alpha : R)
| setShadowBlur (blur : R)
| setShadowColor (color : value)
| createRadialGradient (x0 y0 r0 x1 y1 r1 : R)
| requestAnimationFrame.

(** ** Renderer: grid construction and drawing.
    The canvas is kept as its CSS pixel size ([styleWidth], [styleHeight])
    and the size of its backing store ([canvasWidth], [canvasHeight]); that
    the platform truncates the latter to integers is outside the model. *)
Module Renderer.

Record t : Type := mk {
  dpr : R;
  cols : Z;
  dotGapX : Z;
  dotGapY : Z;
  startTime : R;
  grid : Grid;
  styleWidth : Z;
  styleHeight : Z;
  canvasWidth : R;
  canvasHeight : R
}.

(** The constructor: [devicePixelRatio] is [Math.min(window.devicePixelRatio
    || 1, 2)], [now] is [performance.now()], and the canvas comes with
    some size. *)
Definition new (devicePixelRatio now : R) (cssWidth cssHeight : Z)
    (width height : R) : t :=
  {| dpr := devicePixelRatio; cols := 7; dotGapX := 28; dotGapY := 14;
     startTime := now; grid := [];
     styleWidth := cssWidth; styleHeight := cssHeight;
     canvasWidth := width; canvasHeight := height |}.

(** [resize].  [canvasWidth] and [canvasHeight] stand for the numbers
    assigned to [canvas.width] and [canvas.height], as exact products;
    the platform keeps them converted to integers. *)
Definition resize (this : t) : t :=
  match grid this with
  | [] => this
  | _ =>
    let rows := Z.of_nat (length (grid this)) in
    let width := cols this * dotGapX this in
    let height := rows * dotGapY this in
    {| dpr := dpr this; cols := cols this; dotGapX := dotGapX this;
       dotGapY := dotGapY this; startTime := startTime this;
       grid := grid this;
       styleWidth := width; styleHeight := height;
       canvasWidth := (IZR width * dpr this)%R;
       canvasHeight := (IZR height * dpr this)%R |}
  end.

Definition isLeap (year : Z) : bool :=
  ((Z.rem year 4 =? 0) && negb (Z.rem year 100 =? 0)) || (Z.rem year 400 =? 0).

Definition totalDays (year : Z) : Z := if isLeap year then 366 else 365.

(** [(startDay + 6) % 7] *)
Definition offsetOf (startDay : Z) : Z := Z.rem (startDay + 6) 7.

Definition statusOf (dayCount currentDayOfYear : Z) : Status :=
  if dayCount <? currentDayOfYear then past
  else if dayCount =? currentDayOfYear then today
  else future.

(** Body of the inner loop: the state is the row built so far and
    [dayCount]. *)
Definition pushCell (cols offset totalDays currentDayOfYear r c : Z)
    (st : Row * Z) : Row * Z :=
  let '(rowData, dayCount) := st in
  let idx := r * cols + c in
  if (idx <? offset) || (dayCount >? totalDays) then
    (rowData ++ [None], dayCount)
  else
    (rowData ++ [Some (mkCell dayCount (statusOf dayCount currentDayOfYear))],
     dayCount + 1).

(** Body of the outer loop: the state is the grid built so far and
    [dayCount]. *)
Definition pushRow (cols offset totalDays currentDayOfYear r : Z)
    (st : Grid * Z) : Grid * Z :=
  let '(grid, dayCount) := st in
  let '(rowData, dayCount') :=
    for_upto cols (pushCell cols offset totalDays currentDayOfYear r)
             ([], dayCount) in
  (grid ++ [rowData], dayCount').

(** The two nested loops, started from [this.grid = []] and
    [dayCount = 1]. *)
Definition fillGrid (cols offset totalDays currentDayOfYear rows : Z) : Grid :=
  fst (for_upto rows (pushRow cols offset totalDays currentDayOfYear) ([], 1)).

Definition withGrid (this : t) (g : Grid) : t :=
  {| dpr := dpr this; cols := cols this; dotGapX := dotGapX this;
     dotGapY := dotGapY this; startTime := startTime this; grid := g;
     styleWidth := styleWidth this; styleHeight := styleHeight this;
     canvasWidth := canvasWidth this; canvasHeight := canvasHeight this |}.

(** [buildGrid(year, currentDayOfYear)].  When the date is invalid,
    [startDay], [offset], [totalCells] and [rows] are NaN, the loop test
    [r < rows] fails at once and the grid stays empty. *)
Definition buildGrid (this : t) (year currentDayOfYear : Z) : t :=
  let totalDays := totalDays year in
  match Date.getDay (Date.newJan1 year) with
  | None => resize (withGrid this [])
  | Some startDay =>
    let offset := offsetOf startDay in
    let totalCells := offset + totalDays in
    let rows := Math_ceil_div totalCells (cols this) in
    resize (withGrid this
              (fillGrid (cols this) offset totalDays currentDayOfYear rows))
  end.

(** What [draw] does for the cell in row [r], column [c]. *)
Definition drawCell (radius : R) (glowEnabled accentColor : value)
    (pastColor futureColor : string) (elapsed gapX gapY halfX halfY : R)
    (r c : nat) (cell : option Cell) : list CanvasOp :=
  match cell with
  | None => []
  | Some cell =>
    let cx := (halfX + INR c * gapX)%R in
    let cy := (halfY + INR r * gapY)%R in
    [beginPath; arc cx cy radius 0 (PI * 2)] ++
    match status cell with
    | past => [setFillStyle (VStr pastColor); fill]
    | future => [setFillStyle (VStr futureColor); fill]
    | today =>
      (if truthy glowEnabled then
         let pulse := (0.5 + 0.5 * sin (elapsed * 0.002))%R in
         let maxGlow := (radius * 3)%R in
         [createRadialGradient cx cy radius cx cy maxGlow;
          setGlobalAlpha (0.3 * pulse);
          setFillStyle accentColor;
          beginPath;
          arc cx cy maxGlow 0 (PI * 2);
          fill;
          setGlobalAlpha 1.0]
       else []) ++
      [beginPath;
       arc cx cy (radius + 1) 0 (PI * 2);
       setFillStyle accentColor;
       fill;
       setShadowBlur 10;
       setShadowColor accentColor;
       fill;
       setShadowBlur 0]
    end
  end.

(** [draw(timestamp)], one frame: [state] is [this.settings.state], and
    [pastColor], [futureColor] are the trimmed [--dot-past] and
    [--dot-future] of the computed style.  The result is the sequence of
    calls on the context, closed by the request for the next frame. *)
Definition draw `{Numeric} (this : t) (state : object)
    (pastColor futureColor : string) (timestamp : R) : list CanvasOp :=
  let dotSize := prop state "dotSize" in
  let glowEnabled := prop state "glowEnabled" in
  let accentColor := prop state "accentColor" in
  let elapsed := (timestamp - startTime this)%R in
  let radius := parseFloat dotSize in
  let gapX := IZR (dotGapX this) in
  let gapY := IZR (dotGapY this) in
  let halfX := (gapX / 2)%R in
  let halfY := (gapY / 2)%R in
  [clearRect 0 0 (canvasWidth this / dpr this) (canvasHeight this / dpr this)]
  ++ concat (imap (λ r row,
       concat (imap (λ c cell,
         drawCell radius glowEnabled accentColor pastColor futureColor
                  elapsed gapX gapY halfX halfY r c cell) row)) (grid this))
  ++ [requestAnimationFrame].

End Renderer.

(** ** What the context does with the calls: a current path of arcs, the
    drawing state, and the marks left on the surface.  The platform raises
    on an arc or a gradient with a negative radius; frames with a negative
    dot size are outside the model. *)
Module Canvas.

Record Arc : Type := mkArc {
  arcX : R; arcY : R; arcRadius : R; arcStart : R; arcEnd : R
}.

(** A full circle is an arc from angle 0 to 2π. *)
Definition circle (x y radius : R) : Arc := mkArc x y radius 0 (PI * 2).

Record Ctx : Type := mkCtx {
  path : list Arc;
  fillStyle : value;
  globalAlpha : R;
  shadowBlur : R;
  shadowColor : value
}.

Inductive Mark : Type :=
| Cleared (x y w h : R)
| Filled (shape : list Arc) (style : value) (alpha blur : R).

Definition step (ctx : Ctx) (op : CanvasOp) : Ctx * list Mark :=
  match op with
  | clearRect x y w h => (ctx, [Cleared x y w h])
  | beginPath =>
    (mkCtx [] (fillStyle ctx) (globalAlpha ctx) (shadowBlur ctx) (shadowColor ctx), [])
  | arc x y radius a0 a1 =>
    (mkCtx (path ctx ++ [mkArc x y radius a0 a1]) (fillStyle ctx)
           (globalAlpha ctx) (shadowBlur ctx) (shadowColor ctx), [])
  | fill =>
    (ctx, [Filled (path ctx) (fillStyle ctx) (globalAlpha ctx) (shadowBlur ctx)])
  | setFillStyle style =>
    (mkCtx (path ctx) style (globalAlpha ctx) (shadowBlur ctx) (shadowColor ctx), [])
  | setGlobalAlpha alpha =>
    (mkCtx (path ctx) (fillStyle ctx) alpha (shadowBlur ctx) (shadowColor ctx), [])
  | setShadowBlur blur =>
    (mkCtx (path ctx) (fillStyle ctx) (globalAlpha ctx) blur (shadowColor ctx), [])
  | setShadowColor color =>
    (mkCtx (path ctx) (fillStyle ctx) (globalAlpha ctx) (shadowBlur ctx) color, [])
  | createRadialGradient _ _ _ _ _ _ => (ctx, [])
  | requestAnimationFrame => (ctx, [])
  end.

Fixpoint run (ctx : Ctx) (ops : list CanvasOp) : Ctx * list Mark :=
  match ops with
  | [] => (ctx, [])
  | op :: ops' =>
    let '(ctx1, marks1) := step ctx op in
    let '(ctx2, marks2) := run ctx1 ops' in
    (ctx2, marks1 ++ marks2)
  end.

(** The marks of a frame. *)
Definition marks (ctx : Ctx) (ops : list CanvasOp) : list Mark :=
  snd (run ctx ops).

(** Between frames the context is back at full opacity and no shadow. *)
Definition settled (ctx : Ctx) : Prop :=
  globalAlpha ctx = 1%R ∧ shadowBlur ctx = 0%R.

(** A fresh 2D context. *)
Definition fresh : Ctx := mkCtx [] (VStr "#000000") 1 0 (VStr "rgba(0, 0, 0, 0)").

End Canvas.

(** ** A frame as the specification describes it *)
Module DrawSpec.
Import Canvas.

(** The centre of the cell in column [c] and row [r]. *)
Definition centerX (this : Renderer.t) (c : nat) : R :=
  (IZR (Renderer.dotGapX this) / 2 + INR c * IZR (Renderer.dotGapX this))%R.
Definition centerY (this : Renderer.t) (r : nat) : R :=
  (IZR (Renderer.dotGapY this) / 2 + INR r * IZR (Renderer.dotGapY this))%R.

(** The oscillation of the glow. *)
Definition pulse (elapsed : R) : R := (0.5 + 0.5 * sin (elapsed * 0.002))%R.

(** The marks one day cell leaves, from a settled context. *)
Definition cellMarks (radius : R) (glowEnabled accentColor : value)
    (pastColor futureColor : string) (elapsed cx cy : R) (cell : Cell)
    : list Mark :=
  match status cell with
  | past => [Filled [circle cx cy radius] (VStr pastColor) 1 0]
  | future => [Filled [circle cx cy radius] (VStr futureColor) 1 0]
  | today =>
    (if truthy glowEnabled then
       [Filled [circle cx cy (radius * 3)] accentColor (0.3 * pulse elapsed) 0]
     else [])
    ++ [Filled [circle cx cy (radius + 1)] accentColor 1 0;
        Filled [circle cx cy (radius + 1)] accentColor 1 10]
  end.

Definition slotMarks (radius : R) (glowEnabled accentColor : value)
    (pastColor futureColor : string) (elapsed cx cy : R)
    (cell : option Cell) : list Mark :=
  match cell with
  | None => []
  | Some cell =>
    cellMarks radius glowEnabled accentColor pastColor futureColor
              elapsed cx cy cell
  end.

(** Some fill of the frame painted the circle of radius [radius] around
    [(x, y)]. *)
Definition filledCircle (x y radius : R) (ms : list Mark) : Prop :=
  ∃ shape style alpha blur,
    Filled shape style alpha blur ∈ ms ∧ circle x y radius ∈ shape.

(** Some fill of the frame painted that circle with opacity [alpha]. *)
Definition filledCircleAt (x y radius alpha : R) (ms : list Mark) : Prop :=
  ∃ shape style blur,
    Filled shape style alpha blur ∈ ms ∧ circle x y radius ∈ shape.

(** The dot claim as the specification words it: every day cell,
    whatever its status, gets a filled circle of the configured dot size
    around its centre. *)
Definition dotClaim `{Numeric} (this : Renderer.t) (state : object)
    (ms : list Mark) : Prop :=
  ∀ (r c : nat) (row : Row) (cell : Cell),
    Renderer.grid this !! r = Some row → row !! c = Some (Some cell) →
    filledCircle (centerX this c) (centerY this r)
                 (parseFloat (prop state "dotSize")) ms.

(** The glow claim as the specification words it: with glow enabled, the
    disc of three times the dot radius around today's cell is painted
    with opacity [pulse elapsed]. *)
Definition glowClaim `{Numeric} (this : Renderer.t) (state : object)
    (elapsed : R) (ms : list Mark) : Prop :=
  truthy (prop state "glowEnabled") = true →
  ∀ (r c : nat) (row : Row) (cell : Cell),
    Renderer.grid this !! r = Some row → row !! c = Some (Some cell) →
    status cell = today →
    filledCircleAt (centerX this c) (centerY this r)
                   (parseFloat (prop state "dotSize") * 3)
                   (pulse elapsed) ms.

End DrawSpec.

(** ** Settings: the state, its persistence in [localStorage] and its
    effects on the document. *)
Module Settings.

(** What [apply] writes: the [data-theme] attribute and the
    [--accent-color] property of the root element (the platform keeps the
    string form of the value it is handed), and whether the clock
    container carries the class [hidden]. *)
Record Dom : Type := mkDom {
  dataTheme : value;
  accentColorVar : value;
  clockHidden : bool
}.

Record World : Type := mkWorld {
  localStorage : gmap string string;
  document : Dom
}.

Record t : Type := mk {
  defaults : object;
  state : object
}.

Definition theDefaults : object :=
  <["theme" := VStr "dark"]> (
  <["accentColor" := VStr "#f28c38"]> (
  <["dotSize" := VNum (mkNumber 35 1)]> (
  <["glowEnabled" := VBool true]> (
  <["showClock" := VBool true]> ∅)))).

Definition getItem (w : World) (key : string) : option string :=
  localStorage w !! key.

Definition setItem (w : World) (key text : string) : World :=
  mkWorld (<[key := text]> (localStorage w)) (document w).

Definition apply (this : t) (w : World) : World :=
  mkWorld (localStorage w)
    (mkDom (prop (state this) "theme")
           (prop (state this) "accentColor")
           (negb (truthy (prop (state this) "showClock")))).

Definition get (this : t) (key : string) : value := prop (state this) key.

Section Methods.
Context `{JSON}.

(** [getItem] gives [null] for a missing key; [null] and the empty
    string are falsy. *)
Definition load (this : t) (w : World) : result object :=
  match getItem w "memento_settings" with
  | Some saved =>
    if negb (String.eqb saved EmptyString) then
      match JSON_parse saved with
      | Some parsed => Ok (spread2 (defaults this) (ownProps parsed))
      | None => Throw SyntaxError
      end
    else Ok (spread2 (defaults this) ∅)
  | None => Ok (spread2 (defaults this) ∅)
  end.

Definition save (this : t) (w : World) : World :=
  apply this (setItem w "memento_settings" (JSON_stringify (state this))).

Definition reset (this : t) (w : World) : t * World :=
  let this' := mk (defaults this) (spread2 (defaults this) ∅) in
  (this', save this' w).

Definition update (key : string) (v : value) (this : t) (w : World)
    : t * World :=
  let this' := mk (defaults this) (assign (state this) key v) in
  (this', save this' w).

(** The constructor. *)
Definition new (w : World) : result (t * World) :=
  match load (mk theDefaults ∅) w with
  | Ok st => let this := mk theDefaults st in Ok (this, apply this w)
  | Throw e => Throw e
  end.

(** The settings objects a session can hold: built by the constructor,
    then changed by [update] and [reset] only. *)
Inductive reachable : t → Prop :=
| reachable_new w this w' :
    new w = Ok (this, w') → reachable this
| reachable_update this key v w :
    reachable this → reachable (fst (update key v this w))
| reachable_reset this w :
    reachable this → reachable (fst (reset this w)).

(** The load claim as the specification words it for corrupt storage:
    a stored text that does not parse loads as the defaults. *)
Definition corruptLoadsDefaults (this : t) (w : World) : Prop :=
  ∀ saved, getItem w "memento_settings" = Some saved →
           JSON_parse saved = None →
           load this w = Ok (defaults this).

(** The stored text reads back as the object it was written from. *)
Definition readsBack (o : object) : Prop :=
  JSON_stringify o ≠ EmptyString
  ∧ ∃ parsed, JSON_parse (JSON_stringify o) = Some parsed
              ∧ ownProps parsed = o.

(** The round-trip claim as the specification words it: [save] and then
    a fresh [load] on the same storage give the saved state. *)
Definition roundTrips (this : t) (w : World) : Prop :=
  load this (save this w) = Ok (state this).

(** The update claim as the specification words it: [update key v] sets
    property [key] of the state to [v]. *)
Definition updateSets (key : string) (v : value) (this : t) (w : World)
    : Prop :=
  state (update key v this w).1 !! key = Some v.

End Methods.

End Settings.

(** ** A reference JSON codec: an instance of the platform interface for
    evaluating the settings store on concrete storage.  Texts are byte
    strings in UTF-8.  Numbers are exact decimals, written without an
    exponent. *)
Module RefJSON.

Definition dquote : ascii := "034"%char.
Definition backslash : ascii := "\"%char.

Definition code (c : ascii) : Z := Z.of_N (N_of_ascii c).
Definition char (n : Z) : ascii := ascii_of_N (Z.to_N n).
Definition str1 (c : ascii) : string := String c EmptyString.

Definition hexDigit (n : Z) : ascii :=
  if n <? 10 then char (48 + n) else char (87 + n).

Definition hexVal (c : ascii) : option Z :=
  let n := code c in
  if (48 <=? n) && (n <=? 57) then Some (n - 48)
  else if (97 <=? n) && (n <=? 102) then Some (n - 87)
  else if (65 <=? n) && (n <=? 70) then Some (n - 55)
  else None.

Definition digitVal (c : ascii) : option Z :=
  let n := code c in
  if (48 <=? n) && (n <=? 57) then Some (n - 48) else None.

(** *** Writing *)

Definition escapeChar (c : ascii) : string :=
  let n := code c in
  if n =? 34 then String backslash (str1 dquote)
  else if n =? 92 then String backslash (str1 backslash)
  else if n =? 8 then "\b"
  else if n =? 9 then "\t"
  else if n =? 10 then "\n"
  else if n =? 12 then "\f"
  else if n =? 13 then "\r"
  else if n <? 32 then
    "\u00" +:+ String (hexDigit (n / 16)) (str1 (hexDigit (n mod 16)))
  else str1 c.

Fixpoint escape (s : string) : string :=
  match s with
  | EmptyString => EmptyString
  | String c s' => escapeChar c +:+ escape s'
  end.

Definition quote (s : string) : string :=
  String dquote (escape s +:+ str1 dquote).

Fixpoint zeros (n : nat) : string :=
  match n with
  | O => EmptyString
  | S n' => String "0" (zeros n')
  end.

(** Drops trailing zeros of the fraction. *)
Fixpoint normalize (m : Z) (k : nat) : number :=
  match k with
  | O => mkNumber m O
  | S k' => if m mod 10 =? 0 then normalize (m / 10) k' else mkNumber m k
  end.

Definition numberToString (n : number) : string :=
  let n := normalize (mantissa n) (scale n) in
  match scale n with
  | O => pretty (mantissa n)
  | S _ =>
    let p := 10 ^ Z.of_nat (scale n) in
    let a := Z.abs (mantissa n) in
    let frac := pretty (a mod p) in
    (if mantissa n <? 0 then "-" else EmptyString)
    +:+ pretty (a / p) +:+ "."
    +:+ zeros (scale n - String.length frac) +:+ frac
  end.

Definition member (kv : string * option string) : option string :=
  (λ text, quote kv.1 +:+ ":" +:+ text) <$> kv.2.

(** [None] is [undefined]: such a property is left out of an object and
    written as [null] in an array. *)
Fixpoint stringifyValue (v : value) : option string :=
  match v with
  | VUndefined => None
  | VNull => Some "null"%string
  | VBool b => Some (if b then "true" else "false")%string
  | VNum n => Some (numberToString n)
  | VStr s => Some (quote s)
  | VArr items =>
    Some ("[" +:+ String.concat ","
            (map (λ x, default "null"%string (stringifyValue x)) items)
          +:+ "]")
  | VObj props =>
    Some ("{" +:+ String.concat ","
            (omap member (map_to_list (stringifyValue <$> props)))
          +:+ "}")
  end.

Definition stringify (o : object) : string :=
  default "null"%string (stringifyValue (VObj o)).

(** *** Reading *)

Definition isWs (c : ascii) : bool :=
  let n := code c in (n =? 32) || (n =? 9) || (n =? 10) || (n =? 13).

Fixpoint skipWs (s : string) : string :=
  match s with
  | EmptyString => s
  | String c s' => if isWs c then skipWs s' else s
  end.

Fixpoint stripPrefix (p s : string) : option string :=
  match p, s with
  | EmptyString, _ => Some s
  | String a p', String b s' =>
    if Ascii.eqb a b then stripPrefix p' s' else None
  | String _ _, EmptyString => None
  end.

(** The UTF-8 bytes of a code point below 0x10000. *)
Definition utf8 (n : Z) : string :=
  if n <? 128 then str1 (char n)
  else if n <? 2048 then
    String (char (192 + n / 64)) (str1 (char (128 + n mod 64)))
  else
    String (char (224 + n / 4096))
      (String (char (128 + (n / 64) mod 64)) (str1 (char (128 + n mod 64)))).

Definition unescape (c : ascii) : option string :=
  let n := code c in
  if n =? 34 then Some (str1 dquote)
  else if n =? 92 then Some (str1 backslash)
  else if n =? 47 then Some "/"%string
  else if n =? 98 then Some (str1 (char 8))
  else if n =? 102 then Some (str1 (char 12))
  else if n =? 110 then Some (str1 (char 10))
  else if n =? 114 then Some (str1 (char 13))
  else if n =? 116 then Some (str1 (char 9))
  else None.

Definition hex4 (a b c d : ascii) : option Z :=
  match hexVal a, hexVal b, hexVal c, hexVal d with
  | Some x, Some y, Some z, Some w => Some (((x * 16 + y) * 16 + z) * 16 + w)
  | _, _, _, _ => None
  end.

(** The rest of a string literal, after its opening quote. *)
Fixpoint parseString (s acc : string) : option (string * string) :=
  match s with
  | EmptyString => None
  | String c s' =>
    if code c =? 34 then Some (acc, s')
    else if code c =? 92 then
      match s' with
      | EmptyString => None
      | String e s'' =>
        if code e =? 117 then
          match s'' with
          | String h1 (String h2 (String h3 (String h4 s5))) =>
            match hex4 h1 h2 h3 h4 with
            | Some n => parseString s5 (acc +:+ utf8 n)
            | None => None
            end
          | _ => None
          end
        else
          match unescape e with
          | Some text => parseString s'' (acc +:+ text)
          | None => None
          end
      end
    else if code c <? 32 then None
    else parseString s' (acc +:+ str1 c)
  end.

(** Reads decimal digits: the number read, how many, and the rest. *)
Fixpoint readDigits (s : string) (acc : Z) (count : nat) : Z * nat * string :=
  match s with
  | EmptyString => (acc, count, s)
  | String c s' =>
    match digitVal c with
    | Some d => readDigits s' (10 * acc + d) (S count)
    | None => (acc, count, s)
    end
  end.

(** [m / 10 ^ k * 10 ^ e] *)
Definition decimal (m : Z) (k : nat) (e : Z) : number :=
  if e <? 0 then normalize m (k + Z.to_nat (- e))
  else if Z.of_nat k <=? e then mkNumber (m * 10 ^ (e - Z.of_nat k)) O
  else normalize m (k - Z.to_nat e).

Definition parseSign (s : string) : bool * string :=
  match s with
  | String c s' => if code c =? 45 then (true, s') else (false, s)
  | EmptyString => (false, s)
  end.

Definition parseFraction (s : string) (ip : Z) : option (Z * nat * string) :=
  match s with
  | String c s' =>
    if code c =? 46 then
      let '(m, k, rest) := readDigits s' ip 0 in
      if (k =? 0)%nat then None else Some (m, k, rest)
    else Some (ip, O, s)
  | EmptyString => Some (ip, O, s)
  end.

Definition parseExponent (s : string) : option (Z * string) :=
  match s with
  | String c s' =>
    if (code c =? 101) || (code c =? 69) then
      let '(neg, s1) :=
        match s' with
        | String g s2 =>
          if code g =? 45 then (true, s2)
          else if code g =? 43 then (false, s2) else (false, s')
        | EmptyString => (false, s')
        end in
      let '(e, k, rest) := readDigits s1 0 0 in
      if (k =? 0)%nat then None else Some (if neg then - e else e, rest)
    else Some (0, s)
  | EmptyString => Some (0, s)
  end.

Definition parseNumber (s : string) : option (number * string) :=
  let '(neg, s1) := parseSign s in
  match s1 with
  | EmptyString => None
  | String c s2 =>
    match digitVal c with
    | None => None
    | Some d =>
      let '(ip, _, s3) := if d =? 0 then (0, 1%nat, s2) else readDigits s2 d 1 in
      match parseFraction s3 ip with
      | None => None
      | Some (m, k, s4) =>
        match parseExponent s4 with
        | None => None
        | Some (e, rest) =>
          Some (decimal (if neg then - m else m) k e, rest)
        end
      end
    end
  end.

Inductive mode : Type :=
| AValue
| Elements (acc : list value)
| Members (acc : object).

Definition parseAtom (s : string) : option (value * string) :=
  match s with
  | EmptyString => None
  | String c s' =>
    if code c =? 34 then
      (λ p : string * string, (VStr p.1, p.2)) <$> parseString s' EmptyString
    else if code c =? 116 then (λ r, (VBool true, r)) <$> stripPrefix "true" s
    else if code c =? 102 then (λ r, (VBool false, r)) <$> stripPrefix "false" s
    else if code c =? 110 then (λ r, (VNull, r)) <$> stripPrefix "null" s
    else (λ p : number * string, (VNum p.1, p.2)) <$> parseNumber s
  end.

Fixpoint parseText (fuel : nat) (m : mode) (s : string)
    : option (value * string) :=
  match fuel with
  | O => None
  | S fuel' =>
    match m with
    | AValue =>
      match skipWs s with
      | EmptyString => None
      | String c s' =>
        if code c =? 123 then
          match skipWs s' with
          | String d r =>
            if code d =? 125 then Some (VObj ∅, r)
            else parseText fuel' (Members ∅) s'
          | EmptyString => None
          end
        else if code c =? 91 then
          match skipWs s' with
          | String d r =>
            if code d =? 93 then Some (VArr [], r)
            else parseText fuel' (Elements []) s'
          | EmptyString => None
          end
        else parseAtom (String c s')
      end
    | Elements acc =>
      match parseText fuel' AValue s with
      | None => None
      | Some (v, r) =>
        match skipWs r with
        | String d r' =>
          if code d =? 44 then parseText fuel' (Elements (acc ++ [v])) r'
          else if code d =? 93 then Some (VArr (acc ++ [v]), r')
          else None
        | EmptyString => None
        end
      end
    | Members acc =>
      match skipWs s with
      | EmptyString => None
      | String c s1 =>
        if code c =? 34 then
          match parseString s1 EmptyString with
          | None => None
          | Some (key, s2) =>
            match skipWs s2 with
            | EmptyString => None
            | String d s3 =>
              if code d =? 58 then
                match parseText fuel' AValue s3 with
                | None => None
                | Some (v, r) =>
                  match skipWs r with
                  | String e r' =>
                    if code e =? 44 then
                      parseText fuel' (Members (<[key := v]> acc)) r'
                    else if code e =? 125 then
                      Some (VObj (<[key := v]> acc), r')
                    else None
                  | EmptyString => None
                  end
                end
              else None
            end
          end
        else None
      end
    end
  end.

Definition parse (s : string) : option value :=
  match parseText (2 * String.length s + 2) AValue s with
  | Some (v, rest) =>
    match skipWs rest with
    | EmptyString => Some v
    | String _ _ => None
    end
  | None => None
  end.

#[export] Instance json : JSON :=
  {| JSON_stringify := stringify; JSON_parse := parse |}.

(** [parseFloat]: a number as it is; a text by the decimal literal it
    starts with, after white space.  Where the platform yields NaN this
    gives 0; such values are outside the model. *)
#[export] Instance numeric : Numeric :=
  {| parseFloat v :=
       match v with
       | VNum n => numberToR n
       | VStr s =>
         match parseNumber (skipWs s) with
         | Some (n, _) => numberToR n
         | None => 0%R
         end
       | _ => 0%R
       end |}.

End RefJSON.


(** ** The grid as the specification describes it *)
Module GridSpec.

(** The cell of day [k] when the current day of the year is [d]. *)
Definition dayCell (d k : Z) : option Cell :=
  Some (mkCell k (Renderer.statusOf k d)).

(** The cell at row-major position [idx]: padding before [offset] and
    after the last day, day [idx - offset + 1] between. *)
Definition cellAt (offset totalDays d idx : Z) : option Cell :=
  if (idx <? offset) || (totalDays <? idx - offset + 1) then None
  else dayCell d (idx - offset + 1).

(** The value of [dayCount] when the loops reach position [idx]. *)
Definition dayCountAt (offset totalDays idx : Z) : Z :=
  1 + Z.max 0 (Z.min (idx - offset) totalDays).

Definition layout (cols offset totalDays d rows : Z) : Grid :=
  (λ r, cellAt offset totalDays d <$> seqZ (r * cols) cols) <$> seqZ 0 rows.

(** The cells in row-major order, the days among them, and the empty
    ones. *)
Definition cells (g : Grid) : list (option Cell) := concat g.
Definition dayCells (g : Grid) : list Cell := omap (λ c, c) (concat g).
Definition emptyCount (row : list (option Cell)) : nat :=
  length (filter (λ c, c = None) row).

(** The grid without the statuses. *)
Definition shape (g : Grid) : list (list (option Z)) :=
  map (map (option_map day)) g.

(** The weekday of January 1 of year [Y] in the proleptic Gregorian
    calendar, in the native numbering (0 = Sunday). *)
Definition jan1WeekDay (Y : Z) : Z :=
  Date.WeekDay (Date.msPerDay * Date.DayFromYear Y).

(** A year is a leap year by the Gregorian rule. *)
Definition leapYear (Y : Z) : Prop :=
  (Y mod 4 = 0 ∧ Y mod 100 ≠ 0) ∨ Y mod 400 = 0.

#[global] Instance leapYear_dec Y : Decision (leapYear Y).
Proof. unfold leapYear. apply _. Defined.

(** [n] is the ceiling of [a / b]. *)
Definition isCeil (a b n : Z) : Prop := b * (n - 1) < a ≤ b * n.

(** Empty cells appear in the first row only. *)
Definition emptyOnlyInFirstRow (g : Grid) : Prop :=
  ∀ (r : nat) (row : Row), g !! r = Some row → None ∈ row → r = 0%nat.

(** The padding claim as the specification words it: empty cells only in
    the first row, as many as the Monday-indexed weekday [w] of
    January 1. *)
Definition paddingClaim (g : Grid) (w : weekday) : Prop :=
  emptyOnlyInFirstRow g
  ∧ emptyCount (cells g) = Z.to_nat (mondayIndex w).

(** The cells with status [today]. *)
Definition todayCells (g : Grid) : list Cell :=
  filter (λ c, status c = today) (dayCells g).

End GridSpec.

(** A renderer as the constructor leaves its configuration. *)
Definition configured (this : Renderer.t) : Prop :=
  Renderer.cols this = 7 ∧ Renderer.dotGapX this = 28
  ∧ Renderer.dotGapY this = 14.

(** ** Sample inputs *)

(** A renderer fresh from the constructor: device pixel ratio 1, created
    at time 0 on a canvas of the default size. *)
Definition sampleRenderer : Renderer.t := Renderer.new 1 0 300 150 300 150.

(** A session that starts with nothing stored. *)
Definition blankDom : Settings.Dom :=
  Settings.mkDom VUndefined VUndefined false.
Definition emptyWorld : Settings.World := Settings.mkWorld ∅ blankDom.

(** A session whose storage holds the given text. *)
Definition worldWith (text : string) : Settings.World :=
  Settings.mkWorld {[ "memento_settings"%string := text ]} blankDom.

(** The settings the constructor builds on empty storage, and those after
    the theme was switched to light. *)
Definition freshSettings : Settings.t :=
  Settings.mk Settings.theDefaults Settings.theDefaults.
Definition lightSettings : Settings.t :=
  (@Settings.update RefJSON.json "theme" (VStr "light") freshSettings
     emptyWorld).1.

(** The settings after the theme was set to [undefined], a value that
    JSON text does not carry. *)
Definition undefinedSettings : Settings.t :=
  (@Settings.update RefJSON.json "theme" VUndefined freshSettings
     emptyWorld).1.

(** The renderer on 1 January 2024, and the first row of its grid. *)
Definition newYear2024 : Renderer.t := Renderer.buildGrid sampleRenderer 2024 1.
Definition firstRow2024 : Row :=
  [Some (mkCell 1 today); Some (mkCell 2 future); Some (mkCell 3 future);
   Some (mkCell 4 future); Some (mkCell 5 future); Some (mkCell 6 future);
   Some (mkCell 7 future)].

(** A frame of it with the default settings, on a fresh context, at the
    time the renderer was started. *)
Definition sampleFrame : list Canvas.Mark :=
  Canvas.marks Canvas.fresh
    (@Renderer.draw RefJSON.numeric newYear2024 Settings.theDefaults
       "#444444" "#222222" 0).

(** A text that is not JSON, and one that is. *)
Definition corruptText : string := "{".
Definition lightText : string :=
  String "{" (RefJSON.quote "theme" +:+ ":" +:+ RefJSON.quote "light" +:+ "}").

(** ** More views of the grid *)

(** [grid[r][c]], when it is a day cell. *)
Definition cellOf (g : Grid) (r c : nat) : option Cell :=
  match g !! r with
  | Some row =>
    match row !! c with
    | Some (Some cell) => Some cell
    | Some None | None => None
    end
  | None => None
  end.

(** How many day cells have the given status. *)
Definition statusCount (st : Status) (g : Grid) : nat :=
  length (filter (λ c, status c = st) (GridSpec.dayCells g)).

(** The time value of midnight at the start of day [k] of year [Y]. *)
Definition timeOfDay (Y k : Z) : Z :=
  Date.msPerDay * (Date.DayFromYear (Date.fullYear Y) + k - 1).

(** ** The listeners that [initUI] installs *)
Module UI.

(** The controls that the reset listener refreshes: what is assigned to
    [checked] is coerced to a boolean, what is assigned to [value] is kept
    as the value handed over. *)
Record Inputs : Type := mkInputs {
  themeChecked : bool;
  accentValue : value;
  dotSizeValue : value;
  glowChecked : bool;
  clockChecked : bool
}.

(** [v === 'light'] *)
Definition isLight (v : value) : bool :=
  match v with
  | VStr s => String.eqb s "light"
  | _ => false
  end.

(** The transform handed to [bind] for the theme:
    [v => v ? 'light' : 'dark'], on the text of the control. *)
Definition themeTransform (text : string) : value :=
  if truthy (VStr text) then VStr "light" else VStr "dark".

Section Listeners.
Context `{JSON}.

(** The listener that [bind] installs for [key]: [isCheckbox] is
    [el.type === 'checkbox'], [checked] and [text] are [el.checked] and
    [e.target.value] at the event. *)
Definition bindListener (key : string) (transform : string → value)
    (isCheckbox checked : bool) (text : string)
    (s : Settings.t) (w : Settings.World) : Settings.t * Settings.World :=
  let val := if isCheckbox then VBool checked else transform text in
  let '(s1, w1) := Settings.update key val s w in
  (s1, Settings.apply s1 w1).

(** The second listener on the theme toggle. *)
Definition themeListener (checked : bool)
    (s : Settings.t) (w : Settings.World) : Settings.t * Settings.World :=
  let '(s1, w1) :=
    Settings.update "theme" (if checked then VStr "light" else VStr "dark")
                    s w in
  (s1, Settings.apply s1 w1).

(** A change event on the theme toggle runs both listeners, in the order
    they were added. *)
Definition themeChange (isCheckbox checked : bool) (text : string)
    (s : Settings.t) (w : Settings.World) : Settings.t * Settings.World :=
  let '(s1, w1) :=
    bindListener "theme" themeTransform isCheckbox checked text s w in
  themeListener checked s1 w1.

(** The listener of the reset button. *)
Definition resetClick (s : Settings.t) (w : Settings.World)
    : Settings.t * Settings.World * Inputs :=
  let '(s1, w1) := Settings.reset s w in
  (s1, w1,
   mkInputs (isLight (Settings.get s1 "theme"))
            (Settings.get s1 "accentColor")
            (Settings.get s1 "dotSize")
            (truthy (Settings.get s1 "glowEnabled"))
            (truthy (Settings.get s1 "showClock"))).

End Listeners.

End UI.

(** The names of the five settings. *)
Definition settingNames : list string :=
  ["theme"; "accentColor"; "dotSize"; "glowEnabled"; "showClock"]%string.

(** ** The animation loop: [draw] requesting its next frame, [start] and
    [stop] *)
Module Loop.

(** The frame requests of the platform: the handles whose callback waits
    for the next frame, and the last handle given out.  Handles are
    positive, so a stored handle is truthy. *)
Record Frames : Type := mkFrames {
  pending : gset nat;
  lastHandle : nat
}.

(** [requestAnimationFrame(callback)] *)
Definition requestFrame (f : Frames) : nat * Frames :=
  let h := S (lastHandle f) in
  (h, mkFrames ({[ h ]} ∪ pending f) h).

(** [cancelAnimationFrame(h)] *)
Definition cancelFrame (h : nat) (f : Frames) : Frames :=
  mkFrames (pending f ∖ {[ h ]}) (lastHandle f).

(** The renderer with its field [animFrame], [None] for [null]. *)
Record t : Type := mk {
  renderer : Renderer.t;
  animFrame : option nat
}.

(** What a frame reads besides the renderer: the settings state and the
    two colours of the computed style. *)
Record Scene : Type := mkScene {
  sceneState : object;
  scenePast : string;
  sceneFuture : string
}.

Definition withStartTime (r : Renderer.t) (now : R) : Renderer.t :=
  Renderer.mk (Renderer.dpr r) (Renderer.cols r) (Renderer.dotGapX r)
    (Renderer.dotGapY r) now (Renderer.grid r) (Renderer.styleWidth r)
    (Renderer.styleHeight r) (Renderer.canvasWidth r)
    (Renderer.canvasHeight r).

(** [if (this.animFrame) cancelAnimationFrame(this.animFrame)] *)
Definition cancelPending (this : t) (f : Frames) : Frames :=
  match animFrame this with
  | Some h => cancelFrame h f
  | None => f
  end.

Section Methods.
Context `{Numeric}.

(** [draw(timestamp)]: the calls on the context, and the request whose
    handle is kept in [animFrame]. *)
Definition draw (this : t) (f : Frames) (scene : Scene) (timestamp : R)
    : t * Frames * list CanvasOp :=
  let ops := Renderer.draw (renderer this) (sceneState scene)
               (scenePast scene) (sceneFuture scene) timestamp in
  let '(h, f') := requestFrame f in
  (mk (renderer this) (Some h), f', ops).

(** [start()], at time [now = performance.now()]. *)
Definition start (this : t) (f : Frames) (scene : Scene) (now : R)
    : t * Frames * list CanvasOp :=
  let f1 := cancelPending this f in
  let this1 := mk (withStartTime (renderer this) now) (animFrame this) in
  draw this1 f1 scene now.

(** [stop()] *)
Definition stop (this : t) (f : Frames) : t * Frames * list CanvasOp :=
  (this, cancelPending this f, []).

(** The platform runs the callback of handle [h], which is
    [this.draw.bind(this)], if it is still pending; the handle is taken
    off the list before the callback runs. *)
Definition frame (h : nat) (this : t) (f : Frames) (scene : Scene)
    (timestamp : R) : t * Frames * list CanvasOp :=
  if decide (h ∈ pending f) then
    draw this (mkFrames (pending f ∖ {[ h ]}) (lastHandle f)) scene timestamp
  else (this, f, []).

(** What happens to a renderer after its construction. *)
Inductive event : Type :=
| Start (scene : Scene) (now : R)
| Stop
| Frame (h : nat) (scene : Scene) (timestamp : R)
| Rebuild (year currentDayOfYear : Z)
| Resize.

Definition step (this : t) (f : Frames) (e : event)
    : t * Frames * list CanvasOp :=
  match e with
  | Start scene now => start this f scene now
  | Stop => stop this f
  | Frame h scene timestamp => frame h this f scene timestamp
  | Rebuild year d =>
    (mk (Renderer.buildGrid (renderer this) year d) (animFrame this), f, [])
  | Resize => (mk (Renderer.resize (renderer this)) (animFrame this), f, [])
  end.

(** A run of events, with all the calls made on the context. *)
Fixpoint run (this : t) (f : Frames) (es : list event)
    : t * Frames * list CanvasOp :=
  match es with
  | [] => (this, f, [])
  | e :: es' =>
    let '(this1, f1, ops1) := step this f e in
    let '(this2, f2, ops2) := run this1 f1 es' in
    (this2, f2, ops1 ++ ops2)
  end.

End Methods.

(** A renderer fresh from its constructor, and no frame requested. *)
Definition initial (r : Renderer.t) : t := mk r None.
Definition noFrames : Frames := mkFrames ∅ 0.

(** The loop runs: exactly the frame of [animFrame] is pending. *)
Definition running (this : t) (f : Frames) : Prop :=
  ∃ h, animFrame this = Some h ∧ pending f = {[ h ]}.

(** The loop is halted: no frame is pending. *)
Definition halted (f : Frames) : Prop := pending f = ∅.

Definition isStart (e : event) : bool :=
  match e with Start _ _ => true | _ => false end.

End Loop.

(** ** Local time *)

(** The offset of local time from UTC, in milliseconds (ECMA-262,
    "LocalTZA"): at the UTC time value [t] when the flag is [true], at the
    local time value [t] when it is [false]. *)
Class TimeZone : Type := {
  LocalTZA : Z → bool → Z
}.

(** The formatting of a date by
    [toLocaleDateString('en-GB', {weekday, day, month, year})]. *)
Class Locale : Type := {
  toLocaleDateString : Z → string
}.

(** The fields of a [Date] in local time.  A date is given by its time
    value; the dates of this module are valid ([new Date()] always is). *)
Module LocalDate.

Definition msPerHour : Z := 3600000.
Definition msPerMinute : Z := 60000.
Definition msPerSecond : Z := 1000.

Definition Day (t : Z) : Z := t / Date.msPerDay.
Definition TimeWithinDay (t : Z) : Z := t mod Date.msPerDay.

(** The year [y] with [DayFromYear y <= Day t < DayFromYear (y + 1)],
    found from an estimate that is off by at most one. *)
Definition YearFromTime (t : Z) : Z :=
  let d := Day t in
  let y := 1970 + (400 * d) / 146097 in
  if d <? Date.DayFromYear y then y - 1
  else if Date.DayFromYear (y + 1) <=? d then y + 1
  else y.

Definition HourFromTime (t : Z) : Z := (t / msPerHour) mod 24.
Definition MinFromTime (t : Z) : Z := (t / msPerMinute) mod 60.
Definition SecFromTime (t : Z) : Z := (t / msPerSecond) mod 60.

Section Zone.
Context `{TimeZone}.

Definition LocalTime (t : Z) : Z := t + LocalTZA t true.
Definition UTC (t : Z) : Z := t - LocalTZA t false.

Definition getFullYear (date : Z) : Z := YearFromTime (LocalTime date).
Definition getHours (date : Z) : Z := HourFromTime (LocalTime date).
Definition getMinutes (date : Z) : Z := MinFromTime (LocalTime date).
Definition getSeconds (date : Z) : Z := SecFromTime (LocalTime date).

(** [new Date(year, 0, 0)]: local midnight at the start of the day before
    January 1, as a time value; [None] is the Invalid Date. *)
Definition newYearDay0 (year : Z) : option Z :=
  Date.TimeClip
    (UTC (Date.msPerDay * (Date.DayFromYear (Date.fullYear year) + 0 - 1))).

End Zone.

End LocalDate.

(** ** [String.prototype.padStart] *)

Fixpoint repeatString (n : nat) (s : string) : string :=
  match n with
  | O => EmptyString
  | S n' => s +:+ repeatString n' s
  end.

Definition padStart (targetLength : nat) (padString s : string) : string :=
  let len := String.length s in
  if (targetLength <=? len)%nat then s
  else if String.eqb padString EmptyString then s
  else
    let fillLen := (targetLength - len)%nat in
    substring 0 fillLen (repeatString fillLen padString) +:+ s.

(** ** App: the controller's clock and calendar *)
Module App.

(** The two text nodes of the clock, and how often they were written. *)
Record Display : Type := mkDisplay {
  clockText : string;
  dateText : string;
  writes : nat
}.

Definition oneDay : Z := 1000 * 60 * 60 * 24.

Section Methods.
Context `{TimeZone} `{Locale}.

(** [dayOfYear(date)]; [None] is NaN, when the start date is invalid. *)
Definition dayOfYear (date : Z) : option Z :=
  match LocalDate.newYearDay0 (LocalDate.getFullYear date) with
  | Some start => Some ((date - start) / oneDay)
  | None => None
  end.

(** [updateCalendar()], at the current date [date].  A NaN day of the
    year makes both comparisons of [buildGrid] false, as day 0 does. *)
Definition updateCalendar (r : Renderer.t) (date : Z) : Renderer.t :=
  let year := LocalDate.getFullYear date in
  let doy := dayOfYear date in
  Renderer.buildGrid r year (default 0 doy).

(** [String(n).padStart(2, '0')] *)
Definition pad2 (n : Z) : string := padStart 2 "0" (pretty n).

Definition timeStr (date : Z) : string :=
  pad2 (LocalDate.getHours date) +:+ ":" +:+ pad2 (LocalDate.getMinutes date).

(** The [update] closure of [startClock], run at the current date. *)
Definition clockUpdate (date : Z) (d : Display) : Display :=
  let d1 :=
    if negb (String.eqb (clockText d) (timeStr date)) then
      mkDisplay (timeStr date) (dateText d) (S (writes d))
    else d in
  let dateStr := toLocaleDateString date in
  if negb (String.eqb (dateText d1) dateStr) then
    mkDisplay (clockText d1) dateStr (S (writes d1))
  else d1.

(** The second interval of [startClock]: the check for midnight. *)
Definition midnightCheck (r : Renderer.t) (n : Z) : Renderer.t :=
  if (LocalDate.getHours n =? 0) && (LocalDate.getMinutes n =? 0)
     && (LocalDate.getSeconds n =? 0)
  then updateCalendar r n
  else r.

End Methods.

End App.

(** ** The day of the year, as the calendar has it *)

(** The 1-based position of the local day of [date] in its year. *)
Definition ordinalDay `{TimeZone} (date : Z) : Z :=
  LocalDate.Day (LocalDate.LocalTime date)
  - Date.DayFromYear (LocalDate.getFullYear date) + 1.

(** The two decimal digits of a number below 100. *)
Definition digitChar (n : Z) : ascii := ascii_of_N (Z.to_N (48 + n)).
Definition twoDigits (n : Z) : string :=
  String (digitChar (n / 10)) (String (digitChar (n mod 10)) EmptyString).

(** A zone with a fixed offset, and one with daylight saving time: an hour
    ahead of UTC, two hours in the summer of 2025 (from 30 March to
    26 October, days 89 to 299 of the year). *)
Definition fixedZone (offset : Z) : TimeZone := {| LocalTZA _ _ := offset |}.

Definition summerZone : TimeZone :=
  {| LocalTZA t _ :=
       if (Date.msPerDay * (Date.DayFromYear 2025 + 88) <=? t)
          && (t <? Date.msPerDay * (Date.DayFromYear 2025 + 298))
       then 7200000 else 3600000 |}.

(** ** More sample inputs *)

(** The default settings with the glow switched off. *)
Definition glowOffState : object :=
  <["glowEnabled" := VBool false]> Settings.theDefaults.

(** What a frame reads: the default settings and two colours. *)
Definition sampleScene : Loop.Scene :=
  Loop.mkScene Settings.theDefaults "#444444" "#222222".

(** Noon of 1 March 2025 in a zone an hour ahead of UTC all year, and half
    a second past midnight of 1 July 2025 in the zone with daylight saving
    time, as time values. *)
Definition noonMarch1 : Z :=
  Date.msPerDay * (Date.DayFromYear 2025 + 59) + 12 * 3600000 - 3600000.
Definition midnightJuly1 : Z :=
  Date.msPerDay * (Date.DayFromYear 2025 + 181) + 500 - 7200000.

(** * Proofs *)

Section Loops.
Context {S : Type}.

Lemma forLoop_succ (n : nat) (i : Z) (body : Z → S → S) (s : S) :
  forLoop (Datatypes.S n) i body s
  = body (i + Z.of_nat n) (forLoop n i body s).
Proof.
  revert i s. induction n as [|n IH]; intros i s.
  - simpl. f_equal. lia.
  - change (forLoop (Datatypes.S (Datatypes.S n)) i body s)
      with (forLoop (Datatypes.S n) (i + 1) body (body i s)).
    rewrite IH. simpl. f_equal. lia.
Qed.

(** A loop whose body keeps an invariant indexed by the counter. *)
Lemma forLoop_invariant (P : Z → S → Prop) (n : nat) (i : Z)
    (body : Z → S → S) (s : S) :
  P i s →
  (∀ j t, i ≤ j < i + Z.of_nat n → P j t → P (j + 1) (body j t)) →
  P (i + Z.of_nat n) (forLoop n i body s).
Proof.
  induction n as [|n IH]; intros H0 Hstep.
  - simpl. by replace (i + Z.of_nat 0) with i by lia.
  - rewrite forLoop_succ.
    replace (i + Z.of_nat (Datatypes.S n)) with (i + Z.of_nat n + 1) by lia.
    apply Hstep; [lia|]. apply IH; [done|].
    intros j t Hj. apply Hstep. lia.
Qed.
End Loops.

Lemma seqZ_to_nat (m n : Z) : seqZ m (Z.of_nat (Z.to_nat n)) = seqZ m n.
Proof. unfold seqZ. by rewrite Nat2Z.id. Qed.

Lemma seqZ_snoc (m n : Z) : 0 ≤ n → seqZ m (n + 1) = seqZ m n ++ [m + n].
Proof.
  intros Hn. rewrite seqZ_app by lia.
  rewrite (seqZ_cons (m + n) 1) by lia. by rewrite (seqZ_nil _ (Z.pred 1)) by lia.
Qed.

(** ** The loops of [buildGrid] compute the layout of the specification *)
Section FillGrid.
Import Renderer GridSpec.
Variables (cols offset totalDays d : Z).
Hypothesis cols_nonneg : 0 ≤ cols.
Hypothesis days_nonneg : 0 ≤ totalDays.
Hypothesis offset_nonneg : 0 ≤ offset.

Lemma pushCell_at (r c : Z) (rowData : Row) :
  pushCell cols offset totalDays d r c
    (rowData, dayCountAt offset totalDays (r * cols + c))
  = (rowData ++ [cellAt offset totalDays d (r * cols + c)],
     dayCountAt offset totalDays (r * cols + c + 1)).
Proof using days_nonneg.
  unfold pushCell, cellAt, dayCountAt, dayCell.
  set (idx := r * cols + c).
  destruct (idx <? offset) eqn:Hlt; simpl.
  - apply Z.ltb_lt in Hlt. f_equal. lia.
  - apply Z.ltb_ge in Hlt.
    destruct (1 + Z.max 0 (Z.min (idx - offset) totalDays) >? totalDays) eqn:Hgt.
    + assert (totalDays < idx - offset + 1) as Hover by lia.
      apply Z.ltb_lt in Hover. rewrite Hover. f_equal. lia.
    + assert (¬ totalDays < idx - offset + 1) as Hin by lia.
      apply Z.ltb_nlt in Hin. rewrite Hin.
      replace (1 + Z.max 0 (Z.min (idx - offset) totalDays))
        with (idx - offset + 1) by lia.
      f_equal. lia.
Qed.

Lemma row_loop (r : Z) :
  for_upto cols (pushCell cols offset totalDays d r)
    ([], dayCountAt offset totalDays (r * cols))
  = (cellAt offset totalDays d <$> seqZ (r * cols) cols,
     dayCountAt offset totalDays (r * cols + cols)).
Proof using cols_nonneg days_nonneg.
  unfold for_upto.
  pose (P := λ (j : Z) (st : Row * Z),
          st = (cellAt offset totalDays d <$> seqZ (r * cols) j,
                dayCountAt offset totalDays (r * cols + j))).
  assert (P (0 + Z.of_nat (Z.to_nat cols))
            (forLoop (Z.to_nat cols) 0 (pushCell cols offset totalDays d r)
               ([], dayCountAt offset totalDays (r * cols)))) as HP.
  { apply forLoop_invariant.
    - unfold P. rewrite seqZ_nil by lia. simpl. do 2 f_equal. lia.
    - intros j st Hj ->. unfold P. rewrite pushCell_at.
      rewrite seqZ_snoc by lia. rewrite fmap_app. simpl.
      do 2 f_equal. lia. }
  unfold P in HP. rewrite HP. rewrite Z.add_0_l, Z2Nat.id by done. done.
Qed.

Lemma pushRow_at (r : Z) (g : Grid) :
  pushRow cols offset totalDays d r
    (g, dayCountAt offset totalDays (r * cols))
  = (g ++ [cellAt offset totalDays d <$> seqZ (r * cols) cols],
     dayCountAt offset totalDays ((r + 1) * cols)).
Proof using cols_nonneg days_nonneg.
  unfold pushRow. rewrite row_loop. do 2 f_equal. lia.
Qed.

Lemma fillGrid_layout (rows : Z) :
  fillGrid cols offset totalDays d rows
  = layout cols offset totalDays d rows.
Proof using cols_nonneg days_nonneg offset_nonneg.
  unfold fillGrid, for_upto, layout.
  pose (P := λ (r : Z) (st : Grid * Z),
          st = ((λ r', cellAt offset totalDays d <$> seqZ (r' * cols) cols)
                  <$> seqZ 0 r,
                dayCountAt offset totalDays (r * cols))).
  assert (P (0 + Z.of_nat (Z.to_nat rows))
            (forLoop (Z.to_nat rows) 0 (pushRow cols offset totalDays d)
               ([], 1))) as HP.
  { apply forLoop_invariant.
    - unfold P. rewrite (seqZ_nil 0 0) by lia. simpl. f_equal.
      unfold dayCountAt. lia.
    - intros r st Hr ->. unfold P. rewrite pushRow_at.
      rewrite seqZ_snoc by lia. rewrite fmap_app. simpl.
      by rewrite Z.add_0_l. }
  unfold P in HP. rewrite HP. simpl. by rewrite Z.add_0_l, seqZ_to_nat.
Qed.
End FillGrid.

(** ** Generic list facts *)

Lemma fmap_const_replicate {A B : Type} (f : A → B) (c : B) (l : list A) :
  (∀ x, x ∈ l → f x = c) → f <$> l = replicate (length l) c.
Proof.
  induction l as [|x l IH]; intros Hc; [done|]. simpl.
  rewrite (Hc x) by apply list_elem_of_here. f_equal.
  apply IH. intros y Hy. apply Hc. by apply list_elem_of_further.
Qed.

Lemma fmap_ext_elem_of {A B : Type} (f g : A → B) (l : list A) :
  (∀ x, x ∈ l → f x = g x) → f <$> l = g <$> l.
Proof.
  intros Hfg. apply list_fmap_ext. intros i x Hix. apply Hfg.
  by eapply list_elem_of_lookup_2.
Qed.

Lemma omap_replicate_None {A : Type} (n : nat) :
  omap (λ c : option A, c) (replicate n None) = [].
Proof. induction n as [|n IH]; [done|]. simpl. exact IH. Qed.

Lemma omap_fmap_Some {A B : Type} (f : A → B) (l : list A) :
  omap (λ c : option B, c) ((λ x, Some (f x)) <$> l) = f <$> l.
Proof. induction l as [|x l IH]; [done|]. simpl. f_equal. exact IH. Qed.

Lemma filter_all {A : Type} (P : A → Prop) `{∀ x, Decision (P x)} (l : list A) :
  Forall P l → filter P l = l.
Proof.
  induction 1 as [|x l Hx Hl IH]; [done|].
  rewrite filter_cons_True by done. by rewrite IH.
Qed.

Lemma filter_none {A : Type} (P : A → Prop) `{∀ x, Decision (P x)} (l : list A) :
  Forall (λ x, ¬ P x) l → filter P l = [].
Proof.
  induction 1 as [|x l Hx Hl IH]; [done|].
  by rewrite filter_cons_False by done.
Qed.

(** ** Facts about the layout *)
Section Layout.
Import Renderer GridSpec.
Variables (cols offset totalDays d : Z).
Hypothesis cols_nonneg : 0 ≤ cols.
Hypothesis days_nonneg : 0 ≤ totalDays.
Hypothesis offset_nonneg : 0 ≤ offset.

Lemma layout_length (rows : Z) :
  length (layout cols offset totalDays d rows) = Z.to_nat rows.
Proof. unfold layout. by rewrite length_fmap, length_seqZ. Qed.

Lemma layout_row_length (rows : Z) :
  Forall (λ row, length row = Z.to_nat cols)
         (layout cols offset totalDays d rows).
Proof.
  unfold layout. apply Forall_fmap, Forall_forall. intros r _. simpl.
  by rewrite length_fmap, length_seqZ.
Qed.

Lemma layout_lookup (rows : Z) (r : nat) (row : Row) :
  layout cols offset totalDays d rows !! r = Some row →
  Z.of_nat r < rows
  ∧ row = cellAt offset totalDays d <$> seqZ (Z.of_nat r * cols) cols.
Proof.
  unfold layout. rewrite list_lookup_fmap.
  destruct (seqZ 0 rows !! r) as [r'|] eqn:Hr; [|done].
  apply lookup_seqZ in Hr as [-> Hlt]. simpl. intros [= <-].
  split; [done|]. by rewrite Z.add_0_l.
Qed.

(** Row-major, the layout is [cellAt] at positions 0, 1, 2, ... *)
Lemma layout_cells (rows : Z) :
  0 ≤ rows →
  concat (layout cols offset totalDays d rows)
  = cellAt offset totalDays d <$> seqZ 0 (rows * cols).
Proof using cols_nonneg.
  intros Hrows. rewrite <- (Z2Nat.id rows) by done.
  generalize (Z.to_nat rows) as n. clear Hrows rows.
  unfold layout. induction n as [|n IH].
  - by rewrite !seqZ_nil by lia.
  - rewrite seqZ_S, fmap_app, concat_app, IH. simpl.
    rewrite app_nil_r, Z.add_0_l.
    replace (Z.of_nat (S n) * cols) with (Z.of_nat n * cols + cols) by lia.
    rewrite seqZ_app by lia. by rewrite fmap_app, Z.add_0_l.
Qed.

(** The first [total] positions: padding, then days from 1 on, then, once
    the days are used up, padding again. *)
Lemma cells_segments (total : Z) :
  offset ≤ total →
  cellAt offset totalDays d <$> seqZ 0 total
  = replicate (Z.to_nat offset) None
    ++ (dayCell d <$> seqZ 1 (Z.min totalDays (total - offset)))
    ++ replicate (Z.to_nat (total - offset - totalDays)) None.
Proof using days_nonneg offset_nonneg.
  intros Htotal. set (m := Z.min totalDays (total - offset)).
  replace total with (offset + (m + (total - offset - m))) at 1 by lia.
  rewrite !seqZ_app, !fmap_app by lia. f_equal; [|f_equal].
  - rewrite (fmap_const_replicate _ None), length_seqZ; [done|].
    intros idx [Hlo Hhi]%elem_of_seqZ. unfold cellAt.
    assert ((idx <? offset) = true) as -> by (apply Z.ltb_lt; lia). done.
  - rewrite Z.add_0_l.
    replace offset with ((offset - 1) + 1) at 2 by lia.
    rewrite <- fmap_add_seqZ, <- list_fmap_compose.
    apply fmap_ext_elem_of. intros k [Hlo Hhi]%elem_of_seqZ. simpl.
    unfold cellAt.
    assert ((offset - 1 + k <? offset) = false) as -> by (apply Z.ltb_ge; lia).
    assert ((totalDays <? offset - 1 + k - offset + 1) = false) as ->
      by (apply Z.ltb_ge; lia).
    simpl. f_equal. lia.
  - rewrite (fmap_const_replicate _ None), length_seqZ.
    { f_equal. lia. }
    intros idx [Hlo Hhi]%elem_of_seqZ. unfold cellAt.
    assert ((totalDays <? idx - offset + 1) = true) as ->
      by (apply Z.ltb_lt; lia).
    by rewrite orb_true_r.
Qed.
End Layout.

(** ** The calendar of the platform *)
Section DateFacts.
Import Date.

Lemma WeekDay_range (t : Z) : 0 ≤ WeekDay t ≤ 6.
Proof. unfold WeekDay. pose proof (Z.mod_pos_bound (t / msPerDay + 4) 7). lia. Qed.

Lemma getDay_range (date : option Z) (n : Z) :
  getDay date = Some n → 0 ≤ n ≤ 6.
Proof.
  unfold getDay. destruct date as [t|]; [|done]. simpl.
  intros [= <-]. apply WeekDay_range.
Qed.

Lemma DayFromYear_bounds (y : Z) :
  -271821 < y ≤ 275760 → -100000000 ≤ DayFromYear y ≤ 100000000.
Proof. unfold DayFromYear. intros Hy. Z.div_mod_to_equations. lia. Qed.

(** Every calendar year has a January 1, with a weekday. *)
Lemma calendarYear_getDay (year : Z) :
  calendarYear year → ∃ n, getDay (newJan1 year) = Some n ∧ 0 ≤ n ≤ 6.
Proof.
  unfold calendarYear. intros Hy.
  assert (-271821 < fullYear year ≤ 275760) as Hfull.
  { unfold fullYear. destruct ((0 <=? year) && (year <=? 99)) eqn:E; lia. }
  pose proof (DayFromYear_bounds _ Hfull) as Hb.
  unfold newJan1, TimeClip, msPerDay.
  assert ((Z.abs (86400000 * DayFromYear (fullYear year)) >? 8640000000000000)
          = false) as ->.
  { rewrite Z.gtb_ltb. apply Z.ltb_ge. lia. }
  simpl. eexists. split; [done|]. apply WeekDay_range.
Qed.

(** Outside of them the date is invalid. *)
Lemma not_calendarYear_invalid (year : Z) :
  ¬ calendarYear year → newJan1 year = None.
Proof.
  unfold calendarYear. intros Hy.
  assert (fullYear year = year) as Hfull.
  { unfold fullYear. destruct ((0 <=? year) && (year <=? 99)) eqn:E; lia. }
  unfold newJan1. rewrite Hfull. unfold TimeClip, msPerDay, DayFromYear.
  assert ((Z.abs
             (86400000 *
              (365 * (year - 1970) + (year - 1969) / 4
               - (year - 1901) / 100 + (year - 1601) / 400))
           >? 8640000000000000) = true) as ->; [|done].
  rewrite Z.gtb_ltb. apply Z.ltb_lt. Z.div_mod_to_equations. lia.
Qed.

(** The year after [y] starts one year's length of days later: the
    platform's calendar and the leap rule of [buildGrid] agree. *)
Lemma DayFromYear_next (y : Z) :
  DayFromYear (y + 1) = DayFromYear y + Renderer.totalDays y.
Proof.
  unfold DayFromYear, Renderer.totalDays, Renderer.isLeap.
  destruct (Z.rem y 4 =? 0) eqn:E4; destruct (Z.rem y 100 =? 0) eqn:E100;
    destruct (Z.rem y 400 =? 0) eqn:E400; cbn [andb orb negb];
    rewrite ?Z.eqb_eq, ?Z.eqb_neq in *;
    Z.to_euclidean_division_equations; lia.
Qed.
Lemma WeekDay_of_day (D : Z) :
  Date.WeekDay (Date.msPerDay * D) = (D + 4) mod 7.
Proof.
  unfold Date.WeekDay, Date.msPerDay.
  by rewrite Z.mul_comm, Z.div_mul by lia.
Qed.

Lemma getDay_newJan1 (Y startDay : Z) :
  Date.getDay (Date.newJan1 Y) = Some startDay →
  startDay = (Date.DayFromYear (Date.fullYear Y) + 4) mod 7.
Proof.
  unfold Date.getDay, Date.newJan1, Date.TimeClip.
  destruct (Z.abs _ >? _); [done|]. simpl. intros [= <-].
  apply WeekDay_of_day.
Qed.

Lemma fullYear_id (y : Z) : y < 0 ∨ 99 < y → Date.fullYear y = y.
Proof.
  intros Hy. unfold Date.fullYear.
  destruct ((0 <=? y) && (y <=? 99)) eqn:E; lia.
Qed.

(** Outside 0..99 the constructor takes the year as it is, and [getDay]
    gives the calendar's weekday of its January 1. *)
Lemma getDay_newJan1_calendar (Y : Z) :
  calendarYear Y → Y < 0 ∨ 99 < Y →
  getDay (newJan1 Y) = Some (GridSpec.jan1WeekDay Y).
Proof.
  intros Hcal HY. destruct (calendarYear_getDay Y Hcal) as (n & Hn & _).
  rewrite Hn. f_equal. rewrite (getDay_newJan1 Y n Hn), fullYear_id by done.
  unfold GridSpec.jan1WeekDay. by rewrite WeekDay_of_day.
Qed.
End DateFacts.

(** ** [buildGrid] *)
Section BuildGrid.
Import Renderer GridSpec.

Lemma isLeap_leapYear (Y : Z) : isLeap Y = true ↔ leapYear Y.
Proof.
  unfold isLeap, leapYear.
  rewrite orb_true_iff, andb_true_iff, negb_true_iff, !Z.eqb_eq, Z.eqb_neq.
  Z.to_euclidean_division_equations. lia.
Qed.

Lemma totalDays_leapYear (Y : Z) :
  totalDays Y = if decide (leapYear Y) then 366 else 365.
Proof.
  unfold totalDays. destruct (isLeap Y) eqn:E.
  - apply isLeap_leapYear in E. by rewrite decide_True.
  - rewrite decide_False; [done|]. rewrite <- isLeap_leapYear. congruence.
Qed.

Lemma totalDays_cases (Y : Z) : totalDays Y = 365 ∨ totalDays Y = 366.
Proof. unfold totalDays. destruct (isLeap Y); auto. Qed.

Lemma offsetOf_range (startDay : Z) :
  0 ≤ startDay ≤ 6 →
  0 ≤ offsetOf startDay ≤ 6 ∧ offsetOf startDay = (startDay + 6) mod 7.
Proof.
  intros Hs. unfold offsetOf. rewrite Z.rem_mod_nonneg by lia.
  pose proof (Z.mod_pos_bound (startDay + 6) 7). lia.
Qed.

(** [(n + 6) % 7] turns the numbering with Sunday = 0 into the one with
    Monday = 0. *)
Lemma offsetOf_weekday (w : weekday) :
  offsetOf (nativeIndex w) = mondayIndex w.
Proof. by destruct w. Qed.

Lemma nativeIndex_onto (n : Z) : 0 ≤ n ≤ 6 → ∃ w, nativeIndex w = n.
Proof.
  intros Hn.
  assert (n = 0 ∨ n = 1 ∨ n = 2 ∨ n = 3 ∨ n = 4 ∨ n = 5 ∨ n = 6)
    as [->|[->|[->|[->|[->|[->| ->]]]]]] by lia;
    [by exists Sunday | by exists Monday | by exists Tuesday
    | by exists Wednesday | by exists Thursday | by exists Friday
    | by exists Saturday].
Qed.

Lemma Math_ceil_div_isCeil (a b : Z) :
  0 < b → isCeil a b (Math_ceil_div a b).
Proof.
  intros Hb. unfold isCeil, Math_ceil_div.
  Z.to_euclidean_division_equations. nia.
Qed.

Lemma isCeil_unique (a b n m : Z) :
  0 < b → isCeil a b n → isCeil a b m → n = m.
Proof. unfold isCeil. intros Hb Hn Hm. nia. Qed.

Lemma grid_resize (this : t) : grid (resize this) = grid this.
Proof. unfold resize. destruct (grid this) eqn:E; simpl; congruence. Qed.

(** The grid that [buildGrid] leaves is the layout of the specification,
    for a year whose January 1 the platform can represent. *)
Lemma grid_buildGrid (this : t) (Y d startDay : Z) :
  configured this →
  Date.getDay (Date.newJan1 Y) = Some startDay →
  grid (buildGrid this Y d)
  = layout 7 (offsetOf startDay) (totalDays Y) d
      (Math_ceil_div (offsetOf startDay + totalDays Y) 7).
Proof.
  intros (Hcols & _ & _) Hday. unfold buildGrid. rewrite Hday, grid_resize.
  simpl. rewrite Hcols. apply fillGrid_layout; [lia| |].
  - destruct (totalDays_cases Y); lia.
  - apply getDay_range in Hday. by apply offsetOf_range.
Qed.

(** For a year without a valid January 1 the grid is empty. *)
Lemma grid_buildGrid_invalid (this : t) (Y d : Z) :
  Date.getDay (Date.newJan1 Y) = None → grid (buildGrid this Y d) = [].
Proof. intros Hday. unfold buildGrid. by rewrite Hday, grid_resize. Qed.

Lemma grid_buildGrid_not_calendarYear (this : t) (Y d : Z) :
  ¬ Date.calendarYear Y → grid (buildGrid this Y d) = [].
Proof.
  intros HY. apply grid_buildGrid_invalid.
  by rewrite (not_calendarYear_invalid Y HY).
Qed.

(** The cells in row-major order. *)
Lemma cells_buildGrid (this : t) (Y d startDay : Z) :
  configured this →
  Date.getDay (Date.newJan1 Y) = Some startDay →
  let offset := offsetOf startDay in
  let rows := Math_ceil_div (offset + totalDays Y) 7 in
  cells (grid (buildGrid this Y d))
  = replicate (Z.to_nat offset) None
    ++ (dayCell d <$> seqZ 1 (totalDays Y))
    ++ replicate (Z.to_nat (rows * 7 - offset - totalDays Y)) None.
Proof.
  intros Hcfg Hday offset rows. unfold cells.
  rewrite (grid_buildGrid _ _ _ _ Hcfg Hday). fold offset. fold rows.
  pose proof (getDay_range _ _ Hday) as Hs.
  apply offsetOf_range in Hs as [Hoff _]. fold offset in Hoff.
  pose proof (Math_ceil_div_isCeil (offset + totalDays Y) 7 ltac:(lia)) as Hc.
  fold rows in Hc. unfold isCeil in Hc.
  assert (0 ≤ totalDays Y) by (destruct (totalDays_cases Y); lia).
  rewrite layout_cells by lia.
  rewrite cells_segments by lia.
  by replace (Z.min (totalDays Y) (rows * 7 - offset)) with (totalDays Y)
    by lia.
Qed.

Lemma dayCells_buildGrid (this : t) (Y d startDay : Z) :
  configured this →
  Date.getDay (Date.newJan1 Y) = Some startDay →
  dayCells (grid (buildGrid this Y d))
  = (λ k, mkCell k (statusOf k d)) <$> seqZ 1 (totalDays Y).
Proof.
  intros Hcfg Hday. unfold dayCells.
  pose proof (cells_buildGrid this Y d startDay Hcfg Hday) as Hcells.
  unfold cells in Hcells. simpl in Hcells. rewrite Hcells.
  rewrite !omap_app, !omap_replicate_None, app_nil_r. simpl.
  apply omap_fmap_Some.
Qed.
End BuildGrid.

(** ** Statuses *)
Section Statuses.
Import Renderer GridSpec.

Lemma statusOf_past (k d : Z) : statusOf k d = past ↔ k < d.
Proof.
  unfold statusOf. destruct (k <? d) eqn:Hlt.
  - apply Z.ltb_lt in Hlt. done.
  - apply Z.ltb_ge in Hlt. destruct (k =? d); split; (done || lia).
Qed.

Lemma statusOf_today (k d : Z) : statusOf k d = today ↔ k = d.
Proof.
  unfold statusOf. destruct (k <? d) eqn:Hlt.
  - apply Z.ltb_lt in Hlt. split; [done | lia].
  - destruct (k =? d) eqn:Heq.
    + apply Z.eqb_eq in Heq. done.
    + apply Z.eqb_neq in Heq. done.
Qed.

Lemma statusOf_future (k d : Z) : statusOf k d = future ↔ d < k.
Proof.
  unfold statusOf. destruct (k <? d) eqn:Hlt.
  - apply Z.ltb_lt in Hlt. split; [done | lia].
  - apply Z.ltb_ge in Hlt. destruct (k =? d) eqn:Heq.
    + apply Z.eqb_eq in Heq. split; [done | lia].
    + apply Z.eqb_neq in Heq. split; [lia | done].
Qed.

(** Among the days [1..n] exactly day [d] is today. *)
Lemma today_among_days (d n : Z) :
  1 ≤ d ≤ n →
  filter (λ c, status c = today)
         ((λ k, mkCell k (statusOf k d)) <$> seqZ 1 n)
  = [mkCell d today].
Proof.
  intros Hd.
  replace n with ((d - 1) + (1 + (n - d))) by lia.
  rewrite !seqZ_app, !fmap_app, !filter_app by lia.
  rewrite (filter_none _ (_ <$> seqZ 1 (d - 1))).
  2:{ apply Forall_fmap, Forall_seqZ. intros k Hk. simpl.
      rewrite statusOf_today. lia. }
  rewrite (filter_none _ (_ <$> seqZ (1 + (d - 1) + 1) (n - d))).
  2:{ apply Forall_fmap, Forall_seqZ. intros k Hk. simpl.
      rewrite statusOf_today. lia. }
  rewrite (seqZ_cons _ 1), (seqZ_nil _ (Z.pred 1)) by lia. simpl.
  replace (1 + (d - 1)) with d by lia.
  rewrite (filter_singleton_True _ _ [])
    by (simpl; by apply statusOf_today).
  simpl. do 2 f_equal. by apply statusOf_today.
Qed.

Lemma no_today_among_days (d n : Z) :
  d < 1 ∨ n < d →
  filter (λ c, status c = today)
         ((λ k, mkCell k (statusOf k d)) <$> seqZ 1 n)
  = [].
Proof.
  intros Hd. apply filter_none, Forall_fmap, Forall_seqZ.
  intros k Hk. simpl. rewrite statusOf_today. lia.
Qed.
End Statuses.

(** ** The claims about [buildGrid] *)
Section GridClaims.
Import Renderer GridSpec.

(** C1. For a calendar year Y and a day of the year d in
    [1, totalDays], the grid built by [buildGrid] has exactly 366 day
    cells when Y is a leap year and 365 otherwise; Y is a leap year iff
    it is divisible by 4 and not by 100, or divisible by 400; 2000 and
    2024 are leap years, 1900 and 2023 are not. *)
Theorem buildGrid_day_cell_count (this : t) (Y d : Z) :
  configured this → Date.calendarYear Y → 1 ≤ d ≤ totalDays Y →
  length (dayCells (grid (buildGrid this Y d)))
  = (if decide (leapYear Y) then 366 else 365)%nat
  ∧ (isLeap Y = true ↔ leapYear Y)
  ∧ isLeap 2000 = true ∧ isLeap 2024 = true
  ∧ isLeap 1900 = false ∧ isLeap 2023 = false.
Proof.
  intros Hcfg HY Hd.
  destruct (calendarYear_getDay Y HY) as (startDay & Hday & _).
  split; [|split; [apply isLeap_leapYear | done]].
  rewrite (dayCells_buildGrid this Y d startDay Hcfg Hday).
  rewrite length_fmap, length_seqZ, totalDays_leapYear.
  by destruct (decide (leapYear Y)).
Qed.

(** C2. For a year Y with a valid January 1 and d in [1, totalDays]:
    exactly one day cell has status today, and it is day d; a cell with
    day < d is past and a cell with day > d is future; and in row-major
    order the grid is [offset] empty cells, then the days 1, 2, ...,
    totalDays, then empty cells only. *)
Theorem buildGrid_statuses (this : t) (Y d startDay : Z) :
  configured this →
  Date.getDay (Date.newJan1 Y) = Some startDay →
  1 ≤ d ≤ totalDays Y →
  let g := grid (buildGrid this Y d) in
  todayCells g = [mkCell d today]
  ∧ (∀ c, c ∈ dayCells g →
       (day c < d → status c = past) ∧ (d < day c → status c = future)
       ∧ (day c = d → status c = today))
  ∧ day <$> dayCells g = seqZ 1 (totalDays Y)
  ∧ ∃ trailing : nat,
      cells g = replicate (Z.to_nat (offsetOf startDay)) None
                ++ (Some <$> dayCells g) ++ replicate trailing None.
Proof.
  intros Hcfg Hday Hd g.
  pose proof (dayCells_buildGrid this Y d startDay Hcfg Hday) as Hdays.
  fold g in Hdays.
  split; [|split; [|split]].
  - unfold todayCells. rewrite Hdays. by apply today_among_days.
  - intros c Hc. rewrite Hdays in Hc.
    apply list_elem_of_fmap in Hc as (k & -> & _). simpl.
    rewrite statusOf_past, statusOf_future, statusOf_today. done.
  - rewrite Hdays, <- list_fmap_compose.
    rewrite (fmap_ext_elem_of _ (λ k, k)) by done. apply list_fmap_id.
  - eexists. unfold g at 1.
    rewrite (cells_buildGrid this Y d startDay Hcfg Hday).
    rewrite Hdays, <- list_fmap_compose. done.
Qed.

Lemma configured_new (devicePixelRatio now : R) (cssWidth cssHeight : Z)
    (width height : R) :
  configured (new devicePixelRatio now cssWidth cssHeight width height).
Proof. by repeat split. Qed.

Lemma emptyCount_replicate (n : nat) :
  emptyCount (replicate n None) = n.
Proof.
  unfold emptyCount. rewrite filter_all, length_replicate; [done|].
  by apply Forall_replicate.
Qed.

Lemma emptyCount_days (d : Z) (l : list Z) :
  emptyCount (dayCell d <$> l) = 0%nat.
Proof.
  unfold emptyCount. rewrite filter_none; [done|].
  apply Forall_fmap, Forall_forall. by intros k _.
Qed.

Lemma emptyCount_app (l1 l2 : list (option Cell)) :
  emptyCount (l1 ++ l2) = (emptyCount l1 + emptyCount l2)%nat.
Proof. unfold emptyCount. by rewrite filter_app, length_app. Qed.

(** C3, as stated, fails: the grid of 2024 (January 1 is a Monday) has
    empty cells in its last row, five in all, though the claim allows
    none. *)
Lemma padding_claim_fails_2024 :
  Date.getDay (Date.newJan1 2024) = Some (nativeIndex Monday)
  ∧ 1 ≤ 1 ≤ totalDays 2024
  ∧ ¬ paddingClaim (grid (buildGrid sampleRenderer 2024 1)) Monday
  ∧ emptyCount (cells (grid (buildGrid sampleRenderer 2024 1))) = 5%nat.
Proof.
  assert (Date.getDay (Date.newJan1 2024) = Some 1) as Hday by done.
  rewrite (grid_buildGrid sampleRenderer 2024 1 1
             (configured_new _ _ _ _ _ _) Hday).
  split; [done|]. split; [done|]. split; [|by vm_compute].
  intros [Hfirst _].
  specialize (Hfirst 52%nat
    [Some (mkCell 365 future); Some (mkCell 366 future);
     None; None; None; None; None]).
  assert (52%nat = 0%nat) as Habs; [|done].
  apply Hfirst; [by vm_compute|].
  do 2 apply list_elem_of_further. apply list_elem_of_here.
Qed.

(** C3, amended.  For a calendar year Y outside 0..99 (a year that the
    [Date] constructor takes as it is) whose January 1 falls on weekday
    [w], and a valid d: an empty cell is in the first or in the last row;
    the first row is as many empty cells as the Monday-indexed number of
    [w], followed by the first days of the year; and empty cells
    elsewhere come after the last day.  January 1 of 2024 is a Monday and
    of 2025 a Wednesday, so their first rows have 0 and 2 empty cells. *)
Theorem buildGrid_padding (this : t) (Y d : Z) (w : weekday) :
  configured this →
  Date.calendarYear Y →
  Y < 0 ∨ 99 < Y →
  nativeIndex w = jan1WeekDay Y →
  1 ≤ d ≤ totalDays Y →
  let g := grid (buildGrid this Y d) in
  (∀ (r : nat) (row : Row), g !! r = Some row → None ∈ row →
     r = 0%nat ∨ S r = length g)
  ∧ (∃ row0, g !! 0%nat = Some row0
       ∧ row0 = replicate (Z.to_nat (mondayIndex w)) None
                ++ (dayCell d <$> seqZ 1 (7 - mondayIndex w))
       ∧ emptyCount row0 = Z.to_nat (mondayIndex w))
  ∧ (∃ trailing : nat,
       cells g = replicate (Z.to_nat (mondayIndex w)) None
                 ++ (dayCell d <$> seqZ 1 (totalDays Y))
                 ++ replicate trailing None)
  ∧ jan1WeekDay 2024 = nativeIndex Monday
  ∧ jan1WeekDay 2025 = nativeIndex Wednesday.
Proof.
  intros Hcfg Hcal HY Hw Hd g.
  pose proof (getDay_newJan1_calendar Y Hcal HY) as Hday.
  rewrite <- Hw in Hday.
  pose proof (grid_buildGrid this Y d _ Hcfg Hday) as Hg.
  fold g in Hg. rewrite offsetOf_weekday in Hg.
  set (offset := mondayIndex w) in *.
  set (rows := Math_ceil_div (offset + totalDays Y) 7) in *.
  assert (0 ≤ offset ≤ 6) as Hoff by (unfold offset; destruct w; simpl; lia).
  assert (365 ≤ totalDays Y ≤ 366) as HT by (destruct (totalDays_cases Y); lia).
  pose proof (Math_ceil_div_isCeil (offset + totalDays Y) 7 ltac:(lia)) as Hc.
  fold rows in Hc. unfold isCeil in Hc.
  split; [|split; [|split; [|done]]].
  - intros r row Hrow Hnone. rewrite Hg in Hrow.
    apply layout_lookup in Hrow as [Hr ->].
    rewrite Hg, layout_length.
    apply list_elem_of_fmap in Hnone as (idx & Hcell & [Hlo Hhi]%elem_of_seqZ).
    unfold cellAt in Hcell.
    destruct (idx <? offset) eqn:Hlt.
    + apply Z.ltb_lt in Hlt. left. lia.
    + destruct (totalDays Y <? idx - offset + 1) eqn:Hover; [|done].
      apply Z.ltb_lt in Hover. right. lia.
  - exists (cellAt offset (totalDays Y) d <$> seqZ 0 7).
    assert (cellAt offset (totalDays Y) d <$> seqZ 0 7
            = replicate (Z.to_nat offset) None
              ++ (dayCell d <$> seqZ 1 (7 - offset))) as Hrow0.
    { rewrite cells_segments by lia.
      replace (Z.min (totalDays Y) (7 - offset)) with (7 - offset) by lia.
      replace (Z.to_nat (7 - offset - totalDays Y)) with 0%nat by lia.
      simpl. by rewrite app_nil_r. }
    split; [|split; [done|]].
    + rewrite Hg. unfold layout. rewrite list_lookup_fmap.
      rewrite lookup_seqZ_lt by lia. done.
    + rewrite Hrow0, emptyCount_app, emptyCount_replicate, emptyCount_days.
      lia.
  - eexists. unfold g.
    rewrite (cells_buildGrid this Y d _ Hcfg Hday), offsetOf_weekday. done.
Qed.

(** C4. For a year whose January 1 has native weekday number
    [startDay] (Sunday = 0) and a valid d: with
    offset = (startDay + 6) mod 7, the cells before position [offset]
    are empty and day 1 sits at position [offset]; every row has exactly
    7 cells; and the number of rows is the ceiling of
    (offset + totalDays) / 7. *)
Theorem buildGrid_dimensions (this : t) (Y d startDay : Z) :
  configured this →
  Date.getDay (Date.newJan1 Y) = Some startDay →
  1 ≤ d ≤ totalDays Y →
  let offset := (startDay + 6) mod 7 in
  let g := grid (buildGrid this Y d) in
  0 ≤ startDay ≤ 6
  ∧ take (Z.to_nat offset) (cells g) = replicate (Z.to_nat offset) None
  ∧ cells g !! Z.to_nat offset = Some (dayCell d 1)
  ∧ Forall (λ row, length row = 7%nat) g
  ∧ isCeil (offset + totalDays Y) 7 (Z.of_nat (length g)).
Proof.
  intros Hcfg Hday Hd offset g.
  pose proof (getDay_range _ _ Hday) as Hs.
  destruct (offsetOf_range startDay Hs) as [Hoff Hmod].
  fold offset in Hmod.
  assert (365 ≤ totalDays Y ≤ 366) as HT by (destruct (totalDays_cases Y); lia).
  pose proof (cells_buildGrid this Y d startDay Hcfg Hday) as Hcells.
  simpl in Hcells. fold g in Hcells. rewrite Hmod in Hcells, Hoff.
  pose proof (grid_buildGrid this Y d startDay Hcfg Hday) as Hg.
  fold g in Hg. rewrite Hmod in Hg.
  split; [done|]. split; [|split; [|split]].
  - rewrite Hcells, take_app_length'; [done|]. by rewrite length_replicate.
  - rewrite Hcells, lookup_app_r; rewrite length_replicate; [|done].
    rewrite Nat.sub_diag, (seqZ_cons 1) by lia. done.
  - rewrite Hg. apply (layout_row_length 7).
  - rewrite Hg, layout_length.
    pose proof (Math_ceil_div_isCeil (offset + totalDays Y) 7 ltac:(lia)) as Hc.
    unfold isCeil in Hc |- *. lia.
Qed.

Lemma shape_layout (cols offset totalDays d d' rows : Z) :
  shape (layout cols offset totalDays d rows)
  = shape (layout cols offset totalDays d' rows).
Proof.
  unfold shape, layout. rewrite <- !list_fmap_compose.
  apply list_fmap_ext. intros _ r _. simpl.
  rewrite <- !list_fmap_compose.
  apply list_fmap_ext. intros _ idx _. simpl.
  unfold cellAt, dayCell.
  by destruct ((idx <? offset) || (totalDays <? idx - offset + 1)).
Qed.

(** C10. For a day of the year outside [1, totalDays] the grid has the
    same shape and day numbers as for any other day of the year, no cell
    is today, every day cell is past when d > totalDays, and every day
    cell is future when d < 1. *)
Theorem buildGrid_day_out_of_range (this : t) (Y d : Z) :
  configured this →
  d < 1 ∨ totalDays Y < d →
  let g := grid (buildGrid this Y d) in
  (∀ d', shape g = shape (grid (buildGrid this Y d')))
  ∧ todayCells g = []
  ∧ (totalDays Y < d → ∀ c, c ∈ dayCells g → status c = past)
  ∧ (d < 1 → ∀ c, c ∈ dayCells g → status c = future).
Proof.
  intros Hcfg Hd g.
  destruct (Date.getDay (Date.newJan1 Y)) as [startDay|] eqn:Hday.
  - pose proof (dayCells_buildGrid this Y d startDay Hcfg Hday) as Hdays.
    fold g in Hdays.
    split; [|split; [|split]].
    + intros d'. unfold g.
      rewrite !(grid_buildGrid this Y _ startDay Hcfg Hday).
      apply shape_layout.
    + unfold todayCells. rewrite Hdays. by apply no_today_among_days.
    + intros Hlate c Hc. rewrite Hdays in Hc.
      apply list_elem_of_fmap in Hc as (k & -> & [Hlo Hhi]%elem_of_seqZ).
      simpl. apply statusOf_past. lia.
    + intros Hearly c Hc. rewrite Hdays in Hc.
      apply list_elem_of_fmap in Hc as (k & -> & [Hlo Hhi]%elem_of_seqZ).
      simpl. apply statusOf_future. lia.
  - assert (∀ d', grid (buildGrid this Y d') = []) as Hempty
      by (intros d'; by apply grid_buildGrid_invalid).
    unfold g. rewrite Hempty.
    split; [|split; [done|split]].
    + intros d'. by rewrite Hempty.
    + intros _ c Hc. by apply elem_of_nil in Hc.
    + intros _ c Hc. by apply elem_of_nil in Hc.
Qed.
End GridClaims.

(** ** The settings store *)
Section SettingsFacts.
Import Settings.
Context `{JSON}.

Lemma spread2_empty (a : object) : spread2 a ∅ = a.
Proof. unfold spread2. apply (left_id_L ∅ (∪)). Qed.

Lemma lookup_spread2 (a b : object) (k : string) :
  spread2 a b !! k
  = match b !! k with Some v => Some v | None => a !! k end.
Proof.
  unfold spread2. rewrite lookup_union.
  destruct (b !! k) as [x|]; destruct (a !! k) as [y|]; done.
Qed.

(** Spreading an object over defaults whose keys it all has changes
    nothing. *)
Lemma spread2_covered (a b : object) :
  (∀ k, is_Some (a !! k) → is_Some (b !! k)) → spread2 a b = b.
Proof.
  intros Hcover. apply map_eq. intros k. rewrite lookup_spread2.
  destruct (b !! k) as [x|] eqn:Hb; [done|].
  destruct (a !! k) as [y|] eqn:Ha; [|done].
  destruct (Hcover k) as [z Hz]; [by eexists|]. congruence.
Qed.

(** What [load] does, by the content of the storage. *)
Lemma load_missing (this : t) (w : World) :
  getItem w "memento_settings" = None → load this w = Ok (defaults this).
Proof. intros Hget. unfold load. by rewrite Hget, spread2_empty. Qed.

Lemma load_empty_text (this : t) (w : World) :
  getItem w "memento_settings" = Some EmptyString →
  load this w = Ok (defaults this).
Proof. intros Hget. unfold load. rewrite Hget. simpl. by rewrite spread2_empty. Qed.

Lemma nonempty_eqb (s : string) : s ≠ EmptyString → String.eqb s EmptyString = false.
Proof. intros Hs. by apply String.eqb_neq. Qed.

Lemma load_parsed (this : t) (w : World) (saved : string) (parsed : value) :
  getItem w "memento_settings" = Some saved → saved ≠ EmptyString →
  JSON_parse saved = Some parsed →
  load this w = Ok (spread2 (defaults this) (ownProps parsed)).
Proof.
  intros Hget Hne Hparse. unfold load.
  by rewrite Hget, (nonempty_eqb _ Hne), Hparse.
Qed.

Lemma load_corrupt (this : t) (w : World) (saved : string) :
  getItem w "memento_settings" = Some saved → saved ≠ EmptyString →
  JSON_parse saved = None →
  load this w = Throw SyntaxError.
Proof.
  intros Hget Hne Hparse. unfold load.
  by rewrite Hget, (nonempty_eqb _ Hne), Hparse.
Qed.

Lemma getItem_save (this : t) (w : World) :
  getItem (save this w) "memento_settings"
  = Some (JSON_stringify (state this)).
Proof. unfold save, apply, setItem, getItem. simpl. apply lookup_insert_eq. Qed.

(** The state of a reachable settings object has every key of the
    defaults, and its defaults are the ones of the constructor. *)
Lemma load_covers (this : t) (w : World) (st : object) :
  load this w = Ok st → ∀ k, is_Some (defaults this !! k) → is_Some (st !! k).
Proof.
  unfold load. intros Hload k Hk.
  destruct (getItem w "memento_settings") as [saved|].
  - destruct (negb (String.eqb saved EmptyString)).
    + destruct (JSON_parse saved) as [parsed|]; [|done].
      injection Hload as <-. rewrite lookup_spread2.
      by destruct (ownProps parsed !! k).
    + injection Hload as <-. by rewrite spread2_empty.
  - injection Hload as <-. by rewrite spread2_empty.
Qed.

Lemma assign_insert (o : object) (key : string) (v : value) :
  key ≠ "__proto__" ∨ is_Some (o !! key) →
  assign o key v = <[key := v]> o.
Proof.
  unfold assign. intros [Hne | [x Hx]].
  - destruct (o !! key); [done|].
    destruct (String.eqb_spec key "__proto__"); [done|done].
  - by rewrite Hx.
Qed.

Lemma assign_proto (o : object) (v : value) :
  o !! "__proto__" = None → assign o "__proto__" v = o.
Proof. unfold assign. by intros ->. Qed.

Lemma assign_cases (o : object) (key : string) (v : value) :
  assign o key v = o ∨ assign o key v = <[key := v]> o.
Proof.
  unfold assign. destruct (o !! key); [by right|].
  destruct (String.eqb key "__proto__"); [by left|by right].
Qed.

Lemma assign_assign (o : object) (key : string) (v1 v2 : value) :
  assign (assign o key v1) key v2 = assign o key v2.
Proof.
  unfold assign at 2 3. destruct (o !! key) as [x|] eqn:Hx.
  - rewrite assign_insert by (right; rewrite lookup_insert_eq; by eexists).
    apply insert_insert_eq.
  - destruct (String.eqb_spec key "__proto__") as [->|Hne].
    + by apply assign_proto.
    + rewrite assign_insert by by left. apply insert_insert_eq.
Qed.

Lemma assign_keeps (o : object) (key k : string) (v : value) :
  is_Some (o !! k) → is_Some (assign o key v !! k).
Proof.
  intros Hk. destruct (assign_cases o key v) as [-> | ->]; [done|].
  destruct (decide (key = k)) as [->|Hne].
  - rewrite lookup_insert_eq. by eexists.
  - by rewrite lookup_insert_ne.
Qed.

Lemma reachable_invariant (this : t) :
  reachable this →
  defaults this = theDefaults
  ∧ ∀ k, is_Some (theDefaults !! k) → is_Some (state this !! k).
Proof.
  induction 1 as [w this w' Hnew | this key v w _ [IHd IHs]
                 | this w _ [IHd IHs]].
  - unfold new in Hnew.
    destruct (load (mk theDefaults ∅) w) as [st|e] eqn:Hload; [|done].
    injection Hnew as <- _. simpl. split; [done|].
    by apply (load_covers _ _ _ Hload).
  - simpl. split; [done|]. intros k Hk.
    apply assign_keeps. by apply IHs.
  - simpl. split; [done|]. intros k Hk.
    by rewrite spread2_empty, IHd.
Qed.

(** C5, amended.  For a reachable settings object whose state the JSON
    codec reads back as written, [save] followed by a fresh [load] on the
    same storage -- by this object or by a newly constructed one --
    yields the saved state. *)
Theorem save_then_load (this : t) (w : World) :
  reachable this → readsBack (state this) →
  load this (save this w) = Ok (state this)
  ∧ ∃ w', new (save this w) = Ok (mk theDefaults (state this), w').
Proof.
  intros Hreach (Hne & parsed & Hparse & Hprops).
  destruct (reachable_invariant this Hreach) as [Hdef Hcover].
  assert (∀ that, defaults that = theDefaults →
            load that (save this w) = Ok (state this)) as Hload.
  { intros that Hthat.
    rewrite (load_parsed that _ _ parsed (getItem_save this w) Hne Hparse).
    rewrite Hprops, Hthat. by rewrite spread2_covered. }
  split; [by apply Hload|].
  unfold new. rewrite (Hload (mk theDefaults ∅)) by done. by eexists.
Qed.

(** C6, amended.  [load] returns the defaults with the own properties of
    the parsed text merged over them; for missing storage, and for an
    empty stored text, it returns the defaults; for a stored text that is
    not empty and does not parse, it throws. *)
Theorem load_behaviour (this : t) (w : World) :
  (getItem w "memento_settings" = None → load this w = Ok (defaults this))
  ∧ (getItem w "memento_settings" = Some EmptyString →
       load this w = Ok (defaults this))
  ∧ (∀ saved parsed,
       getItem w "memento_settings" = Some saved → saved ≠ EmptyString →
       JSON_parse saved = Some parsed →
       ∃ st, load this w = Ok st
         ∧ ∀ k, st !! k = match ownProps parsed !! k with
                          | Some v => Some v
                          | None => defaults this !! k
                          end)
  ∧ (∀ saved,
       getItem w "memento_settings" = Some saved → saved ≠ EmptyString →
       JSON_parse saved = None →
       load this w = Throw SyntaxError).
Proof.
  split; [apply load_missing|]. split; [apply load_empty_text|]. split.
  - intros saved parsed Hget Hne Hparse. eexists.
    split; [by apply (load_parsed this w saved parsed)|].
    intros k. apply lookup_spread2.
  - intros saved. apply load_corrupt.
Qed.

(** C9, amended.  For a key other than [__proto__], [update key v] sets
    property [key] of the state to [v], leaves every other property and
    the defaults as they were, and stores the JSON text of the resulting
    state under the settings key, leaving the other storage keys
    alone. *)
Theorem update_sets_and_saves (key : string) (v : value) (this : t)
    (w : World) :
  key ≠ "__proto__" →
  let this' := (update key v this w).1 in
  let w' := (update key v this w).2 in
  state this' !! key = Some v
  ∧ get this' key = v
  ∧ (∀ k, k ≠ key → state this' !! k = state this !! k)
  ∧ defaults this' = defaults this
  ∧ getItem w' "memento_settings" = Some (JSON_stringify (state this'))
  ∧ (∀ k, k ≠ "memento_settings" → getItem w' k = getItem w k).
Proof.
  intros Hkey. simpl. rewrite assign_insert by by left.
  split; [apply lookup_insert_eq|]. split.
  { unfold get, prop. simpl. by rewrite lookup_insert_eq. }
  split; [intros k Hk; by apply lookup_insert_ne|]. split; [done|].
  split; [apply getItem_save|].
  intros k Hk. unfold save, apply, setItem, getItem. simpl.
  by apply lookup_insert_ne.
Qed.
End SettingsFacts.

(** ** The canvas *)
Section CanvasFacts.
Import Canvas.

Lemma run_app (ctx : Ctx) (ops1 ops2 : list CanvasOp) :
  run ctx (ops1 ++ ops2)
  = (let '(ctx1, marks1) := run ctx ops1 in
     let '(ctx2, marks2) := run ctx1 ops2 in
     (ctx2, marks1 ++ marks2)).
Proof.
  revert ctx. induction ops1 as [|op ops1 IH]; intros ctx; simpl.
  - by destruct (run ctx ops2).
  - destruct (step ctx op) as [ctx1 marks1]. rewrite IH.
    destruct (run ctx1 ops1) as [ctx2 marks2].
    destruct (run ctx2 ops2) as [ctx3 marks3].
    by rewrite app_assoc.
Qed.

(** Running the calls of a list of items, each of which takes a settled
    context to a settled context. *)
Lemma run_items {A : Type} (l : list A) :
  ∀ (f : nat → A → list CanvasOp) (g : nat → A → list Mark),
    (∀ i x ctx, settled ctx →
       ∃ ctx', run ctx (f i x) = (ctx', g i x) ∧ settled ctx') →
    ∀ ctx, settled ctx →
      ∃ ctx', run ctx (concat (imap f l)) = (ctx', concat (imap g l))
              ∧ settled ctx'.
Proof.
  induction l as [|x l IH]; intros f g Hitem ctx Hctx.
  - exists ctx. done.
  - rewrite !imap_cons. simpl. rewrite run_app.
    destruct (Hitem 0%nat x ctx Hctx) as (ctx1 & -> & Hctx1).
    destruct (IH (f ∘ S) (g ∘ S) (λ i, Hitem (S i)) ctx1 Hctx1)
      as (ctx2 & -> & Hctx2).
    by exists ctx2.
Qed.

Lemma concat_imap_lookup {A B : Type} (l : list A) :
  ∀ (g : nat → A → list B) (i : nat) (x : A),
    l !! i = Some x →
    ∃ before after, concat (imap g l) = before ++ g i x ++ after.
Proof.
  induction l as [|y l IH]; intros g i x Hi; [done|].
  rewrite imap_cons. simpl. destruct i as [|i].
  - injection Hi as ->. by exists [], (concat (imap (g ∘ S) l)).
  - destruct (IH (g ∘ S) i x Hi) as (before & after & ->).
    exists (g 0%nat y ++ before), after. simpl. by rewrite app_assoc.
Qed.

Lemma elem_of_concat_imap {A B : Type} (l : list A) :
  ∀ (g : nat → A → list B) (m : B),
    m ∈ concat (imap g l) → ∃ i x, l !! i = Some x ∧ m ∈ g i x.
Proof.
  induction l as [|y l IH]; intros g m Hm.
  - by apply elem_of_nil in Hm.
  - rewrite imap_cons in Hm. simpl in Hm.
    apply elem_of_app in Hm as [Hm|Hm].
    + by exists 0%nat, y.
    + destruct (IH (g ∘ S) m Hm) as (i & x & Hi & Hx).
      by exists (S i), x.
Qed.
End CanvasFacts.

(** ** [draw] *)
Section DrawFacts.
Import Renderer Canvas DrawSpec.
Context `{Numeric}.
Local Open Scope R_scope.

Lemma one_point_zero : 1.0 = 1.
Proof. lra. Qed.

Lemma run_drawCell (radius : R) (glowEnabled accentColor : value)
    (pastColor futureColor : string) (elapsed gapX gapY halfX halfY : R)
    (r c : nat) (cell : option Cell) (ctx : Ctx) :
  settled ctx →
  ∃ ctx',
    run ctx (drawCell radius glowEnabled accentColor pastColor futureColor
                      elapsed gapX gapY halfX halfY r c cell)
    = (ctx', slotMarks radius glowEnabled accentColor pastColor futureColor
               elapsed (halfX + INR c * gapX) (halfY + INR r * gapY) cell)
    ∧ settled ctx'.
Proof.
  intros [Halpha Hblur]. destruct ctx as [p fs ga sb sc]. simpl in *.
  subst ga sb.
  destruct cell as [[k st]|]; [|by eexists].
  unfold drawCell, slotMarks, cellMarks, settled, pulse, circle.
  cbn [status]. destruct st.
  - eexists. cbn [run step app fst snd path fillStyle globalAlpha shadowBlur
                  shadowColor]. done.
  - destruct (truthy glowEnabled);
      eexists;
      cbn [run step app fst snd path fillStyle globalAlpha shadowBlur
           shadowColor];
      rewrite ?one_point_zero; done.
  - eexists. cbn [run step app fst snd path fillStyle globalAlpha shadowBlur
                  shadowColor]. done.
Qed.

(** The marks of a frame: the clearing, then the marks of the cells, row
    by row. *)
Lemma frame_marks (this : t) (state : object)
    (pastColor futureColor : string) (timestamp : R) (ctx : Ctx) :
  settled ctx →
  marks ctx (draw this state pastColor futureColor timestamp)
  = Cleared 0 0 (canvasWidth this / dpr this) (canvasHeight this / dpr this)
    :: concat (imap (λ r row,
         concat (imap (λ c cell,
           slotMarks (parseFloat (prop state "dotSize"))
                     (prop state "glowEnabled") (prop state "accentColor")
                     pastColor futureColor (timestamp - startTime this)
                     (centerX this c) (centerY this r) cell) row))
         (grid this)).
Proof.
  intros Hctx. unfold marks, draw.
  change (run ctx ([?op] ++ ?rest))
    with (let '(ctx1, marks1) := step ctx op in
          let '(ctx2, marks2) := run ctx1 rest in
          (ctx2, marks1 ++ marks2)).
  cbn [step]. rewrite run_app.
  match goal with
  | |- context [run ctx (concat (imap ?f (grid this)))] =>
    pose proof (run_items (grid this) f
      (λ r row, concat (imap (λ c cell,
         slotMarks (parseFloat (prop state "dotSize"))
                   (prop state "glowEnabled") (prop state "accentColor")
                   pastColor futureColor (timestamp - startTime this)
                   (centerX this c) (centerY this r) cell) row)))
      as Hrows
  end.
  destruct (Hrows) with (ctx := ctx) as (ctx' & -> & _); [|done|].
  - intros r row ctx1 Hctx1. apply run_items; [|done].
    intros c cell ctx2 Hctx2. by apply run_drawCell.
  - simpl. by rewrite app_nil_r.
Qed.

(** The marks of a day cell sit together in the frame. *)
Lemma frame_cell_marks (this : t) (state : object)
    (pastColor futureColor : string) (timestamp : R) (ctx : Ctx)
    (r c : nat) (row : Row) (cell : Cell) :
  settled ctx →
  grid this !! r = Some row → row !! c = Some (Some cell) →
  ∃ before after,
    marks ctx (draw this state pastColor futureColor timestamp)
    = before
      ++ cellMarks (parseFloat (prop state "dotSize"))
           (prop state "glowEnabled") (prop state "accentColor")
           pastColor futureColor (timestamp - startTime this)
           (centerX this c) (centerY this r) cell
      ++ after.
Proof.
  intros Hctx Hrow Hcell. rewrite frame_marks by done.
  match goal with
  | |- context [concat (imap ?g (grid this))] =>
    destruct (concat_imap_lookup (grid this) g r row Hrow)
      as (b1 & a1 & Hrows)
  end.
  rewrite Hrows. clear Hrows. cbv beta.
  match goal with
  | |- context [concat (imap ?g row)] =>
    destruct (concat_imap_lookup row g c (Some cell) Hcell)
      as (b2 & a2 & Hcells)
  end.
  rewrite Hcells. clear Hcells. cbv beta.
  eexists (_ :: b1 ++ b2), (a2 ++ a1). simpl.
  by rewrite <- !app_assoc.
Qed.

(** Every fill of the frame is one of the marks of some day cell. *)
Lemma frame_fill_inv (this : t) (state : object)
    (pastColor futureColor : string) (timestamp : R) (ctx : Ctx)
    (shape : list Arc) (style : value) (alpha blur : R) :
  settled ctx →
  Filled shape style alpha blur
    ∈ marks ctx (draw this state pastColor futureColor timestamp) →
  ∃ r c row cell,
    grid this !! r = Some row ∧ row !! c = Some (Some cell)
    ∧ Filled shape style alpha blur
        ∈ cellMarks (parseFloat (prop state "dotSize"))
            (prop state "glowEnabled") (prop state "accentColor")
            pastColor futureColor (timestamp - startTime this)
            (centerX this c) (centerY this r) cell.
Proof.
  intros Hctx Hin. rewrite frame_marks in Hin by done.
  apply elem_of_cons in Hin as [Hin|Hin]; [done|].
  apply elem_of_concat_imap in Hin as (r & row & Hrow & Hin).
  apply elem_of_concat_imap in Hin as (c & slot & Hslot & Hin).
  destruct slot as [cell|]; [|by apply elem_of_nil in Hin].
  by exists r, c, row, cell.
Qed.

Lemma centerX_inj (this : t) (c c' : nat) :
  configured this → centerX this c = centerX this c' → c = c'.
Proof.
  intros (_ & HgapX & _). unfold centerX. rewrite HgapX. intros Heq.
  apply INR_eq. lra.
Qed.

Lemma centerY_inj (this : t) (r r' : nat) :
  configured this → centerY this r = centerY this r' → r = r'.
Proof.
  intros (_ & _ & HgapY). unfold centerY. rewrite HgapY. intros Heq.
  apply INR_eq. lra.
Qed.

(** A fill that paints a circle around the centre of a cell comes from
    that cell. *)
Lemma frame_circle_inv (this : t) (state : object)
    (pastColor futureColor : string) (timestamp : R) (ctx : Ctx)
    (r c : nat) (row : Row) (cell : Cell) (radius : R)
    (shape : list Arc) (style : value) (alpha blur : R) :
  configured this → settled ctx →
  grid this !! r = Some row → row !! c = Some (Some cell) →
  Filled shape style alpha blur
    ∈ marks ctx (draw this state pastColor futureColor timestamp) →
  circle (centerX this c) (centerY this r) radius ∈ shape →
  Filled shape style alpha blur
    ∈ cellMarks (parseFloat (prop state "dotSize"))
        (prop state "glowEnabled") (prop state "accentColor")
        pastColor futureColor (timestamp - startTime this)
        (centerX this c) (centerY this r) cell.
Proof.
  intros Hcfg Hctx Hrow Hcell Hin Hcircle.
  apply frame_fill_inv in Hin
    as (r' & c' & row' & cell' & Hrow' & Hcell' & Hin); [|done].
  assert (centerX this c = centerX this c' ∧ centerY this r = centerY this r')
    as [Hx Hy].
  { unfold cellMarks in Hin.
    destruct (status cell'); [| destruct (truthy (prop state "glowEnabled")) |];
      repeat (apply elem_of_cons in Hin as [Hin|Hin];
              [injection Hin as -> _ _ _;
               apply list_elem_of_singleton in Hcircle;
               by injection Hcircle as -> -> _ |]);
      by apply elem_of_nil in Hin. }
  apply centerX_inj in Hx; [|done]. apply centerY_inj in Hy; [|done].
  subst c' r'. congruence.
Qed.

(** Around the centre of today's cell no circle of the dot size itself is
    filled: the path with that circle is dropped, and the fills have
    radius + 1 and, for the glow, 3 * radius. *)
Lemma today_no_dot_radius (this : t) (state : object)
    (pastColor futureColor : string) (timestamp : R) (ctx : Ctx)
    (r c : nat) (row : Row) (cell : Cell) :
  configured this → settled ctx →
  grid this !! r = Some row → row !! c = Some (Some cell) →
  status cell = today →
  parseFloat (prop state "dotSize") ≠ 0 →
  ¬ filledCircle (centerX this c) (centerY this r)
      (parseFloat (prop state "dotSize"))
      (marks ctx (draw this state pastColor futureColor timestamp)).
Proof.
  intros Hcfg Hctx Hrow Hcell Htoday Hradius
         (shape & style & alpha & blur & Hin & Hcircle).
  pose proof (frame_circle_inv _ _ _ _ _ _ _ _ _ _ _ _ _ _ _
                Hcfg Hctx Hrow Hcell Hin Hcircle) as Hmark.
  unfold cellMarks in Hmark. rewrite Htoday in Hmark.
  destruct (truthy (prop state "glowEnabled"));
    repeat (apply elem_of_cons in Hmark as [Hmark|Hmark];
            [injection Hmark as -> _ _ _;
             apply list_elem_of_singleton in Hcircle;
             injection Hcircle as Hrad; lra |]);
    by apply elem_of_nil in Hmark.
Qed.

(** A fill of the disc of three times the dot radius around today's
    cell is the glow, at opacity 0.3 * pulse. *)
Lemma glow_alpha (this : t) (state : object)
    (pastColor futureColor : string) (timestamp : R) (ctx : Ctx)
    (r c : nat) (row : Row) (cell : Cell) (alpha : R) :
  configured this → settled ctx →
  grid this !! r = Some row → row !! c = Some (Some cell) →
  status cell = today →
  parseFloat (prop state "dotSize") * 3
    ≠ parseFloat (prop state "dotSize") + 1 →
  filledCircleAt (centerX this c) (centerY this r)
    (parseFloat (prop state "dotSize") * 3) alpha
    (marks ctx (draw this state pastColor futureColor timestamp)) →
  alpha = 0.3 * pulse (timestamp - startTime this).
Proof.
  intros Hcfg Hctx Hrow Hcell Htoday Hradius
         (shape & style & blur & Hin & Hcircle).
  pose proof (frame_circle_inv _ _ _ _ _ _ _ _ _ _ _ _ _ _ _
                Hcfg Hctx Hrow Hcell Hin Hcircle) as Hmark.
  unfold cellMarks in Hmark. rewrite Htoday in Hmark.
  destruct (truthy (prop state "glowEnabled")); simpl in Hmark.
  - apply elem_of_cons in Hmark as [Hmark|Hmark];
      [by injection Hmark as _ _ -> _|].
    repeat (apply elem_of_cons in Hmark as [Hmark|Hmark];
            [injection Hmark as -> _ _ _;
             apply list_elem_of_singleton in Hcircle;
             injection Hcircle as Hrad; lra |]).
    by apply elem_of_nil in Hmark.
  - repeat (apply elem_of_cons in Hmark as [Hmark|Hmark];
            [injection Hmark as -> _ _ _;
             apply list_elem_of_singleton in Hcircle;
             injection Hcircle as Hrad; lra |]).
    by apply elem_of_nil in Hmark.
Qed.

Lemma pulse_range (elapsed : R) : 0 <= pulse elapsed <= 1.
Proof. unfold pulse. pose proof (SIN_bound (elapsed * 0.002)). lra. Qed.

Lemma configured_buildGrid (this : t) (Y d : Z) :
  configured this → configured (buildGrid this Y d).
Proof.
  unfold configured, buildGrid, resize, withGrid. intros Hcfg.
  destruct (Date.getDay (Date.newJan1 Y)) as [startDay|]; simpl;
    [destruct (fillGrid _ _ _ _ _)|]; done.
Qed.

Lemma startTime_buildGrid (this : t) (Y d : Z) :
  startTime (buildGrid this Y d) = startTime this.
Proof.
  unfold buildGrid, resize, withGrid.
  destruct (Date.getDay (Date.newJan1 Y)) as [startDay|]; simpl;
    [destruct (fillGrid _ _ _ _ _)|]; done.
Qed.

(** C7, amended.  Every frame starts by clearing the surface; then a day
    cell in row r and column c whose status is past or future gets one
    filled circle of the configured dot size around
    (gapX/2 + c*gapX, gapY/2 + r*gapY), in the past or the future colour;
    today's cell gets a filled circle of the dot size plus 1 around that
    point, in the accent colour. *)
Theorem draw_dots (this : t) (state : object)
    (pastColor futureColor : string) (timestamp : R) (ctx : Ctx)
    (r c : nat) (row : Row) (cell : Cell) :
  settled ctx →
  grid this !! r = Some row → row !! c = Some (Some cell) →
  let ops := draw this state pastColor futureColor timestamp in
  let radius := parseFloat (prop state "dotSize") in
  let cx := IZR (dotGapX this) / 2 + INR c * IZR (dotGapX this) in
  let cy := IZR (dotGapY this) / 2 + INR r * IZR (dotGapY this) in
  head ops = Some (clearRect 0 0 (canvasWidth this / dpr this)
                             (canvasHeight this / dpr this))
  ∧ head (marks ctx ops)
    = Some (Cleared 0 0 (canvasWidth this / dpr this)
                    (canvasHeight this / dpr this))
  ∧ match status cell with
    | past => Filled [circle cx cy radius] (VStr pastColor) 1 0 ∈ marks ctx ops
    | future =>
      Filled [circle cx cy radius] (VStr futureColor) 1 0 ∈ marks ctx ops
    | today =>
      Filled [circle cx cy (radius + 1)] (prop state "accentColor") 1 0
        ∈ marks ctx ops
    end.
Proof.
  intros Hctx Hrow Hcell ops radius cx cy.
  split; [done|]. split; [unfold ops; by rewrite frame_marks|].
  destruct (frame_cell_marks this state pastColor futureColor timestamp
              ctx r c row cell Hctx Hrow Hcell) as (before & after & Hms).
  fold ops in Hms. rewrite Hms. unfold cellMarks.
  fold radius. change (centerX this c) with cx.
  change (centerY this r) with cy.
  destruct (status cell).
  - apply elem_of_app. right. apply list_elem_of_here.
  - apply elem_of_app. right. apply elem_of_app. left.
    apply elem_of_app. right. apply list_elem_of_here.
  - apply elem_of_app. right. apply list_elem_of_here.
Qed.

(** C8, amended.  With glow enabled, the marks of today's cell are, in
    this order: a disc of three times the dot radius around the centre of
    the cell, filled with the accent colour at opacity
    0.3 * (0.5 + 0.5 * sin(elapsed * 0.002)), which lies between 0 and
    0.3; then the dot of radius + 1, twice. *)
Theorem draw_glow (this : t) (state : object)
    (pastColor futureColor : string) (timestamp : R) (ctx : Ctx)
    (r c : nat) (row : Row) (cell : Cell) :
  settled ctx →
  truthy (prop state "glowEnabled") = true →
  grid this !! r = Some row → row !! c = Some (Some cell) →
  status cell = today →
  let radius := parseFloat (prop state "dotSize") in
  let accent := prop state "accentColor" in
  let elapsed := timestamp - startTime this in
  let opacity := 0.3 * (0.5 + 0.5 * sin (elapsed * 0.002)) in
  let cx := centerX this c in
  let cy := centerY this r in
  (∃ before after,
     marks ctx (draw this state pastColor futureColor timestamp)
     = before
       ++ [Filled [circle cx cy (radius * 3)] accent opacity 0;
           Filled [circle cx cy (radius + 1)] accent 1 0;
           Filled [circle cx cy (radius + 1)] accent 1 10]
       ++ after)
  ∧ 0 <= opacity <= 0.3.
Proof.
  intros Hctx Hglow Hrow Hcell Htoday radius accent elapsed opacity cx cy.
  split.
  - destruct (frame_cell_marks this state pastColor futureColor timestamp
                ctx r c row cell Hctx Hrow Hcell) as (before & after & Hms).
    exists before, after. rewrite Hms. unfold cellMarks.
    by rewrite Htoday, Hglow.
  - pose proof (pulse_range elapsed) as Hp. unfold pulse in Hp.
    unfold opacity. lra.
Qed.
End DrawFacts.

(** ** The claims at sample inputs *)
Section Samples.
Import Renderer GridSpec Canvas DrawSpec.
#[local] Existing Instances RefJSON.json RefJSON.numeric.

Lemma buildGrid_day_cell_count_witness :
  configured sampleRenderer ∧ Date.calendarYear 2024
  ∧ 1 ≤ 60 ≤ totalDays 2024
  ∧ length (dayCells (grid (buildGrid sampleRenderer 2024 60))) = 366%nat.
Proof.
  assert (configured sampleRenderer) as H1 by (by repeat split).
  assert (Date.calendarYear 2024) as H2 by (unfold Date.calendarYear; lia).
  assert (1 ≤ 60 ≤ totalDays 2024) as H3 by (vm_compute; split; discriminate).
  split; [exact H1|]. split; [exact H2|]. split; [exact H3|].
  exact (proj1 (buildGrid_day_cell_count sampleRenderer 2024 60 H1 H2 H3)).
Defined.

Lemma buildGrid_statuses_witness :
  configured sampleRenderer
  ∧ Date.getDay (Date.newJan1 2025) = Some 3
  ∧ 1 ≤ 60 ≤ totalDays 2025
  ∧ todayCells (grid (buildGrid sampleRenderer 2025 60)) = [mkCell 60 today].
Proof.
  assert (configured sampleRenderer) as H1 by (by repeat split).
  assert (Date.getDay (Date.newJan1 2025) = Some 3) as H2 by reflexivity.
  assert (1 ≤ 60 ≤ totalDays 2025) as H3 by (vm_compute; split; discriminate).
  split; [exact H1|]. split; [exact H2|]. split; [exact H3|].
  exact (proj1 (buildGrid_statuses sampleRenderer 2025 60 3 H1 H2 H3)).
Defined.

Lemma buildGrid_padding_witness :
  configured sampleRenderer
  ∧ Date.calendarYear 2025
  ∧ (2025 < 0 ∨ 99 < 2025)
  ∧ nativeIndex Wednesday = jan1WeekDay 2025
  ∧ 1 ≤ 60 ≤ totalDays 2025
  ∧ ∃ row0, grid (buildGrid sampleRenderer 2025 60) !! 0%nat = Some row0
            ∧ emptyCount row0 = 2%nat.
Proof.
  assert (configured sampleRenderer) as H1 by (by repeat split).
  assert (Date.calendarYear 2025) as H2 by (unfold Date.calendarYear; lia).
  assert (2025 < 0 ∨ 99 < 2025) as H3 by (right; lia).
  assert (nativeIndex Wednesday = jan1WeekDay 2025) as H4 by reflexivity.
  assert (1 ≤ 60 ≤ totalDays 2025) as H5 by (vm_compute; split; discriminate).
  split; [exact H1|]. split; [exact H2|]. split; [exact H3|].
  split; [exact H4|]. split; [exact H5|].
  destruct (buildGrid_padding sampleRenderer 2025 60 Wednesday H1 H2 H3 H4 H5)
    as (_ & (row0 & Hrow0 & _ & Hcount) & _).
  exists row0. split; [exact Hrow0 | exact Hcount].
Defined.

Lemma buildGrid_dimensions_witness :
  configured sampleRenderer
  ∧ Date.getDay (Date.newJan1 2025) = Some 3
  ∧ 1 ≤ 60 ≤ totalDays 2025
  ∧ Forall (λ row, length row = 7%nat) (grid (buildGrid sampleRenderer 2025 60))
  ∧ isCeil (2 + 365) 7
      (Z.of_nat (length (grid (buildGrid sampleRenderer 2025 60)))).
Proof.
  assert (configured sampleRenderer) as H1 by (by repeat split).
  assert (Date.getDay (Date.newJan1 2025) = Some 3) as H2 by reflexivity.
  assert (1 ≤ 60 ≤ totalDays 2025) as H3 by (vm_compute; split; discriminate).
  split; [exact H1|]. split; [exact H2|]. split; [exact H3|].
  destruct (buildGrid_dimensions sampleRenderer 2025 60 3 H1 H2 H3)
    as (_ & _ & _ & Hrows & Hceil).
  split; [exact Hrows | exact Hceil].
Defined.

Lemma buildGrid_day_out_of_range_witness :
  configured sampleRenderer
  ∧ (400 < 1 ∨ totalDays 2024 < 400)
  ∧ todayCells (grid (buildGrid sampleRenderer 2024 400)) = []
  ∧ ∀ c, c ∈ dayCells (grid (buildGrid sampleRenderer 2024 400)) →
         status c = past.
Proof.
  assert (configured sampleRenderer) as H1 by (by repeat split).
  assert (400 < 1 ∨ totalDays 2024 < 400) as H2 by (right; reflexivity).
  assert (totalDays 2024 < 400) as H3 by reflexivity.
  split; [exact H1|]. split; [exact H2|].
  destruct (buildGrid_day_out_of_range sampleRenderer 2024 400 H1 H2)
    as (_ & Hnone & Hpast & _).
  split; [exact Hnone | exact (Hpast H3)].
Defined.

(** *** The settings store, with the reference codec *)

Lemma reachable_lightSettings : Settings.reachable lightSettings.
Proof.
  apply Settings.reachable_update.
  apply (Settings.reachable_new emptyWorld freshSettings
           (Settings.apply freshSettings emptyWorld)).
  vm_compute. reflexivity.
Qed.

Lemma readsBack_lightSettings :
  Settings.readsBack (Settings.state lightSettings).
Proof.
  split; [vm_compute; discriminate|].
  exists (VObj (Settings.state lightSettings)).
  split; vm_compute; reflexivity.
Qed.

Lemma save_then_load_witness :
  Settings.reachable lightSettings
  ∧ Settings.readsBack (Settings.state lightSettings)
  ∧ Settings.load lightSettings (Settings.save lightSettings emptyWorld)
    = Ok (Settings.state lightSettings).
Proof.
  split; [exact reachable_lightSettings|].
  split; [exact readsBack_lightSettings|].
  exact (proj1 (save_then_load lightSettings emptyWorld
                  reachable_lightSettings readsBack_lightSettings)).
Defined.

(** C5, as stated, fails: after [update "theme" undefined] on the
    settings of a fresh session, a reachable state, the stored text has
    no theme, and a fresh [load] gives the defaults, whose theme is
    "dark", not the saved state. *)
Lemma save_load_undefined_counterexample :
  Settings.reachable undefinedSettings
  ∧ Settings.state undefinedSettings !! "theme" = Some VUndefined
  ∧ Settings.load undefinedSettings
      (Settings.save undefinedSettings emptyWorld)
    = Ok Settings.theDefaults
  ∧ Settings.theDefaults !! "theme" = Some (VStr "dark")
  ∧ ¬ Settings.roundTrips undefinedSettings emptyWorld.
Proof.
  assert (Settings.load undefinedSettings
            (Settings.save undefinedSettings emptyWorld)
          = Ok Settings.theDefaults) as Hload by (vm_compute; reflexivity).
  split.
  { apply Settings.reachable_update.
    apply (Settings.reachable_new emptyWorld freshSettings
             (Settings.apply freshSettings emptyWorld)).
    vm_compute. reflexivity. }
  split; [reflexivity|]. split; [exact Hload|]. split; [reflexivity|].
  unfold Settings.roundTrips. rewrite Hload. intros Heq.
  assert (Settings.theDefaults !! "theme"
          = Settings.state undefinedSettings !! "theme") as Htheme
    by congruence.
  vm_compute in Htheme. discriminate.
Qed.

Lemma update_sets_and_saves_witness :
  "theme"%string ≠ "__proto__"%string
  ∧ Settings.state lightSettings !! "theme" = Some (VStr "light")
  ∧ Settings.getItem
      (Settings.update "theme" (VStr "light") freshSettings emptyWorld).2
      "memento_settings"
    = Some (JSON_stringify (Settings.state lightSettings)).
Proof.
  assert ("theme"%string ≠ "__proto__"%string) as H1 by discriminate.
  split; [exact H1|].
  destruct (update_sets_and_saves "theme" (VStr "light")
              freshSettings emptyWorld H1)
    as (Hset & _ & _ & _ & Hstored & _).
  split; [exact Hset | exact Hstored].
Defined.

(** C9, as stated, fails for the key [__proto__]: on the settings of a
    fresh session, [update "__proto__" "light"] creates no property of
    that name, leaves the state as it was and stores the text of the
    unchanged state. *)
Lemma update_proto_counterexample :
  Settings.state
    (Settings.update "__proto__" (VStr "light") freshSettings emptyWorld).1
    !! "__proto__" = None
  ∧ (Settings.update "__proto__" (VStr "light") freshSettings emptyWorld).1
    = freshSettings
  ∧ Settings.getItem
      (Settings.update "__proto__" (VStr "light") freshSettings emptyWorld).2
      "memento_settings"
    = Some (JSON_stringify Settings.theDefaults)
  ∧ ¬ Settings.updateSets "__proto__" (VStr "light") freshSettings emptyWorld.
Proof.
  assert (Settings.state
            (Settings.update "__proto__" (VStr "light") freshSettings
               emptyWorld).1 !! "__proto__" = None) as Hnone
    by reflexivity.
  split; [exact Hnone|]. split; [reflexivity|].
  split; [reflexivity|].
  unfold Settings.updateSets. rewrite Hnone. discriminate.
Qed.

(** C6, as stated, fails: with the text [{] stored, which is not JSON,
    [load] throws instead of returning the defaults, and so does the
    constructor. *)
Lemma load_corrupt_counterexample :
  Settings.getItem (worldWith corruptText) "memento_settings"
    = Some corruptText
  ∧ JSON_parse corruptText = None
  ∧ Settings.load freshSettings (worldWith corruptText) = Throw SyntaxError
  ∧ Settings.new (worldWith corruptText) = Throw SyntaxError
  ∧ ¬ Settings.corruptLoadsDefaults freshSettings (worldWith corruptText).
Proof.
  assert (Settings.getItem (worldWith corruptText) "memento_settings"
          = Some corruptText) as Hget by (vm_compute; reflexivity).
  assert (JSON_parse corruptText = None) as Hparse by (vm_compute; reflexivity).
  assert (Settings.load freshSettings (worldWith corruptText)
          = Throw SyntaxError) as Hload by (vm_compute; reflexivity).
  split; [done|]. split; [done|]. split; [done|].
  split; [vm_compute; reflexivity|].
  intros Hclaim. specialize (Hclaim corruptText Hget Hparse).
  rewrite Hload in Hclaim. discriminate.
Qed.

Lemma load_behaviour_witness :
  Settings.getItem (worldWith lightText) "memento_settings" = Some lightText
  ∧ lightText ≠ EmptyString
  ∧ JSON_parse lightText
    = Some (VObj {[ "theme"%string := VStr "light" ]})
  ∧ (∃ st, Settings.load freshSettings (worldWith lightText) = Ok st
       ∧ st !! "theme"%string = Some (VStr "light")
       ∧ st !! "dotSize"%string = Some (VNum (mkNumber 35 1)))
  ∧ Settings.getItem (worldWith corruptText) "memento_settings"
    = Some corruptText
  ∧ corruptText ≠ EmptyString
  ∧ JSON_parse corruptText = None
  ∧ Settings.load freshSettings (worldWith corruptText) = Throw SyntaxError.
Proof.
  assert (Settings.getItem (worldWith lightText) "memento_settings"
          = Some lightText) as H1 by (vm_compute; reflexivity).
  assert (lightText ≠ EmptyString) as H2 by (vm_compute; discriminate).
  assert (JSON_parse lightText
          = Some (VObj {[ "theme"%string := VStr "light" ]})) as H3
    by (vm_compute; reflexivity).
  assert (Settings.getItem (worldWith corruptText) "memento_settings"
          = Some corruptText) as H4 by (vm_compute; reflexivity).
  assert (corruptText ≠ EmptyString) as H5 by (vm_compute; discriminate).
  assert (JSON_parse corruptText = None) as H6 by (vm_compute; reflexivity).
  split; [exact H1|]. split; [exact H2|]. split; [exact H3|].
  split.
  - destruct (load_behaviour freshSettings (worldWith lightText))
      as (_ & _ & Hparsed & _).
    destruct (Hparsed lightText _ H1 H2 H3) as (st & Hload & Hst).
    exists st. split; [exact Hload|].
    split; rewrite Hst; vm_compute; reflexivity.
  - split; [exact H4|]. split; [exact H5|]. split; [exact H6|].
    destruct (load_behaviour freshSettings (worldWith corruptText))
      as (_ & _ & _ & Hcorrupt).
    exact (Hcorrupt corruptText H4 H5 H6).
Defined.

(** *** Frames *)
Local Open Scope R_scope.

Lemma configured_newYear2024 : configured newYear2024.
Proof. apply configured_buildGrid, configured_new. Defined.

Lemma settled_fresh : settled fresh.
Proof. split; reflexivity. Defined.

Lemma firstRow_newYear2024 : grid newYear2024 !! 0%nat = Some firstRow2024.
Proof. reflexivity. Defined.

Lemma sample_radius : parseFloat (prop Settings.theDefaults "dotSize") = 3.5.
Proof.
  change (prop Settings.theDefaults "dotSize") with (VNum (mkNumber 35 1)).
  unfold parseFloat, RefJSON.numeric, numberToR. cbn [mantissa scale].
  change (10 ^ Z.of_nat 1)%Z with 10%Z. lra.
Qed.

Lemma sample_glow : truthy (prop Settings.theDefaults "glowEnabled") = true.
Proof. reflexivity. Defined.

Lemma sample_elapsed : 0 - startTime newYear2024 = 0.
Proof. unfold newYear2024. rewrite startTime_buildGrid. simpl. lra. Qed.

(** C7, as stated, fails: in the frame of 1 January 2024 with the default
    settings, today's cell, in row 0 and column 0, gets no filled circle
    of the dot size 3.5. *)
Lemma today_dot_counterexample :
  grid newYear2024 !! 0%nat = Some firstRow2024
  ∧ firstRow2024 !! 0%nat = Some (Some (mkCell 1 today))
  ∧ ¬ filledCircle (centerX newYear2024 0) (centerY newYear2024 0)
        (parseFloat (prop Settings.theDefaults "dotSize")) sampleFrame
  ∧ ¬ dotClaim newYear2024 Settings.theDefaults sampleFrame.
Proof.
  assert (¬ filledCircle (centerX newYear2024 0) (centerY newYear2024 0)
            (parseFloat (prop Settings.theDefaults "dotSize")) sampleFrame)
    as Hno.
  { assert (parseFloat (prop Settings.theDefaults "dotSize") ≠ 0) as Hradius
      by (rewrite sample_radius; lra).
    exact (today_no_dot_radius newYear2024 Settings.theDefaults
             "#444444" "#222222" 0 fresh 0 0 firstRow2024 (mkCell 1 today)
             configured_newYear2024 settled_fresh firstRow_newYear2024
             eq_refl eq_refl Hradius). }
  split; [exact firstRow_newYear2024|]. split; [reflexivity|].
  split; [exact Hno|].
  intros Hclaim. apply Hno.
  exact (Hclaim 0%nat 0%nat firstRow2024 (mkCell 1 today)
           firstRow_newYear2024 eq_refl).
Qed.

(** C8, as stated, fails: in that frame, at elapsed time 0, the glow disc
    of radius 10.5 has opacity 0.15, not 0.5 + 0.5 * sin 0 = 0.5. *)
Lemma glow_opacity_counterexample :
  pulse (0 - startTime newYear2024) = 0.5
  ∧ filledCircleAt (centerX newYear2024 0) (centerY newYear2024 0)
      (parseFloat (prop Settings.theDefaults "dotSize") * 3) 0.15 sampleFrame
  ∧ ¬ filledCircleAt (centerX newYear2024 0) (centerY newYear2024 0)
        (parseFloat (prop Settings.theDefaults "dotSize") * 3)
        (pulse (0 - startTime newYear2024)) sampleFrame
  ∧ ¬ glowClaim newYear2024 Settings.theDefaults
        (0 - startTime newYear2024) sampleFrame.
Proof.
  assert (pulse (0 - startTime newYear2024) = 0.5) as Hpulse.
  { rewrite sample_elapsed. unfold pulse.
    replace (0 * 0.002) with 0 by lra. rewrite sin_0. lra. }
  assert (¬ filledCircleAt (centerX newYear2024 0) (centerY newYear2024 0)
            (parseFloat (prop Settings.theDefaults "dotSize") * 3)
            (pulse (0 - startTime newYear2024)) sampleFrame) as Hno.
  { intros Hat.
    assert (parseFloat (prop Settings.theDefaults "dotSize") * 3
            ≠ parseFloat (prop Settings.theDefaults "dotSize") + 1) as Hradius
      by (rewrite sample_radius; lra).
    pose proof (glow_alpha newYear2024 Settings.theDefaults "#444444"
                  "#222222" 0 fresh 0 0 firstRow2024 (mkCell 1 today) _
                  configured_newYear2024 settled_fresh firstRow_newYear2024
                  eq_refl eq_refl Hradius Hat) as Halpha.
    rewrite Hpulse in Halpha. lra. }
  split; [exact Hpulse|]. split; [|split; [exact Hno|]].
  - destruct (frame_cell_marks newYear2024 Settings.theDefaults "#444444"
                "#222222" 0 fresh 0 0 firstRow2024 (mkCell 1 today)
                settled_fresh firstRow_newYear2024 eq_refl)
      as (before & after & Hms).
    exists [circle (centerX newYear2024 0) (centerY newYear2024 0)
              (parseFloat (prop Settings.theDefaults "dotSize") * 3)],
           (prop Settings.theDefaults "accentColor"), 0.
    split; [|apply list_elem_of_here].
    unfold sampleFrame. rewrite Hms.
    apply elem_of_app. right. apply elem_of_app. left.
    unfold cellMarks. cbn [status]. rewrite sample_glow, Hpulse.
    replace (0.3 * 0.5) with 0.15 by lra.
    apply list_elem_of_here.
  - intros Hclaim. apply Hno.
    exact (Hclaim sample_glow 0%nat 0%nat firstRow2024 (mkCell 1 today)
             firstRow_newYear2024 eq_refl eq_refl).
Qed.

Lemma draw_dots_witness :
  settled fresh
  ∧ grid newYear2024 !! 0%nat = Some firstRow2024
  ∧ firstRow2024 !! 1%nat = Some (Some (mkCell 2 future))
  ∧ Filled [circle (IZR 28 / 2 + INR 1 * IZR 28) (IZR 14 / 2 + INR 0 * IZR 14)
              (parseFloat (prop Settings.theDefaults "dotSize"))]
           (VStr "#222222") 1 0
      ∈ sampleFrame.
Proof.
  split; [exact settled_fresh|]. split; [exact firstRow_newYear2024|].
  split; [reflexivity|].
  exact (proj2 (proj2 (draw_dots newYear2024 Settings.theDefaults
                         "#444444" "#222222" 0 fresh 0 1 firstRow2024
                         (mkCell 2 future) settled_fresh
                         firstRow_newYear2024 eq_refl))).
Defined.

Lemma draw_glow_witness :
  settled fresh
  ∧ truthy (prop Settings.theDefaults "glowEnabled") = true
  ∧ grid newYear2024 !! 0%nat = Some firstRow2024
  ∧ firstRow2024 !! 0%nat = Some (Some (mkCell 1 today))
  ∧ status (mkCell 1 today) = today
  ∧ ∃ before after,
      sampleFrame
      = before
        ++ [Filled [circle (centerX newYear2024 0) (centerY newYear2024 0)
                      (parseFloat (prop Settings.theDefaults "dotSize") * 3)]
                   (prop Settings.theDefaults "accentColor")
                   (0.3 * (0.5 + 0.5 * sin ((0 - startTime newYear2024) * 0.002)))
                   0;
            Filled [circle (centerX newYear2024 0) (centerY newYear2024 0)
                      (parseFloat (prop Settings.theDefaults "dotSize") + 1)]
                   (prop Settings.theDefaults "accentColor") 1 0;
            Filled [circle (centerX newYear2024 0) (centerY newYear2024 0)
                      (parseFloat (prop Settings.theDefaults "dotSize") + 1)]
                   (prop Settings.theDefaults "accentColor") 1 10]
        ++ after.
Proof.
  split; [exact settled_fresh|]. split; [exact sample_glow|].
  split; [exact firstRow_newYear2024|]. split; [reflexivity|].
  split; [reflexivity|].
  exact (proj1 (draw_glow newYear2024 Settings.theDefaults "#444444"
                  "#222222" 0 fresh 0 0 firstRow2024 (mkCell 1 today)
                  settled_fresh sample_glow firstRow_newYear2024
                  eq_refl eq_refl)).
Defined.
End Samples.

(** * Further properties *)

(** ** Where the days sit *)
Section GridPositions.
Import Renderer GridSpec.

Lemma layout_row (cols offset totalDays d rows : Z) (r : nat) :
  Z.of_nat r < rows →
  layout cols offset totalDays d rows !! r
  = Some (cellAt offset totalDays d <$> seqZ (Z.of_nat r * cols) cols).
Proof.
  intros Hr. unfold layout.
  rewrite list_lookup_fmap, lookup_seqZ_lt by done. simpl.
  by rewrite Z.add_0_l.
Qed.

Lemma layout_cellOf (offset totalDays d rows : Z) (r c : nat) :
  Z.of_nat r < rows → (c < 7)%nat →
  cellOf (layout 7 offset totalDays d rows) r c
  = cellAt offset totalDays d (Z.of_nat r * 7 + Z.of_nat c).
Proof.
  intros Hr Hc. unfold cellOf. rewrite layout_row by done.
  rewrite list_lookup_fmap, lookup_seqZ_lt by lia. simpl.
  by destruct (cellAt _ _ _ _).
Qed.

Lemma layout_cellOf_Some (offset totalDays d rows : Z) (r c : nat) (cell : Cell) :
  cellOf (layout 7 offset totalDays d rows) r c = Some cell →
  Z.of_nat r < rows ∧ (c < 7)%nat.
Proof.
  unfold cellOf. intros Hcell.
  destruct (layout 7 offset totalDays d rows !! r) as [row|] eqn:Hrow; [|done].
  apply layout_lookup in Hrow as [Hr ->]. split; [done|].
  destruct (decide (c < 7)%nat) as [|Hge]; [done|].
  rewrite list_lookup_fmap, lookup_seqZ_ge in Hcell by lia. done.
Qed.

Lemma day_cell_position (this : t) (Y d startDay k : Z) :
  configured this →
  Date.getDay (Date.newJan1 Y) = Some startDay →
  1 ≤ k ≤ totalDays Y →
  cellOf (grid (buildGrid this Y d))
         (Z.to_nat ((offsetOf startDay + k - 1) / 7))
         (Z.to_nat ((offsetOf startDay + k - 1) mod 7))
  = Some (mkCell k (statusOf k d)).
Proof.
  intros Hcfg Hday Hk. set (offset := offsetOf startDay).
  pose proof (grid_buildGrid this Y d startDay Hcfg Hday) as Hg.
  fold offset in Hg. rewrite Hg.
  pose proof (getDay_range _ _ Hday) as Hs.
  apply offsetOf_range in Hs as [Hoff _]. fold offset in Hoff.
  pose proof (Math_ceil_div_isCeil (offset + totalDays Y) 7 ltac:(lia)) as Hc.
  unfold isCeil in Hc.
  pose proof (Z.mod_pos_bound (offset + k - 1) 7 ltac:(lia)) as Hmod.
  pose proof (Z.div_mod (offset + k - 1) 7 ltac:(lia)) as Hdm.
  assert (0 ≤ (offset + k - 1) / 7) as Hq by (apply Z.div_pos; lia).
  rewrite layout_cellOf by lia.
  rewrite !Z2Nat.id by lia.
  replace ((offset + k - 1) / 7 * 7 + (offset + k - 1) mod 7)
    with (offset + k - 1) by lia.
  unfold cellAt, dayCell.
  assert ((offset + k - 1 <? offset) = false) as -> by (apply Z.ltb_ge; lia).
  assert ((totalDays Y <? offset + k - 1 - offset + 1) = false) as ->
    by (apply Z.ltb_ge; lia).
  simpl. by replace (offset + k - 1 - offset + 1) with k by lia.
Qed.

(** X1. Day k of the year sits in row (offset + k - 1) / 7 and column
    (offset + k - 1) mod 7, with its status; and a day cell anywhere in the
    grid, in row r and column c, is day 7r + c - offset + 1. *)
Theorem grid_day_position (this : t) (Y d startDay : Z) :
  configured this →
  Date.getDay (Date.newJan1 Y) = Some startDay →
  let offset := offsetOf startDay in
  let g := grid (buildGrid this Y d) in
  (∀ k, 1 ≤ k ≤ totalDays Y →
     cellOf g (Z.to_nat ((offset + k - 1) / 7))
              (Z.to_nat ((offset + k - 1) mod 7))
     = Some (mkCell k (statusOf k d)))
  ∧ (∀ (r c : nat) (cell : Cell),
       cellOf g r c = Some cell →
       day cell = Z.of_nat r * 7 + Z.of_nat c - offset + 1
       ∧ 1 ≤ day cell ≤ totalDays Y
       ∧ status cell = statusOf (day cell) d).
Proof.
  intros Hcfg Hday offset g.
  split; [intros k Hk; by apply day_cell_position|].
  pose proof (grid_buildGrid this Y d startDay Hcfg Hday) as Hg.
  fold offset in Hg. fold g in Hg. rewrite Hg.
  intros r c cell Hcell.
  pose proof (layout_cellOf_Some _ _ _ _ _ _ _ Hcell) as [Hr Hcol].
  rewrite layout_cellOf in Hcell by done.
  unfold cellAt, dayCell in Hcell.
  set (idx := Z.of_nat r * 7 + Z.of_nat c) in *.
  destruct (idx <? offset) eqn:Hlt; [done|].
  destruct (totalDays Y <? idx - offset + 1) eqn:Hover; [done|].
  apply Z.ltb_ge in Hlt, Hover. simpl in Hcell.
  injection Hcell as <-. simpl. split; [done|]. split; [lia|done].
Qed.

(** X2. The column of a day is its weekday, Monday first: if day k of
    year Y falls on weekday w, its cell is in column [mondayIndex w]. *)
Theorem grid_column_is_weekday (this : t) (Y d startDay k : Z) (w : weekday) :
  configured this →
  Date.getDay (Date.newJan1 Y) = Some startDay →
  1 ≤ k ≤ totalDays Y →
  nativeIndex w = Date.WeekDay (timeOfDay Y k) →
  ∃ r : nat,
    cellOf (grid (buildGrid this Y d)) r (Z.to_nat (mondayIndex w))
    = Some (mkCell k (statusOf k d)).
Proof.
  intros Hcfg Hday Hk Hw.
  exists (Z.to_nat ((offsetOf startDay + k - 1) / 7)).
  rewrite <- (day_cell_position this Y d startDay k Hcfg Hday Hk).
  do 2 f_equal.
  rewrite <- offsetOf_weekday, Hw.
  pose proof (getDay_range _ _ Hday) as Hs.
  destruct (offsetOf_range startDay Hs) as [_ ->].
  apply getDay_newJan1 in Hday. subst startDay.
  unfold timeOfDay. rewrite WeekDay_of_day. unfold offsetOf.
  rewrite Z.rem_mod_nonneg by (pose proof (Z.mod_pos_bound
    (Date.DayFromYear (Date.fullYear Y) + k - 1 + 4) 7); lia).
  Z.div_mod_to_equations. lia.
Qed.

(** X3. The grid of a calendar year outside 0..99 has 53 rows, except
    that it has 54 when the year is a leap year whose January 1 is a
    Sunday. *)
Theorem grid_row_count (this : t) (Y d : Z) :
  configured this →
  Date.calendarYear Y →
  Y < 0 ∨ 99 < Y →
  let rows := length (grid (buildGrid this Y d)) in
  (rows = 53%nat ∨ rows = 54%nat)
  ∧ (rows = 54%nat ↔ leapYear Y ∧ jan1WeekDay Y = nativeIndex Sunday).
Proof.
  intros Hcfg Hcal HY rows. unfold rows.
  pose proof (getDay_newJan1_calendar Y Hcal HY) as Hday.
  rewrite <- isLeap_leapYear.
  generalize dependent (jan1WeekDay Y). intros startDay Hday.
  rewrite (grid_buildGrid this Y d startDay Hcfg Hday), layout_length.
  pose proof (getDay_range _ _ Hday) as Hs.
  destruct (offsetOf_range startDay Hs) as [Hoff Hmod].
  pose proof (Math_ceil_div_isCeil (offsetOf startDay + totalDays Y) 7
                ltac:(lia)) as Hc.
  unfold isCeil in Hc. simpl nativeIndex.
  assert (startDay = 0 ∧ offsetOf startDay = 6
          ∨ 1 ≤ startDay ∧ offsetOf startDay = startDay - 1) as Hcases.
  { rewrite Hmod. Z.div_mod_to_equations. lia. }
  generalize dependent (Math_ceil_div (offsetOf startDay + totalDays Y) 7).
  intros n Hn. unfold totalDays in *.
  destruct (isLeap Y); (split; [|split; [|intros [? ?]]]); try done; lia.
Qed.

(** X4. For a valid day of the year d, d - 1 cells are past, one is
    today and totalDays - d are future. *)
Theorem grid_progress (this : t) (Y d startDay : Z) :
  configured this →
  Date.getDay (Date.newJan1 Y) = Some startDay →
  1 ≤ d ≤ totalDays Y →
  let g := grid (buildGrid this Y d) in
  statusCount past g = Z.to_nat (d - 1)
  ∧ statusCount today g = 1%nat
  ∧ statusCount future g = Z.to_nat (totalDays Y - d).
Proof.
  intros Hcfg Hday Hd g. unfold statusCount, g.
  rewrite (dayCells_buildGrid this Y d startDay Hcfg Hday).
  split; [|split].
  - replace (totalDays Y) with ((d - 1) + (totalDays Y - (d - 1))) by lia.
    rewrite seqZ_app, fmap_app, filter_app by lia.
    rewrite filter_all, (filter_none _ (_ <$> seqZ (1 + (d - 1)) _)).
    + by rewrite app_nil_r, length_fmap, length_seqZ.
    + apply Forall_fmap, Forall_seqZ. intros k Hk. simpl.
      rewrite statusOf_past. lia.
    + apply Forall_fmap, Forall_seqZ. intros k Hk. simpl.
      rewrite statusOf_past. lia.
  - by rewrite today_among_days.
  - replace (totalDays Y) with (d + (totalDays Y - d)) at 1 by lia.
    rewrite seqZ_app, fmap_app, filter_app by lia.
    rewrite (filter_none _ (_ <$> seqZ 1 d)), filter_all.
    + by rewrite app_nil_l, length_fmap, length_seqZ.
    + apply Forall_fmap, Forall_seqZ. intros k Hk. simpl.
      rewrite statusOf_future. lia.
    + apply Forall_fmap, Forall_seqZ. intros k Hk. simpl.
      rewrite statusOf_future. lia.
Qed.

(** X5. The platform's calendar and the leap rule of [buildGrid] agree:
    the offset of the year after Y is the offset of Y plus the days of Y,
    modulo 7, so that the first day of the next grid falls in the column
    after the last day of this one. *)
Theorem next_year_offset (Y startDay nextStartDay : Z) :
  Y < -1 ∨ 99 < Y →
  Date.getDay (Date.newJan1 Y) = Some startDay →
  Date.getDay (Date.newJan1 (Y + 1)) = Some nextStartDay →
  offsetOf nextStartDay = (offsetOf startDay + totalDays Y) mod 7.
Proof.
  intros HY Hday Hnext.
  pose proof (getDay_range _ _ Hday) as Hs.
  pose proof (getDay_range _ _ Hnext) as Hs'.
  destruct (offsetOf_range _ Hs) as [_ ->].
  destruct (offsetOf_range _ Hs') as [_ ->].
  apply getDay_newJan1 in Hday, Hnext. subst.
  assert (Date.fullYear Y = Y) as ->.
  { unfold Date.fullYear. destruct ((0 <=? Y) && (Y <=? 99)) eqn:E; lia. }
  assert (Date.fullYear (Y + 1) = Y + 1) as ->.
  { unfold Date.fullYear. destruct ((0 <=? Y + 1) && (Y + 1 <=? 99)) eqn:E; lia. }
  rewrite DayFromYear_next.
  destruct (totalDays_cases Y) as [-> | ->]; Z.div_mod_to_equations; lia.
Qed.
End GridPositions.

(** ** The canvas size *)
Section CanvasSize.
Import Renderer GridSpec Canvas DrawSpec.

Lemma resize_nonempty (this : t) :
  grid this ≠ [] →
  resize this
  = {| dpr := dpr this; cols := cols this; dotGapX := dotGapX this;
       dotGapY := dotGapY this; startTime := startTime this;
       grid := grid this;
       styleWidth := cols this * dotGapX this;
       styleHeight := Z.of_nat (length (grid this)) * dotGapY this;
       canvasWidth := (IZR (cols this * dotGapX this) * dpr this)%R;
       canvasHeight :=
         (IZR (Z.of_nat (length (grid this)) * dotGapY this) * dpr this)%R |}.
Proof. unfold resize. by destruct (grid this). Qed.

Lemma buildGrid_nonempty (this : t) (Y d startDay : Z) :
  configured this →
  Date.getDay (Date.newJan1 Y) = Some startDay →
  grid (buildGrid this Y d) ≠ [].
Proof.
  intros Hcfg Hday Hnil.
  pose proof (f_equal length Hnil) as Hlen.
  rewrite (grid_buildGrid this Y d startDay Hcfg Hday), layout_length in Hlen.
  pose proof (getDay_range _ _ Hday) as Hs.
  destruct (offsetOf_range startDay Hs) as [Hoff _].
  pose proof (Math_ceil_div_isCeil (offsetOf startDay + totalDays Y) 7
                ltac:(lia)) as Hc.
  unfold isCeil in Hc. destruct (totalDays_cases Y); simpl in Hlen; lia.
Qed.

(** X6. After [buildGrid] for a year with a valid January 1 the CSS size
    of the canvas is 196 pixels by 14 pixels per row of the grid, which
    is 742 or 756 pixels. *)
Theorem buildGrid_canvas_size (this : t) (Y d startDay : Z) :
  configured this →
  Date.getDay (Date.newJan1 Y) = Some startDay →
  let this' := buildGrid this Y d in
  let height := 14 * Z.of_nat (length (grid this')) in
  styleWidth this' = 196
  ∧ styleHeight this' = height
  ∧ (height = 742 ∨ height = 756).
Proof.
  intros Hcfg Hday this' height.
  assert (grid this' = layout 7 (offsetOf startDay) (totalDays Y) d
            (Math_ceil_div (offsetOf startDay + totalDays Y) 7)) as Hg
    by (by apply grid_buildGrid).
  assert (height = 742 ∨ height = 756) as Hheight.
  { unfold height. rewrite Hg, layout_length.
    pose proof (getDay_range _ _ Hday) as Hs.
    destruct (offsetOf_range startDay Hs) as [Hoff _].
    pose proof (Math_ceil_div_isCeil (offsetOf startDay + totalDays Y) 7
                  ltac:(lia)) as Hc.
    unfold isCeil in Hc. destruct (totalDays_cases Y); lia. }
  pose proof (buildGrid_nonempty this Y d startDay Hcfg Hday) as Hne.
  fold this' in Hne.
  destruct Hcfg as (Hcols & HgapX & HgapY).
  assert (this' = resize (withGrid this (grid this'))) as Hthis.
  { unfold this' at 1, buildGrid. rewrite Hday.
    unfold this', buildGrid. rewrite Hday. by rewrite grid_resize. }
  rewrite Hthis, resize_nonempty by done. simpl.
  rewrite Hcols, HgapX, HgapY. fold height.
  replace (Z.of_nat (length (grid this')) * 14) with height by (unfold height; lia).
  done.
Qed.

End CanvasSize.

(** ** More on frames *)
Section FrameFacts.
Import Renderer Canvas DrawSpec.
Context `{Numeric}.
Local Open Scope R_scope.

Lemma frame_settles (this : t) (state : object)
    (pastColor futureColor : string) (timestamp : R) (ctx : Ctx) :
  settled ctx →
  settled (run ctx (draw this state pastColor futureColor timestamp)).1.
Proof.
  intros Hctx. unfold draw.
  change (run ctx ([?op] ++ ?rest))
    with (let '(ctx1, marks1) := step ctx op in
          let '(ctx2, marks2) := run ctx1 rest in
          (ctx2, marks1 ++ marks2)).
  cbn [step]. rewrite run_app.
  match goal with
  | |- context [run ctx (concat (imap ?f (grid this)))] =>
    pose proof (run_items (grid this) f
      (λ r row, concat (imap (λ c cell,
         slotMarks (parseFloat (prop state "dotSize"))
                   (prop state "glowEnabled") (prop state "accentColor")
                   pastColor futureColor (timestamp - startTime this)
                   (centerX this c) (centerY this r) cell) row)))
      as Hrows
  end.
  destruct (Hrows) with (ctx := ctx) as (ctx' & -> & Hctx'); [|done|].
  - intros r row ctx1 Hctx1. apply run_items; [|done].
    intros c cell ctx2 Hctx2. by apply run_drawCell.
  - simpl. done.
Qed.

(** X9. A frame ends with the opacity back at 1 and the shadow blur back
    at 0, so what a frame paints does not depend on the frames before it:
    from any two settled contexts the marks are the same. *)
Theorem draw_restores_context (this : t) (state : object)
    (pastColor futureColor : string) (timestamp : R) (ctx : Ctx) :
  settled ctx →
  let ops := draw this state pastColor futureColor timestamp in
  settled (run ctx ops).1
  ∧ ∀ ctx', settled ctx' → marks ctx' ops = marks ctx ops.
Proof.
  intros Hctx ops. split; [by apply frame_settles|].
  intros ctx' Hctx'. unfold ops. by rewrite !frame_marks.
Qed.

(** X10. With glow disabled every fill of a frame is at full opacity, and
    each one paints a single circle around the centre of a day cell. *)
Theorem draw_without_glow (this : t) (state : object)
    (pastColor futureColor : string) (timestamp : R) (ctx : Ctx)
    (shape : list Arc) (style : value) (alpha blur : R) :
  settled ctx →
  truthy (prop state "glowEnabled") = false →
  Filled shape style alpha blur
    ∈ marks ctx (draw this state pastColor futureColor timestamp) →
  alpha = 1
  ∧ ∃ (r c : nat) (row : Row) (cell : Cell) (radius : R),
      grid this !! r = Some row ∧ row !! c = Some (Some cell)
      ∧ shape = [circle (centerX this c) (centerY this r) radius].
Proof.
  intros Hctx Hglow Hin.
  apply frame_fill_inv in Hin
    as (r & c & row & cell & Hrow & Hcell & Hin); [|done].
  unfold cellMarks in Hin. rewrite Hglow in Hin.
  destruct (status cell); simpl in Hin;
    repeat (apply elem_of_cons in Hin as [Hin|Hin];
            [injection Hin as -> _ -> _;
             split; [done|]; by eexists r, c, row, cell, _ |]);
    by apply elem_of_nil in Hin.
Qed.

(** X8. For a year outside the range of the platform's dates [buildGrid]
    leaves an empty grid and does not touch the size of the canvas; a frame
    drawn then clears the surface and paints nothing. *)
Theorem buildGrid_invalid_year (this : t) (Y d : Z) :
  ¬ Date.calendarYear Y →
  let this' := buildGrid this Y d in
  grid this' = []
  ∧ styleWidth this' = styleWidth this ∧ styleHeight this' = styleHeight this
  ∧ canvasWidth this' = canvasWidth this
  ∧ canvasHeight this' = canvasHeight this
  ∧ ∀ state pastColor futureColor timestamp ctx,
      marks ctx (draw this' state pastColor futureColor timestamp)
      = [Cleared 0 0 (canvasWidth this / dpr this)
                 (canvasHeight this / dpr this)].
Proof.
  intros HY this'.
  assert (this' = withGrid this []) as ->.
  { unfold this', buildGrid. by rewrite (not_calendarYear_invalid Y HY). }
  done.
Qed.
End FrameFacts.

(** ** More on the settings store *)
Section SettingsExtras.
Import Settings.
Context `{JSON}.

Lemma theDefaults_names (k : string) :
  is_Some (theDefaults !! k) ↔ k ∈ settingNames.
Proof.
  unfold theDefaults, settingNames. split.
  - intros [v Hv].
    repeat (apply lookup_insert_Some in Hv as [[<- _]|[_ Hv]];
            [set_solver|]).
    by rewrite lookup_empty in Hv.
  - intros Hk. repeat (apply elem_of_cons in Hk as [->|Hk]; [by eexists|]).
    by apply elem_of_nil in Hk.
Qed.

(** X11. The settings object is always fully populated: in every
    reachable state each of the five settings is present, whatever the
    storage held and whatever was updated; and the defaults are never
    modified. *)
Theorem reachable_fully_populated (this : t) (k : string) :
  reachable this → k ∈ settingNames →
  is_Some (state this !! k) ∧ defaults this = theDefaults.
Proof.
  intros Hreach Hk. destruct (reachable_invariant this Hreach) as [Hd Hs].
  split; [|done]. apply Hs. by apply theDefaults_names.
Qed.

(** The constructor reads the storage and never writes it; the
    document it leaves shows the loaded state. *)
Theorem constructor_reads_only (w w' : World) (this : t) :
  new w = Ok (this, w') →
  localStorage w' = localStorage w
  ∧ load (mk theDefaults ∅) w = Ok (state this)
  ∧ dataTheme (document w') = get this "theme"
  ∧ accentColorVar (document w') = get this "accentColor"
  ∧ clockHidden (document w') = negb (truthy (get this "showClock")).
Proof.
  unfold new. destruct (load (mk theDefaults ∅) w) as [st|e]; [|done].
  by intros [= <- <-].
Qed.

(** X12. [reset] on a reachable settings object yields exactly the
    defaults of the constructor: properties that came from the storage or
    from updates are gone, the stored text is that of the defaults, and
    the controls refreshed by the reset listener show the defaults. *)
Theorem reset_restores_defaults (this : t) (w : World) :
  reachable this →
  let '(this', w', inputs) := UI.resetClick this w in
  state this' = theDefaults
  ∧ defaults this' = theDefaults
  ∧ getItem w' "memento_settings" = Some (JSON_stringify theDefaults)
  ∧ document w' = mkDom (VStr "dark") (VStr "#f28c38") false
  ∧ inputs = UI.mkInputs false (VStr "#f28c38") (VNum (mkNumber 35 1))
                         true true.
Proof.
  intros Hreach. destruct (reachable_invariant this Hreach) as [Hd _].
  unfold UI.resetClick, reset. rewrite spread2_empty, Hd.
  split; [done|]. split; [done|]. split; [apply getItem_save|]. done.
Qed.

(** The listener that [bind] installs calls [apply] after [update];
    that call changes nothing, since [update] has already applied the new
    state: the listener does what one [update] does. *)
Lemma bindListener_is_update (key : string) (transform : string → value)
    (isCheckbox checked : bool) (text : string) (this : t) (w : World) :
  UI.bindListener key transform isCheckbox checked text this w
  = update key (if isCheckbox then VBool checked else transform text) this w
  ∧ ∀ this0 w0, apply this0 (apply this0 w0) = apply this0 w0.
Proof. done. Qed.

Lemma update_update (key : string) (v1 v2 : value) (this : t) (w : World) :
  key ≠ "__proto__" →
  update key v2 (update key v1 this w).1 (update key v1 this w).2
  = update key v2 this w.
Proof.
  intros _. unfold update. cbn [fst snd state defaults]. rewrite assign_assign.
  unfold save, apply, setItem. cbn [localStorage document state].
  by rewrite insert_insert_eq.
Qed.

(** X13. The theme toggle has two change listeners, the one of [bind]
    (which stores the boolean [checked] when the control is a checkbox)
    and a second one that stores 'light' or 'dark'.  Together they leave
    the settings, the storage and the document exactly as the second one
    alone would. *)
Theorem themeChange_is_one_update (isCheckbox checked : bool) (text : string)
    (this : t) (w : World) :
  UI.themeChange isCheckbox checked text this w
  = update "theme" (if checked then VStr "light" else VStr "dark") this w.
Proof.
  unfold UI.themeChange, UI.themeListener, UI.bindListener.
  destruct (update "theme" _ this w) as [s1 w1] eqn:H1.
  assert (apply s1 w1 = w1) as ->.
  { unfold update in H1. injection H1 as <- <-. done. }
  pose proof (update_update "theme"
                (if isCheckbox then VBool checked
                 else UI.themeTransform text)
                (if checked then VStr "light" else VStr "dark") this w
                ltac:(discriminate)) as Hu.
  rewrite H1 in Hu. simpl in Hu. rewrite Hu.
  by destruct (update "theme" _ this w).
Qed.

(** X14. Updates of two different settings that the state already holds
    (as every reachable state holds the five settings) can be made in
    either order, and of two updates of the same setting (under a name
    other than [__proto__]) the later one wins: settings, storage and
    document are the same. *)
Theorem update_order (k1 k2 : string) (v1 v2 : value) (this : t) (w : World) :
  (k1 ≠ k2 → is_Some (state this !! k1) → is_Some (state this !! k2) →
     update k2 v2 (update k1 v1 this w).1 (update k1 v1 this w).2
     = update k1 v1 (update k2 v2 this w).1 (update k2 v2 this w).2)
  ∧ (k1 ≠ "__proto__" →
     update k1 v2 (update k1 v1 this w).1 (update k1 v1 this w).2
     = update k1 v2 this w).
Proof.
  split; [|apply update_update].
  intros Hne H1 H2. unfold update. cbn [fst snd state defaults].
  rewrite (assign_insert (state this) k1) by by right.
  rewrite (assign_insert (state this) k2) by by right.
  rewrite !assign_insert by (right; by rewrite lookup_insert_ne).
  unfold save, apply, setItem. cbn [localStorage document state].
  rewrite !insert_insert_eq.
  by rewrite (insert_insert_ne (state this) k1 k2) by done.
Qed.

(** X15. A stored text that parses to [null], a boolean or a number has
    no properties to merge: [load] returns the defaults. *)
Theorem load_non_object (this : t) (w : World) (saved : string)
    (parsed : value) :
  getItem w "memento_settings" = Some saved →
  saved ≠ EmptyString →
  JSON_parse saved = Some parsed →
  (parsed = VNull ∨ (∃ b, parsed = VBool b) ∨ (∃ n, parsed = VNum n)) →
  load this w = Ok (defaults this).
Proof.
  intros Hget Hne Hparse Hshape.
  rewrite (load_parsed this w saved parsed Hget Hne Hparse).
  destruct Hshape as [->|[[b ->]|[n ->]]]; simpl; by rewrite spread2_empty.
Qed.
End SettingsExtras.

(** ** The animation loop *)
Section LoopFacts.
Import Loop.
Context `{Numeric}.

Lemma draw_running (this : t) (f : Frames) (scene : Scene) (timestamp : R) :
  halted f →
  running (draw this f scene timestamp).1.1 (draw this f scene timestamp).1.2.
Proof.
  unfold halted, running, draw, requestFrame. intros Hf. simpl.
  eexists. split; [done|]. rewrite Hf. apply (right_id_L ∅ (∪)).
Qed.

Lemma cancelPending_halted (this : t) (f : Frames) :
  running this f ∨ halted f → halted (cancelPending this f).
Proof.
  unfold running, halted, cancelPending, cancelFrame.
  intros [(h & -> & Hf)|Hf]; simpl.
  - rewrite Hf. apply difference_diag_L.
  - destruct (animFrame this); simpl; rewrite ?Hf; [|done].
    apply empty_difference_L.
Qed.

Lemma step_state (this : t) (f : Frames) (e : event) :
  running this f ∨ halted f →
  running (step this f e).1.1 (step this f e).1.2
  ∨ halted (step this f e).1.2.
Proof.
  intros Hst. destruct e as [scene now| |h scene timestamp|year d|]; simpl.
  - left. unfold start.
    apply (draw_running (mk (withStartTime (renderer this) now)
                            (animFrame this)) _ scene now).
    by apply (cancelPending_halted this f).
  - right. by apply cancelPending_halted.
  - unfold frame. destruct (decide (h ∈ pending f)) as [Hin|Hout]; [|done].
    left. apply (draw_running this _ scene timestamp). unfold halted. simpl.
    destruct Hst as [(h' & _ & Hf)|Hf]; rewrite Hf in Hin |- *.
    + apply elem_of_singleton in Hin as ->. apply difference_diag_L.
    + by apply not_elem_of_empty in Hin.
  - done.
  - done.
Qed.

Lemma run_cons (this : t) (f : Frames) (e : event) (es : list event) :
  run this f (e :: es)
  = (let '(this1, f1, ops1) := step this f e in
     let '(this2, f2, ops2) := run this1 f1 es in
     (this2, f2, ops1 ++ ops2)).
Proof. done. Qed.

Lemma run_state (es : list event) :
  ∀ (this : t) (f : Frames),
    running this f ∨ halted f →
    running (run this f es).1.1 (run this f es).1.2
    ∨ halted (run this f es).1.2.
Proof.
  induction es as [|e es IH]; intros this f Hst; [done|].
  rewrite run_cons.
  pose proof (step_state this f e Hst) as Hstep.
  destruct (step this f e) as [[this1 f1] ops1]. simpl in Hstep.
  specialize (IH this1 f1 Hstep).
  by destruct (run this1 f1 es) as [[this2 f2] ops2].
Qed.

(** X16. However [start], [stop], frames, rebuilds and resizes follow
    each other after the construction, at most one frame request is
    pending at any time, and it is the one whose handle is in [animFrame]:
    [start] never sets a second loop going. *)
Theorem loop_single_request (r : Renderer.t) (es : list event) :
  let '(this, f, _) := run (initial r) noFrames es in
  (size (pending f) ≤ 1)%nat
  ∧ ∀ h, h ∈ pending f → animFrame this = Some h.
Proof.
  pose proof (run_state es (initial r) noFrames (or_intror eq_refl)) as Hst.
  destruct (run (initial r) noFrames es) as [[this f] ops]. simpl in Hst.
  destruct Hst as [(h & Hh & Hf)|Hf]; rewrite Hf.
  - rewrite size_singleton. split; [done|]. intros h' Hh'.
    apply elem_of_singleton in Hh'. by subst.
  - rewrite size_empty. split; [lia|]. intros h' Hh'.
    by apply not_elem_of_empty in Hh'.
Qed.

Lemma step_halted (this : t) (f : Frames) (e : event) :
  halted f → isStart e = false →
  halted (step this f e).1.2 ∧ (step this f e).2 = [].
Proof.
  unfold halted. intros Hf He.
  destruct e as [scene now| |h scene timestamp|year d|]; simpl; try done.
  - split; [|done]. apply cancelPending_halted. by right.
  - unfold frame. rewrite decide_False; [done|]. rewrite Hf.
    apply not_elem_of_empty.
Qed.

Lemma run_halted (es : list event) :
  ∀ (this : t) (f : Frames),
    halted f → forallb (λ e, negb (isStart e)) es = true →
    halted (run this f es).1.2 ∧ (run this f es).2 = [].
Proof.
  induction es as [|e es IH]; intros this f Hf Hes; [done|].
  simpl in Hes. apply andb_true_iff in Hes as [He Hes].
  apply negb_true_iff in He.
  rewrite run_cons.
  destruct (step_halted this f e Hf He) as [Hf1 Hops1].
  destruct (step this f e) as [[this1 f1] ops1]. simpl in Hf1, Hops1.
  destruct (IH this1 f1 Hf1 Hes) as [Hf2 Hops2].
  destruct (run this1 f1 es) as [[this2 f2] ops2]. simpl in *.
  by subst.
Qed.

(** X17. [stop] halts the loop: whatever happened before, after [stop]
    no frame is pending, and until the next [start] nothing is drawn --
    a frame callback cancelled by [stop] never runs, and rebuilding or
    resizing does not draw. *)
Theorem stop_halts (r : Renderer.t) (before after : list event) :
  forallb (λ e, negb (isStart e)) after = true →
  let '(this1, f1, _) := run (initial r) noFrames before in
  let '(this2, f2, ops) := run this1 f1 (Stop :: after) in
  pending f2 = ∅ ∧ ops = [].
Proof.
  intros Hafter.
  pose proof (run_state before (initial r) noFrames (or_intror eq_refl)) as Hst.
  destruct (run (initial r) noFrames before) as [[this1 f1] ops1].
  simpl in Hst. rewrite run_cons. simpl step. unfold stop.
  pose proof (cancelPending_halted this1 f1 Hst) as Hhalt.
  pose proof (run_halted after this1 _ Hhalt Hafter) as [Hf2 Hops].
  destruct (run this1 (cancelPending this1 f1) after) as [[this2 f2] ops2].
  simpl in *. by subst.
Qed.

(** X18. [start] sets the loop going from any state: it draws one frame
    at elapsed time 0, and after it, and after every frame that then runs,
    exactly one frame request is pending; rebuilding the grid or resizing
    does not disturb it. *)
Theorem start_runs (r : Renderer.t) (before : list event)
    (scene : Scene) (now : R) (after : list event) :
  forallb (λ e, match e with
                | Frame _ _ _ | Rebuild _ _ | Resize => true
                | Start _ _ | Stop => false
                end) after = true →
  let '(this1, f1, _) := run (initial r) noFrames before in
  let '(this2, f2, ops) := step this1 f1 (Start scene now) in
  let '(this3, f3, _) := run this2 f2 after in
  ops = Renderer.draw (withStartTime (renderer this1) now)
          (sceneState scene) (scenePast scene) (sceneFuture scene) now
  ∧ Renderer.startTime (renderer this2) = now
  ∧ running this2 f2
  ∧ running this3 f3.
Proof.
  intros Hafter.
  pose proof (run_state before (initial r) noFrames (or_intror eq_refl)) as Hst.
  destruct (run (initial r) noFrames before) as [[this1 f1] ops1].
  simpl in Hst.
  assert (running (step this1 f1 (Start scene now)).1.1
                  (step this1 f1 (Start scene now)).1.2) as Hrun.
  { simpl. unfold start.
    apply (draw_running (mk (withStartTime (renderer this1) now)
                            (animFrame this1)) _ scene now).
    by apply (cancelPending_halted this1 f1). }
  assert ((step this1 f1 (Start scene now)).2
          = Renderer.draw (withStartTime (renderer this1) now)
              (sceneState scene) (scenePast scene) (sceneFuture scene) now
          ∧ Renderer.startTime
              (renderer (step this1 f1 (Start scene now)).1.1) = now)
    as [Hops Htime] by done.
  destruct (step this1 f1 (Start scene now)) as [[this2 f2] ops].
  simpl in Hrun, Hops, Htime.
  assert (∀ es this f,
            forallb (λ e, match e with
                          | Frame _ _ _ | Rebuild _ _ | Resize => true
                          | Start _ _ | Stop => false
                          end) es = true →
            running this f →
            running (run this f es).1.1 (run this f es).1.2) as Hkeep.
  { clear. induction es as [|e es IH]; intros this f Hes Hrun; [done|].
    simpl in Hes. apply andb_true_iff in Hes as [He Hes].
    rewrite run_cons.
    assert (running (step this f e).1.1 (step this f e).1.2) as Hstep.
    { destruct e as [| |h scene timestamp|year d|]; try done.
      simpl. unfold frame.
      destruct (decide (h ∈ pending f)) as [Hin|Hout]; [|done].
      apply (draw_running this _ scene timestamp). unfold halted. simpl.
      destruct Hrun as (h' & _ & Hf). rewrite Hf in Hin |- *.
      apply elem_of_singleton in Hin as ->. apply difference_diag_L. }
    destruct (step this f e) as [[this1 f1] ops1]. simpl in Hstep.
    specialize (IH this1 f1 Hes Hstep).
    by destruct (run this1 f1 es) as [[this2 f2] ops2]. }
  specialize (Hkeep after this2 f2 Hafter Hrun).
  destruct (run this2 f2 after) as [[this3 f3] ops3]. simpl in Hkeep.
  done.
Qed.
End LoopFacts.

(** ** Local dates *)
Section LocalDateFacts.
Import LocalDate.

Lemma YearFromTime_spec (t : Z) :
  Date.DayFromYear (YearFromTime t) ≤ Day t
  < Date.DayFromYear (YearFromTime t + 1).
Proof.
  unfold YearFromTime. set (d := Day t).
  set (y := 1970 + 400 * d / 146097).
  assert (146097 * (y - 1970) ≤ 400 * d < 146097 * (y - 1970) + 146097) as Hy.
  { unfold y. Z.div_mod_to_equations. lia. }
  clearbody y. clearbody d.
  destruct (d <? Date.DayFromYear y) eqn:Hlt.
  - apply Z.ltb_lt in Hlt. replace (y - 1 + 1) with y by lia.
    split; [|done]. unfold Date.DayFromYear in *.
    Z.div_mod_to_equations. lia.
  - apply Z.ltb_ge in Hlt.
    destruct (Date.DayFromYear (y + 1) <=? d) eqn:Hge.
    + apply Z.leb_le in Hge. split; [done|].
      unfold Date.DayFromYear in *. Z.div_mod_to_equations. lia.
    + apply Z.leb_gt in Hge. done.
Qed.

Lemma HourMinSec_midnight (t : Z) :
  (HourFromTime t =? 0) && (MinFromTime t =? 0) && (SecFromTime t =? 0)
  = (TimeWithinDay t <? 1000).
Proof.
  unfold HourFromTime, MinFromTime, SecFromTime, TimeWithinDay,
    msPerHour, msPerMinute, msPerSecond, Date.msPerDay.
  destruct (t mod 86400000 <? 1000) eqn:Hlt.
  - apply Z.ltb_lt in Hlt.
    rewrite !andb_true_iff, !Z.eqb_eq. Z.div_mod_to_equations. lia.
  - apply Z.ltb_ge in Hlt.
    rewrite !andb_false_iff, !Z.eqb_neq. Z.div_mod_to_equations. lia.
Qed.
End LocalDateFacts.

(** ** The controller's calendar and clock *)
Section AppFacts.
Import LocalDate App Renderer GridSpec.
Context `{TimeZone} `{Locale}.

(** The day of the year that [dayOfYear] computes, when the local offset
    at [date] is [shift] more than at the start date. *)
Lemma dayOfYear_shift (date shift : Z) :
  let y := getFullYear date in
  let day0 := Date.msPerDay * (Date.DayFromYear y + 0 - 1) in
  y < 0 ∨ 99 < y →
  is_Some (newYearDay0 y) →
  LocalTZA date true = LocalTZA day0 false + shift →
  dayOfYear date
  = Some (Day (LocalTime date - shift) - Date.DayFromYear y + 1).
Proof.
  intros y day0 Hy [start Hstart] Hshift. unfold dayOfYear. fold y.
  rewrite Hstart. f_equal.
  unfold newYearDay0, Date.TimeClip in Hstart.
  rewrite (fullYear_id y Hy) in Hstart. fold day0 in Hstart.
  destruct (Z.abs (UTC day0) >? 8640000000000000); [done|].
  injection Hstart as <-.
  unfold UTC, LocalTime, Day, oneDay. rewrite Hshift.
  unfold day0, Date.msPerDay.
  set (D := Date.DayFromYear y). clearbody D.
  change (1000 * 60 * 60 * 24) with 86400000.
  Z.div_mod_to_equations. lia.
Qed.

Lemma dayOfYear_no_shift (date : Z) :
  let y := getFullYear date in
  let day0 := Date.msPerDay * (Date.DayFromYear y + 0 - 1) in
  y < 0 ∨ 99 < y →
  is_Some (newYearDay0 y) →
  LocalTZA date true = LocalTZA day0 false →
  dayOfYear date = Some (ordinalDay date).
Proof.
  intros y day0 Hy Hvalid Hzone.
  rewrite (dayOfYear_shift date 0 Hy Hvalid); fold y day0; [|lia].
  unfold ordinalDay. fold y. by rewrite Z.sub_0_r.
Qed.

Lemma dayOfYear_early (date shift : Z) :
  let y := getFullYear date in
  let day0 := Date.msPerDay * (Date.DayFromYear y + 0 - 1) in
  y < 0 ∨ 99 < y →
  is_Some (newYearDay0 y) →
  LocalTZA date true = LocalTZA day0 false + shift →
  0 < shift ≤ Date.msPerDay →
  TimeWithinDay (LocalTime date) < shift →
  dayOfYear date = Some (ordinalDay date - 1).
Proof.
  intros y day0 Hy Hvalid Hzone Hshift Htime.
  rewrite (dayOfYear_shift date shift Hy Hvalid Hzone).
  unfold ordinalDay. fold y.
  unfold Day, TimeWithinDay, Date.msPerDay in *.
  f_equal. Z.div_mod_to_equations. lia.
Qed.

Lemma ordinalDay_range (date : Z) :
  1 ≤ ordinalDay date ≤ totalDays (getFullYear date).
Proof.
  unfold ordinalDay, getFullYear.
  pose proof (YearFromTime_spec (LocalTime date)) as Hy.
  rewrite DayFromYear_next in Hy. lia.
Qed.

(** X19. Where the local offset from UTC is the same at [date] as at the
    start of its year (no daylight saving shift), [dayOfYear] is the
    1-based position of the local day in its year, between 1 and the
    number of days that [buildGrid] gives the year. *)
Theorem dayOfYear_ordinal (date : Z) :
  let y := getFullYear date in
  let day0 := Date.msPerDay * (Date.DayFromYear y + 0 - 1) in
  y < 0 ∨ 99 < y →
  is_Some (newYearDay0 y) →
  LocalTZA date true = LocalTZA day0 false →
  dayOfYear date = Some (ordinalDay date)
  ∧ 1 ≤ ordinalDay date ≤ totalDays y.
Proof.
  intros y day0 Hy Hvalid Hzone.
  split; [by apply dayOfYear_no_shift | apply ordinalDay_range].
Qed.

(** X20. Where local time at [date] is [shift] ahead of local time at the
    start of the year (daylight saving time), [dayOfYear] is one less
    than the position of the local day in its year for as long as the
    local time of day is before [shift]: in the first hour after midnight
    for a shift of an hour. *)
Theorem dayOfYear_daylight_saving (date shift : Z) :
  let y := getFullYear date in
  let day0 := Date.msPerDay * (Date.DayFromYear y + 0 - 1) in
  y < 0 ∨ 99 < y →
  is_Some (newYearDay0 y) →
  LocalTZA date true = LocalTZA day0 false + shift →
  0 < shift ≤ Date.msPerDay →
  (TimeWithinDay (LocalTime date) < shift →
     dayOfYear date = Some (ordinalDay date - 1))
  ∧ (shift ≤ TimeWithinDay (LocalTime date) →
       dayOfYear date = Some (ordinalDay date)).
Proof.
  intros y day0 Hy Hvalid Hzone Hshift.
  split; [by apply dayOfYear_early|].
  intros Htime. rewrite (dayOfYear_shift date shift Hy Hvalid Hzone).
  unfold ordinalDay. fold y.
  unfold Day, TimeWithinDay, Date.msPerDay in *.
  f_equal. Z.div_mod_to_equations. lia.
Qed.

Lemma todayCells_buildGrid (r : Renderer.t) (Y d : Z) :
  configured r → Date.calendarYear Y → 1 ≤ d ≤ totalDays Y →
  todayCells (grid (buildGrid r Y d)) = [mkCell d today].
Proof.
  intros Hcfg HY Hd.
  destruct (calendarYear_getDay Y HY) as (startDay & Hday & _).
  unfold todayCells. rewrite (dayCells_buildGrid r Y d startDay Hcfg Hday).
  by apply today_among_days.
Qed.

(** X21. Without a daylight saving shift, [updateCalendar] builds the
    grid of the current local year in which exactly the cell of the
    current local day is today. *)
Theorem updateCalendar_marks_today (r : Renderer.t) (date : Z) :
  let y := getFullYear date in
  let day0 := Date.msPerDay * (Date.DayFromYear y + 0 - 1) in
  configured r →
  Date.calendarYear y → y < 0 ∨ 99 < y →
  is_Some (newYearDay0 y) →
  LocalTZA date true = LocalTZA day0 false →
  todayCells (grid (updateCalendar r date)) = [mkCell (ordinalDay date) today]
  ∧ length (dayCells (grid (updateCalendar r date)))
    = Z.to_nat (totalDays y).
Proof.
  intros y day0 Hcfg HY Hy Hvalid Hzone.
  pose proof (dayOfYear_no_shift date Hy Hvalid Hzone) as Hdoy.
  pose proof (ordinalDay_range date) as Hrange. fold y in Hrange.
  unfold updateCalendar. fold y. rewrite Hdoy. simpl.
  split; [by apply todayCells_buildGrid|].
  destruct (calendarYear_getDay y HY) as (startDay & Hday & _).
  rewrite (dayCells_buildGrid r y _ startDay Hcfg Hday).
  by rewrite length_fmap, length_seqZ.
Qed.

(** X22. The check for midnight rebuilds the grid exactly when it runs
    within the first second of a local day; at any other time it leaves
    the renderer as it is. *)
Theorem midnightCheck_first_second (r : Renderer.t) (n : Z) :
  (TimeWithinDay (LocalTime n) < 1000 →
     midnightCheck r n = updateCalendar r n)
  ∧ (1000 ≤ TimeWithinDay (LocalTime n) → midnightCheck r n = r).
Proof.
  unfold midnightCheck, getHours, getMinutes, getSeconds.
  rewrite HourMinSec_midnight.
  split; intros Htime.
  - apply Z.ltb_lt in Htime. by rewrite Htime.
  - apply Z.ltb_ge in Htime. by rewrite Htime.
Qed.

(** X23. Under daylight saving time the rebuild at midnight marks the
    wrong day: when local time is [shift] (at least a second) ahead of
    local time at the start of the year, the check for midnight, run in
    the first second of local day k >= 2 of the year, leaves a grid whose
    today cell is day k - 1. *)
Theorem midnight_rebuild_daylight_saving (r : Renderer.t) (n shift : Z) :
  let y := getFullYear n in
  let day0 := Date.msPerDay * (Date.DayFromYear y + 0 - 1) in
  configured r →
  Date.calendarYear y → y < 0 ∨ 99 < y →
  is_Some (newYearDay0 y) →
  LocalTZA n true = LocalTZA day0 false + shift →
  1000 ≤ shift ≤ Date.msPerDay →
  TimeWithinDay (LocalTime n) < 1000 →
  2 ≤ ordinalDay n →
  todayCells (grid (midnightCheck r n)) = [mkCell (ordinalDay n - 1) today].
Proof.
  intros y day0 Hcfg HY Hy Hvalid Hzone Hshift Htime Hk.
  unfold midnightCheck, getHours, getMinutes, getSeconds.
  rewrite HourMinSec_midnight.
  assert ((TimeWithinDay (LocalTime n) <? 1000) = true) as ->
    by (by apply Z.ltb_lt).
  pose proof (dayOfYear_early n shift Hy Hvalid Hzone ltac:(lia) ltac:(lia))
    as Hdoy.
  unfold updateCalendar. fold y. rewrite Hdoy. simpl.
  pose proof (ordinalDay_range n) as Hrange. fold y in Hrange.
  apply todayCells_buildGrid; [done|done|lia].
Qed.
End AppFacts.

(** ** The clock *)
Section ClockFacts.
Import LocalDate App.
Context `{TimeZone} `{Locale}.

Lemma pad2_twoDigits (n : Z) : 0 ≤ n < 100 → pad2 n = twoDigits n.
Proof.
  intros Hn.
  assert (forallb (λ k, String.eqb (pad2 k) (twoDigits k)) (seqZ 0 100) = true)
    as Hall by (vm_compute; reflexivity).
  rewrite forallb_forall in Hall.
  apply String.eqb_eq, Hall, list_elem_of_In, elem_of_seqZ. lia.
Qed.

Lemma twoDigits_inj (n m : Z) :
  0 ≤ n < 100 → 0 ≤ m < 100 → twoDigits n = twoDigits m → n = m.
Proof.
  intros Hn Hm Heq.
  assert (forallb (λ k, Z.eqb (10 * (Z.of_N (N_of_ascii (digitChar (k / 10))) - 48)
                               + (Z.of_N (N_of_ascii (digitChar (k mod 10))) - 48))
                              k)
                  (seqZ 0 100) = true) as Hall by (vm_compute; reflexivity).
  rewrite forallb_forall in Hall.
  assert (∀ k, 0 ≤ k < 100 →
            10 * (Z.of_N (N_of_ascii (digitChar (k / 10))) - 48)
            + (Z.of_N (N_of_ascii (digitChar (k mod 10))) - 48) = k) as Hval.
  { intros k Hk. apply Z.eqb_eq, Hall, list_elem_of_In, elem_of_seqZ. lia. }
  rewrite <- (Hval n Hn), <- (Hval m Hm).
  unfold twoDigits in Heq. injection Heq as Hhi Hlo.
  apply (f_equal N_of_ascii) in Hhi, Hlo. by rewrite Hhi, Hlo.
Qed.

Lemma getHours_range (date : Z) : 0 ≤ getHours date < 24.
Proof. unfold getHours, HourFromTime. apply Z.mod_pos_bound. lia. Qed.

Lemma getMinutes_range (date : Z) : 0 ≤ getMinutes date < 60.
Proof. unfold getMinutes, MinFromTime. apply Z.mod_pos_bound. lia. Qed.

(** X24. The clock text is always five characters, two digits of the
    hour (00..23), a colon and two digits of the minute (00..59); two
    dates show the same text only if their local hour and minute agree. *)
Theorem timeStr_format (date : Z) :
  timeStr date
  = twoDigits (getHours date) +:+ ":" +:+ twoDigits (getMinutes date)
  ∧ String.length (timeStr date) = 5%nat
  ∧ ∀ date', timeStr date' = timeStr date →
      getHours date' = getHours date ∧ getMinutes date' = getMinutes date.
Proof.
  assert (∀ d, timeStr d
               = twoDigits (getHours d) +:+ ":" +:+ twoDigits (getMinutes d))
    as Hfmt.
  { intros d. unfold timeStr.
    pose proof (getHours_range d). pose proof (getMinutes_range d).
    by rewrite !pad2_twoDigits by lia. }
  split; [apply Hfmt|]. split; [by rewrite Hfmt|].
  intros date' Heq. rewrite !Hfmt in Heq.
  pose proof (getHours_range date). pose proof (getMinutes_range date).
  pose proof (getHours_range date'). pose proof (getMinutes_range date').
  assert (twoDigits (getHours date') = twoDigits (getHours date)
          ∧ twoDigits (getMinutes date') = twoDigits (getMinutes date))
    as [Hh Hm].
  { unfold twoDigits in *. simpl in Heq. injection Heq as -> -> -> ->. done. }
  split; apply twoDigits_inj; (done || lia).
Qed.

(** X25. After a clock update the two text nodes show the current time
    and date; an update whose time and date texts are those of the update
    before writes nothing. *)
Theorem clockUpdate_writes_on_change (date date' : Z) (d : Display) :
  clockText (clockUpdate date d) = timeStr date
  ∧ dateText (clockUpdate date d) = toLocaleDateString date
  ∧ (writes d ≤ writes (clockUpdate date d) ≤ writes d + 2)%nat
  ∧ (timeStr date' = timeStr date →
     toLocaleDateString date' = toLocaleDateString date →
     clockUpdate date' (clockUpdate date d) = clockUpdate date d).
Proof.
  assert (∀ dt dp, clockText (clockUpdate dt dp) = timeStr dt
                   ∧ dateText (clockUpdate dt dp) = toLocaleDateString dt)
    as Hshow.
  { intros dt dp. unfold clockUpdate.
    destruct (String.eqb (clockText dp) (timeStr dt)) eqn:E1; simpl;
      destruct (String.eqb _ (toLocaleDateString dt)) eqn:E2; simpl;
      rewrite ?String.eqb_eq in *; done. }
  destruct (Hshow date d) as [Hc Hd].
  split; [done|]. split; [done|]. split.
  - unfold clockUpdate.
    destruct (String.eqb (clockText d) (timeStr date)); simpl;
      destruct (String.eqb _ (toLocaleDateString date)); simpl; lia.
  - intros Ht Hl. unfold clockUpdate at 1.
    rewrite Hc, Hd, Ht, Hl, !String.eqb_refl. simpl.
    by rewrite Hd, String.eqb_refl.
Qed.
End ClockFacts.

(** ** The further properties at sample inputs *)
Section MoreSamples.
Import Renderer GridSpec Canvas DrawSpec.
#[local] Existing Instances RefJSON.json RefJSON.numeric.

Lemma totalDays_2025 : 1 ≤ 60 ≤ totalDays 2025.
Proof. vm_compute. split; discriminate. Qed.

Lemma grid_day_position_witness :
  configured sampleRenderer
  ∧ Date.getDay (Date.newJan1 2025) = Some 3
  ∧ cellOf (grid (buildGrid sampleRenderer 2025 60)) 8 5
    = Some (mkCell 60 today).
Proof.
  assert (configured sampleRenderer) as H1 by (by repeat split).
  assert (Date.getDay (Date.newJan1 2025) = Some 3) as H2 by reflexivity.
  split; [exact H1|]. split; [exact H2|].
  exact (proj1 (grid_day_position sampleRenderer 2025 60 3 H1 H2)
               60 totalDays_2025).
Defined.

Lemma grid_column_is_weekday_witness :
  configured sampleRenderer
  ∧ Date.getDay (Date.newJan1 2025) = Some 3
  ∧ 1 ≤ 60 ≤ totalDays 2025
  ∧ nativeIndex Saturday = Date.WeekDay (timeOfDay 2025 60)
  ∧ ∃ r : nat,
      cellOf (grid (buildGrid sampleRenderer 2025 60)) r 5
      = Some (mkCell 60 today).
Proof.
  assert (configured sampleRenderer) as H1 by (by repeat split).
  assert (Date.getDay (Date.newJan1 2025) = Some 3) as H2 by reflexivity.
  assert (nativeIndex Saturday = Date.WeekDay (timeOfDay 2025 60)) as H4
    by reflexivity.
  split; [exact H1|]. split; [exact H2|]. split; [exact totalDays_2025|].
  split; [exact H4|].
  exact (grid_column_is_weekday sampleRenderer 2025 60 3 60 Saturday
           H1 H2 totalDays_2025 H4).
Defined.

Lemma grid_row_count_witness :
  configured sampleRenderer
  ∧ Date.calendarYear 2012
  ∧ (2012 < 0 ∨ 99 < 2012)
  ∧ leapYear 2012
  ∧ jan1WeekDay 2012 = nativeIndex Sunday
  ∧ length (grid (buildGrid sampleRenderer 2012 1)) = 54%nat.
Proof.
  assert (configured sampleRenderer) as H1 by (by repeat split).
  assert (Date.calendarYear 2012) as H2 by (unfold Date.calendarYear; lia).
  assert (2012 < 0 ∨ 99 < 2012) as H3 by (right; lia).
  assert (leapYear 2012) as H4 by (left; split; [reflexivity|discriminate]).
  assert (jan1WeekDay 2012 = nativeIndex Sunday) as H5 by reflexivity.
  split; [exact H1|]. split; [exact H2|]. split; [exact H3|].
  split; [exact H4|]. split; [exact H5|].
  exact (proj2 (proj2 (grid_row_count sampleRenderer 2012 1 H1 H2 H3))
               (conj H4 H5)).
Defined.

Lemma grid_progress_witness :
  configured sampleRenderer
  ∧ Date.getDay (Date.newJan1 2025) = Some 3
  ∧ 1 ≤ 60 ≤ totalDays 2025
  ∧ statusCount past (grid (buildGrid sampleRenderer 2025 60)) = 59%nat
  ∧ statusCount today (grid (buildGrid sampleRenderer 2025 60)) = 1%nat
  ∧ statusCount future (grid (buildGrid sampleRenderer 2025 60)) = 305%nat.
Proof.
  assert (configured sampleRenderer) as H1 by (by repeat split).
  assert (Date.getDay (Date.newJan1 2025) = Some 3) as H2 by reflexivity.
  split; [exact H1|]. split; [exact H2|]. split; [exact totalDays_2025|].
  exact (grid_progress sampleRenderer 2025 60 3 H1 H2 totalDays_2025).
Defined.

Lemma next_year_offset_witness :
  (2024 < -1 ∨ 99 < 2024)
  ∧ Date.getDay (Date.newJan1 2024) = Some 1
  ∧ Date.getDay (Date.newJan1 (2024 + 1)) = Some 3
  ∧ offsetOf 3 = (offsetOf 1 + totalDays 2024) mod 7.
Proof.
  assert (2024 < -1 ∨ 99 < 2024) as H1 by (right; reflexivity).
  assert (Date.getDay (Date.newJan1 2024) = Some 1) as H2 by reflexivity.
  assert (Date.getDay (Date.newJan1 (2024 + 1)) = Some 3) as H3 by reflexivity.
  split; [exact H1|]. split; [exact H2|]. split; [exact H3|].
  exact (next_year_offset 2024 1 3 H1 H2 H3).
Defined.

Lemma buildGrid_canvas_size_witness :
  configured sampleRenderer
  ∧ Date.getDay (Date.newJan1 2024) = Some 1
  ∧ styleWidth newYear2024 = 196
  ∧ styleHeight newYear2024 = 14 * Z.of_nat (length (grid newYear2024)).
Proof.
  assert (configured sampleRenderer) as H1 by (by repeat split).
  assert (Date.getDay (Date.newJan1 2024) = Some 1) as H2 by reflexivity.
  split; [exact H1|]. split; [exact H2|].
  destruct (buildGrid_canvas_size sampleRenderer 2024 1 1 H1 H2)
    as (Hw & Hh & _).
  split; [exact Hw | exact Hh].
Defined.


Lemma buildGrid_invalid_year_witness :
  ¬ Date.calendarYear 300000
  ∧ grid (buildGrid newYear2024 300000 1) = []
  ∧ styleHeight (buildGrid newYear2024 300000 1) = styleHeight newYear2024.
Proof.
  assert (¬ Date.calendarYear 300000) as H1
    by (unfold Date.calendarYear; lia).
  split; [exact H1|].
  destruct (@buildGrid_invalid_year RefJSON.numeric newYear2024 300000 1 H1)
    as (Hg & _ & Hh & _).
  split; [exact Hg | exact Hh].
Defined.

Lemma draw_restores_context_witness :
  settled fresh
  ∧ settled (run fresh (draw newYear2024 Settings.theDefaults
                          "#444444" "#222222" 0)).1.
Proof.
  split; [exact settled_fresh|].
  exact (proj1 (draw_restores_context newYear2024 Settings.theDefaults
                  "#444444" "#222222" 0 fresh settled_fresh)).
Defined.

Lemma glowOff_future_mark :
  Filled [circle (centerX newYear2024 1) (centerY newYear2024 0)
            (parseFloat (prop glowOffState "dotSize"))]
         (VStr "#222222") 1 0
  ∈ marks fresh (draw newYear2024 glowOffState "#444444" "#222222" 0).
Proof.
  destruct (frame_cell_marks newYear2024 glowOffState "#444444" "#222222"
              0 fresh 0 1 firstRow2024 (mkCell 2 future)
              settled_fresh firstRow_newYear2024 eq_refl)
    as (before & after & ->).
  apply elem_of_app. right. apply elem_of_app. left.
  apply list_elem_of_here.
Qed.

Lemma draw_without_glow_witness :
  settled fresh
  ∧ truthy (prop glowOffState "glowEnabled") = false
  ∧ Filled [circle (centerX newYear2024 1) (centerY newYear2024 0)
              (parseFloat (prop glowOffState "dotSize"))]
           (VStr "#222222") 1 0
    ∈ marks fresh (draw newYear2024 glowOffState "#444444" "#222222" 0)
  ∧ (1 = 1)%R.
Proof.
  assert (truthy (prop glowOffState "glowEnabled") = false) as H2
    by reflexivity.
  split; [exact settled_fresh|]. split; [exact H2|].
  split; [exact glowOff_future_mark|].
  exact (proj1 (draw_without_glow newYear2024 glowOffState "#444444"
                  "#222222" 0 fresh _ _ _ _ settled_fresh H2
                  glowOff_future_mark)).
Defined.

(** *** Settings *)

Lemma reachable_fully_populated_witness :
  Settings.reachable lightSettings
  ∧ "dotSize"%string ∈ settingNames
  ∧ is_Some (Settings.state lightSettings !! "dotSize"%string).
Proof.
  assert ("dotSize"%string ∈ settingNames) as H2.
  { do 2 apply list_elem_of_further. apply list_elem_of_here. }
  split; [exact reachable_lightSettings|]. split; [exact H2|].
  exact (proj1 (reachable_fully_populated lightSettings "dotSize"
                  reachable_lightSettings H2)).
Defined.

Lemma new_emptyWorld :
  Settings.new emptyWorld
  = Ok (freshSettings, Settings.apply freshSettings emptyWorld).
Proof. vm_compute. reflexivity. Qed.

Lemma constructor_reads_only_witness :
  Settings.new emptyWorld
  = Ok (freshSettings, Settings.apply freshSettings emptyWorld)
  ∧ Settings.localStorage (Settings.apply freshSettings emptyWorld)
    = Settings.localStorage emptyWorld.
Proof.
  split; [exact new_emptyWorld|].
  exact (proj1 (constructor_reads_only emptyWorld _ freshSettings
                  new_emptyWorld)).
Defined.

Lemma reset_restores_defaults_witness :
  Settings.reachable lightSettings
  ∧ let '(this', w', inputs) := UI.resetClick lightSettings emptyWorld in
    Settings.state this' = Settings.theDefaults
    ∧ Settings.defaults this' = Settings.theDefaults
    ∧ Settings.getItem w' "memento_settings"
      = Some (JSON_stringify Settings.theDefaults)
    ∧ Settings.document w'
      = Settings.mkDom (VStr "dark") (VStr "#f28c38") false
    ∧ inputs = UI.mkInputs false (VStr "#f28c38") (VNum (mkNumber 35 1))
                           true true.
Proof.
  split; [exact reachable_lightSettings|].
  exact (reset_restores_defaults lightSettings emptyWorld
           reachable_lightSettings).
Defined.

Lemma update_order_witness :
  "theme"%string ≠ "dotSize"%string
  ∧ is_Some (Settings.state freshSettings !! "theme")
  ∧ is_Some (Settings.state freshSettings !! "dotSize")
  ∧ Settings.update "dotSize" (VStr "5")
      (Settings.update "theme" (VStr "light") freshSettings emptyWorld).1
      (Settings.update "theme" (VStr "light") freshSettings emptyWorld).2
    = Settings.update "theme" (VStr "light")
        (Settings.update "dotSize" (VStr "5") freshSettings emptyWorld).1
        (Settings.update "dotSize" (VStr "5") freshSettings emptyWorld).2.
Proof.
  assert ("theme"%string ≠ "dotSize"%string) as H1 by discriminate.
  assert (is_Some (Settings.state freshSettings !! "theme")) as H2
    by (by eexists).
  assert (is_Some (Settings.state freshSettings !! "dotSize")) as H3
    by (by eexists).
  split; [exact H1|]. split; [exact H2|]. split; [exact H3|].
  exact (proj1 (update_order "theme" "dotSize" (VStr "light") (VStr "5")
                  freshSettings emptyWorld) H1 H2 H3).
Defined.

Lemma load_non_object_witness :
  Settings.getItem (worldWith "null") "memento_settings" = Some "null"%string
  ∧ "null"%string ≠ EmptyString
  ∧ JSON_parse "null" = Some VNull
  ∧ Settings.load freshSettings (worldWith "null")
    = Ok Settings.theDefaults.
Proof.
  assert (Settings.getItem (worldWith "null") "memento_settings"
          = Some "null"%string) as H1 by (vm_compute; reflexivity).
  assert ("null"%string ≠ EmptyString) as H2 by discriminate.
  assert (JSON_parse "null" = Some VNull) as H3 by (vm_compute; reflexivity).
  split; [exact H1|]. split; [exact H2|]. split; [exact H3|].
  exact (load_non_object freshSettings (worldWith "null") "null" VNull
           H1 H2 H3 (or_introl eq_refl)).
Defined.

(** *** The loop *)

Lemma stop_halts_witness :
  forallb (λ e, negb (Loop.isStart e))
          [Loop.Frame 2 sampleScene 33; Loop.Rebuild 2025 60; Loop.Resize]
  = true
  ∧ let '(this1, f1, _) :=
      Loop.run (Loop.initial sampleRenderer) Loop.noFrames
        [Loop.Start sampleScene 0; Loop.Frame 1 sampleScene 16] in
    let '(this2, f2, ops) :=
      Loop.run this1 f1
        (Loop.Stop
         :: [Loop.Frame 2 sampleScene 33; Loop.Rebuild 2025 60; Loop.Resize]) in
    Loop.pending f2 = ∅ ∧ ops = [].
Proof.
  assert (forallb (λ e, negb (Loop.isStart e))
            [Loop.Frame 2 sampleScene 33; Loop.Rebuild 2025 60; Loop.Resize]
          = true) as H1 by reflexivity.
  split; [exact H1|].
  exact (stop_halts sampleRenderer
           [Loop.Start sampleScene 0; Loop.Frame 1 sampleScene 16]
           [Loop.Frame 2 sampleScene 33; Loop.Rebuild 2025 60; Loop.Resize]
           H1).
Defined.

Lemma start_runs_witness :
  forallb (λ e, match e with
                | Loop.Frame _ _ _ | Loop.Rebuild _ _ | Loop.Resize => true
                | Loop.Start _ _ | Loop.Stop => false
                end)
          [Loop.Frame 1 sampleScene 16; Loop.Rebuild 2025 60;
           Loop.Frame 2 sampleScene 33] = true
  ∧ let '(this1, f1, _) :=
      Loop.run (Loop.initial sampleRenderer) Loop.noFrames [Loop.Stop] in
    let '(this2, f2, ops) := Loop.step this1 f1 (Loop.Start sampleScene 5) in
    let '(this3, f3, _) :=
      Loop.run this2 f2
        [Loop.Frame 1 sampleScene 16; Loop.Rebuild 2025 60;
         Loop.Frame 2 sampleScene 33] in
    ops = Renderer.draw (Loop.withStartTime (Loop.renderer this1) 5)
            (Loop.sceneState sampleScene) (Loop.scenePast sampleScene)
            (Loop.sceneFuture sampleScene) 5
    ∧ Renderer.startTime (Loop.renderer this2) = 5%R
    ∧ Loop.running this2 f2
    ∧ Loop.running this3 f3.
Proof.
  assert (forallb (λ e, match e with
                        | Loop.Frame _ _ _ | Loop.Rebuild _ _ | Loop.Resize => true
                        | Loop.Start _ _ | Loop.Stop => false
                        end)
            [Loop.Frame 1 sampleScene 16; Loop.Rebuild 2025 60;
             Loop.Frame 2 sampleScene 33] = true) as H1 by reflexivity.
  split; [exact H1|].
  exact (start_runs sampleRenderer [Loop.Stop] sampleScene 5
           [Loop.Frame 1 sampleScene 16; Loop.Rebuild 2025 60;
            Loop.Frame 2 sampleScene 33] H1).
Defined.

(** *** The calendar of the controller *)

Lemma noonMarch1_year : @LocalDate.getFullYear (fixedZone 3600000) noonMarch1 = 2025.
Proof. vm_compute. reflexivity. Qed.

Lemma midnightJuly1_year : @LocalDate.getFullYear summerZone midnightJuly1 = 2025.
Proof. vm_compute. reflexivity. Qed.

Lemma dayOfYear_ordinal_witness :
  (let y := @LocalDate.getFullYear (fixedZone 3600000) noonMarch1 in
   (y < 0 ∨ 99 < y)
   ∧ is_Some (@LocalDate.newYearDay0 (fixedZone 3600000) y))
  ∧ @App.dayOfYear (fixedZone 3600000) noonMarch1
    = Some (@ordinalDay (fixedZone 3600000) noonMarch1)
  ∧ @ordinalDay (fixedZone 3600000) noonMarch1 = 60.
Proof.
  assert (let y := @LocalDate.getFullYear (fixedZone 3600000) noonMarch1 in
          y < 0 ∨ 99 < y) as H1.
  { rewrite noonMarch1_year. right. reflexivity. }
  assert (is_Some (@LocalDate.newYearDay0 (fixedZone 3600000)
                     (@LocalDate.getFullYear (fixedZone 3600000) noonMarch1)))
    as H2.
  { rewrite noonMarch1_year. vm_compute. eexists. reflexivity. }
  split; [split; [exact H1 | exact H2]|].
  split; [|vm_compute; reflexivity].
  exact (proj1 (@dayOfYear_ordinal (fixedZone 3600000) noonMarch1
                  H1 H2 eq_refl)).
Defined.

Lemma summer_shift :
  @LocalTZA summerZone midnightJuly1 true
  = @LocalTZA summerZone
      (Date.msPerDay
       * (Date.DayFromYear (@LocalDate.getFullYear summerZone midnightJuly1)
          + 0 - 1)) false
    + 3600000.
Proof. rewrite midnightJuly1_year. vm_compute. reflexivity. Qed.

Lemma summer_year :
  let y := @LocalDate.getFullYear summerZone midnightJuly1 in y < 0 ∨ 99 < y.
Proof. rewrite midnightJuly1_year. right. reflexivity. Qed.

Lemma summer_valid :
  is_Some (@LocalDate.newYearDay0 summerZone
             (@LocalDate.getFullYear summerZone midnightJuly1)).
Proof. rewrite midnightJuly1_year. vm_compute. eexists. reflexivity. Qed.

Lemma summer_first_second :
  LocalDate.TimeWithinDay (@LocalDate.LocalTime summerZone midnightJuly1)
  < 1000.
Proof. vm_compute. reflexivity. Qed.

Lemma dayOfYear_daylight_saving_witness :
  0 < 3600000 ≤ Date.msPerDay
  ∧ LocalDate.TimeWithinDay (@LocalDate.LocalTime summerZone midnightJuly1)
    < 3600000
  ∧ @ordinalDay summerZone midnightJuly1 = 182
  ∧ @App.dayOfYear summerZone midnightJuly1
    = Some (@ordinalDay summerZone midnightJuly1 - 1).
Proof.
  assert (0 < 3600000 ≤ Date.msPerDay) as H4
    by (vm_compute; split; [reflexivity | discriminate]).
  assert (LocalDate.TimeWithinDay
            (@LocalDate.LocalTime summerZone midnightJuly1) < 3600000) as H5
    by (vm_compute; reflexivity).
  split; [exact H4|]. split; [exact H5|]. split; [vm_compute; reflexivity|].
  exact (proj1 (@dayOfYear_daylight_saving summerZone midnightJuly1 3600000
                  summer_year summer_valid summer_shift H4) H5).
Defined.

Lemma updateCalendar_marks_today_witness :
  configured sampleRenderer
  ∧ Date.calendarYear (@LocalDate.getFullYear (fixedZone 3600000) noonMarch1)
  ∧ todayCells
      (grid (@App.updateCalendar (fixedZone 3600000) sampleRenderer noonMarch1))
    = [mkCell (@ordinalDay (fixedZone 3600000) noonMarch1) today].
Proof.
  assert (configured sampleRenderer) as H1 by (by repeat split).
  assert (Date.calendarYear
            (@LocalDate.getFullYear (fixedZone 3600000) noonMarch1)) as H2.
  { rewrite noonMarch1_year. unfold Date.calendarYear. lia. }
  assert (let y := @LocalDate.getFullYear (fixedZone 3600000) noonMarch1 in
          y < 0 ∨ 99 < y) as H3.
  { rewrite noonMarch1_year. right. reflexivity. }
  assert (is_Some (@LocalDate.newYearDay0 (fixedZone 3600000)
                     (@LocalDate.getFullYear (fixedZone 3600000) noonMarch1)))
    as H4.
  { rewrite noonMarch1_year. vm_compute. eexists. reflexivity. }
  split; [exact H1|]. split; [exact H2|].
  exact (proj1 (@updateCalendar_marks_today (fixedZone 3600000)
                  sampleRenderer noonMarch1 H1 H2 H3 H4 eq_refl)).
Defined.

Lemma midnightCheck_first_second_witness :
  LocalDate.TimeWithinDay (@LocalDate.LocalTime summerZone midnightJuly1)
  < 1000
  ∧ @App.midnightCheck summerZone sampleRenderer midnightJuly1
    = @App.updateCalendar summerZone sampleRenderer midnightJuly1.
Proof.
  split; [exact summer_first_second|].
  exact (proj1 (@midnightCheck_first_second summerZone sampleRenderer
                  midnightJuly1) summer_first_second).
Defined.

Lemma midnight_rebuild_daylight_saving_witness :
  configured sampleRenderer
  ∧ Date.calendarYear (@LocalDate.getFullYear summerZone midnightJuly1)
  ∧ 1000 ≤ 3600000 ≤ Date.msPerDay
  ∧ 2 ≤ @ordinalDay summerZone midnightJuly1
  ∧ @ordinalDay summerZone midnightJuly1 = 182
  ∧ todayCells
      (grid (@App.midnightCheck summerZone sampleRenderer midnightJuly1))
    = [mkCell (@ordinalDay summerZone midnightJuly1 - 1) today].
Proof.
  assert (configured sampleRenderer) as H1 by (by repeat split).
  assert (Date.calendarYear (@LocalDate.getFullYear summerZone midnightJuly1))
    as H2.
  { rewrite midnightJuly1_year. unfold Date.calendarYear. lia. }
  assert (1000 ≤ 3600000 ≤ Date.msPerDay) as H6
    by (vm_compute; split; discriminate).
  assert (2 ≤ @ordinalDay summerZone midnightJuly1) as H8
    by (vm_compute; discriminate).
  split; [exact H1|]. split; [exact H2|]. split; [exact H6|].
  split; [exact H8|]. split; [vm_compute; reflexivity|].
  exact (@midnight_rebuild_daylight_saving summerZone sampleRenderer
           midnightJuly1 3600000 H1 H2 summer_year summer_valid summer_shift
           H6 summer_first_second H8).
Defined.
End MoreSamples.
